(** * openTrackers: the tracker monitor (main.py) and the HTML scraper (scraper.py)

    A shallow embedding of the two Python programs, the proofs of what
    their specification says about them, and the proofs of further
    properties of the code: what the adapters read from a post, what a run
    writes and never does, and what the scraper makes of a page.

    Text is read as ASCII: a [string] is the sequence of the characters of a
    Python [str].  Exceptions are values of [exn] carried by [result];
    effects (clock, network, console, files) are threaded through the monad
    [M].  Library routines whose tables are not part of this repository are
    fields of the class [PyLib]. *)

From Stdlib Require Import ZArith Ascii String List Lia Permutation.
From stdpp Require Import base option list sorting gmap strings pretty.

Set Warnings "-register-all".
Open Scope string_scope.
Open Scope Z_scope.

(* ===================================================================== *)
(** * Python values and builtins *)
(* ===================================================================== *)

Module Py.

(** ** Exceptions *)

Inductive exn :=
| KeyError | IndexError | TypeError | AttributeError | ValueError
| HTTPStatusError | TransportError | JSONDecodeError.

Inductive result (A : Type) :=
| Ok (a : A)
| Raise (e : exn).
Arguments Ok {A} a.
Arguments Raise {A} e.

#[export] Instance result_ret : MRet result := fun A a => Ok a.
#[export] Instance result_bind : MBind result := fun A B f r =>
  match r with Ok a => f a | Raise e => Raise e end.
#[export] Instance result_fmap : FMap result := fun A B f r =>
  match r with Ok a => Ok (f a) | Raise e => Raise e end.

(** [[f(x) for x in xs]]: the first exception ends the comprehension. *)
Fixpoint comprehension {A B} (f : A -> result B) (xs : list A) : result (list B) :=
  match xs with
  | [] => Ok []
  | x :: xs' => y ← f x; ys ← comprehension f xs'; Ok (y :: ys)
  end.

(** [[f(x) for x in xs if cond(x)]] *)
Fixpoint comprehension_if {A B} (cond : A -> result bool) (f : A -> result B)
    (xs : list A) : result (list B) :=
  match xs with
  | [] => Ok []
  | x :: xs' =>
      c ← cond x;
      if c : bool then y ← f x; ys ← comprehension_if cond f xs'; Ok (y :: ys)
      else comprehension_if cond f xs'
  end.

(** ** str *)

(** [str.isspace] on ASCII: tab, line feed, vertical tab, form feed, carriage
    return, the four separators 0x1c-0x1f and the space. *)
Definition isspace (c : ascii) : bool :=
  let n := N_of_ascii c in
  (((9 <=? n) && (n <=? 13)) || ((28 <=? n) && (n <=? 32)))%N.

Fixpoint lstrip (s : string) : string :=
  match s with
  | String c s' => if isspace c then lstrip s' else s
  | EmptyString => EmptyString
  end.

Fixpoint rstrip (s : string) : string :=
  match s with
  | String c s' =>
      match rstrip s' with
      | EmptyString => if isspace c then EmptyString else String c EmptyString
      | r => String c r
      end
  | EmptyString => EmptyString
  end.

(** [s.strip()] *)
Definition strip (s : string) : string := rstrip (lstrip s).

(** [s.startswith(p)] *)
Fixpoint startswith (p s : string) : bool :=
  match p, s with
  | EmptyString, _ => true
  | String a p', String b s' => Ascii.eqb a b && startswith p' s'
  | String _ _, EmptyString => false
  end.

(** [sub in s] *)
Fixpoint contains (sub s : string) : bool :=
  startswith sub s ||
  match s with
  | String _ s' => contains sub s'
  | EmptyString => false
  end.

(** [s.replace(old, new)] for a non-empty [old]: the occurrences of [old] are
    taken from left to right without overlap.  [skip] counts the characters
    of a matched occurrence that are still to be passed over. *)
Fixpoint replace_from (old new : string) (skip : nat) (s : string) : string :=
  match s with
  | EmptyString => EmptyString
  | String c s' =>
      match skip with
      | S k => replace_from old new k s'
      | O =>
          if startswith old s
          then new +:+ replace_from old new (Nat.pred (String.length old)) s'
          else String c (replace_from old new 0 s')
      end
  end.

(** With an empty [old], [new] is put before every character and at the end. *)
Fixpoint interleave (new s : string) : string :=
  match s with
  | EmptyString => new
  | String c s' => new +:+ String c (interleave new s')
  end.

Definition replace (old new s : string) : string :=
  match old with
  | EmptyString => interleave new s
  | _ => replace_from old new 0 s
  end.

(** [a < b] on strings: by the first character that differs, a proper prefix
    being smaller. *)
Fixpoint str_lt (a b : string) : bool :=
  match a, b with
  | String x a', String y b' =>
      (N_of_ascii x <? N_of_ascii y)%N || (Ascii.eqb x y && str_lt a' b')
  | EmptyString, String _ _ => true
  | _, EmptyString => false
  end.

(** [re.sub(r'\s+', ' ', s)]: every run of white space becomes one space.
    [in_run] tells that the character before was white space. *)
Fixpoint collapse_spaces (in_run : bool) (s : string) : string :=
  match s with
  | EmptyString => EmptyString
  | String c s' =>
      if isspace c
      then (if in_run then collapse_spaces true s' else String " " (collapse_spaces true s'))
      else String c (collapse_spaces false s')
  end.

(** ASCII [str.lower] *)
Definition lower_char (c : ascii) : ascii :=
  let n := N_of_ascii c in
  if ((65 <=? n) && (n <=? 90))%N then ascii_of_N (n + 32) else c.

Fixpoint lower (s : string) : string :=
  match s with
  | EmptyString => EmptyString
  | String c s' => String (lower_char c) (lower s')
  end.

(** [sep.join(xs)] *)
Fixpoint join (sep : string) (xs : list string) : string :=
  match xs with
  | [] => ""
  | [x] => x
  | x :: xs' => x +:+ sep +:+ join sep xs'
  end.

(** [s[:n]] *)
Fixpoint take_str (n : nat) (s : string) : string :=
  match n, s with
  | S k, String c s' => String c (take_str k s')
  | _, _ => EmptyString
  end.

(** A non-negative number in decimal, padded with zeros to [width] digits
    (the [%02d], [%04d] and [%06d] of the date formats). *)
Definition zfill (width : nat) (n : Z) : string :=
  let digits := pretty (Z.to_N n) in
  String.concat "" (replicate (width - String.length digits) "0") +:+ digits.

(** ** JSON documents, as [json.loads] decodes them *)

Inductive json :=
| JNull
| JBool (b : bool)
| JNum (n : Z)   (* numbers are whole: [created_utc] is a count of seconds *)
| JStr (s : string)
| JArr (items : list json)
| JObj (members : list (string * json)).

(** Lookup in the members of a decoded object (keys are unique there). *)
Fixpoint assoc (k : string) (kv : list (string * json)) : option json :=
  match kv with
  | [] => None
  | (k', v) :: kv' => if String.eqb k k' then Some v else assoc k kv'
  end.

(** [d[key]] with a string key *)
Definition getitem (d : json) (key : string) : result json :=
  match d with
  | JObj kv => match assoc key kv with Some v => Ok v | None => Raise KeyError end
  | _ => Raise TypeError
  end.

(** [d.get(key, default)] *)
Definition get (d : json) (key : string) (default : json) : result json :=
  match d with
  | JObj kv => Ok (match assoc key kv with Some v => v | None => default end)
  | _ => Raise AttributeError
  end.

Fixpoint chars (s : string) : list json :=
  match s with
  | EmptyString => []
  | String c s' => JStr (String c EmptyString) :: chars s'
  end.

(** [for x in d]: the items of an array, the keys of an object, the
    characters of a string. *)
Definition iter (d : json) : result (list json) :=
  match d with
  | JArr l => Ok l
  | JObj kv => Ok (map (fun p => JStr (fst p)) kv)
  | JStr s => Ok (chars s)
  | _ => Raise TypeError
  end.

(** [d[0]] *)
Definition getitem0 (d : json) : result json :=
  match d with
  | JArr (x :: _) => Ok x
  | JArr [] => Raise IndexError
  | JStr (String c _) => Ok (JStr (String c EmptyString))
  | JStr EmptyString => Raise IndexError
  | JObj _ => Raise KeyError
  | _ => Raise TypeError
  end.

(** Truth value of a decoded document ([if x], [x or y]). *)
Definition truthy (d : json) : bool :=
  match d with
  | JNull => false
  | JBool b => b
  | JNum n => negb (n =? 0)
  | JStr s => negb (String.eqb s "")
  | JArr l => match l with [] => false | _ => true end
  | JObj kv => match kv with [] => false | _ => true end
  end.

(** A document where the code has a string.  The texts that the adapters work
    on (title, excerpt, date) raise on any other document; the fields that are
    handed on as they are (link, term name, id, url) are fields of the
    [TrackerData] dataclass declared [str], and any other document is
    reported as a [TypeError] here. *)
Definition as_str (d : json) : result string :=
  match d with
  | JStr s => Ok s
  | _ => Raise TypeError
  end.

(** [d == s] for a string literal [s] *)
Definition eq_str (d : json) (s : string) : bool :=
  match d with
  | JStr s' => String.eqb s' s
  | _ => false
  end.

End Py.
Export Py.

(* ===================================================================== *)
(** * datetime *)
(* ===================================================================== *)

Module Datetime.

(** A [datetime] object: its fields, and the offset from UTC in seconds of an
    aware object ([None] for a naive one). *)
Record datetime := mk_datetime {
  year : Z; month : Z; day : Z;
  hour : Z; minute : Z; second : Z; microsecond : Z;
  tzinfo : option Z
}.

Definition is_leap (y : Z) : bool :=
  (y mod 4 =? 0) && (negb (y mod 100 =? 0) || (y mod 400 =? 0)).

Definition days_before_year (y : Z) : Z :=
  let y := y - 1 in y * 365 + y / 4 - y / 100 + y / 400.

Definition DAYS_IN_MONTH : list Z := [-1; 31; 28; 31; 30; 31; 30; 31; 31; 30; 31; 30; 31].
Definition DAYS_BEFORE_MONTH : list Z := [-1; 0; 31; 59; 90; 120; 151; 181; 212; 243; 273; 304; 334].

Definition b2z (b : bool) : Z := if b then 1 else 0.

Definition days_in_month (y m : Z) : Z :=
  if (m =? 2) && is_leap y then 29 else nth (Z.to_nat m) DAYS_IN_MONTH 0.

Definition days_before_month (y m : Z) : Z :=
  nth (Z.to_nat m) DAYS_BEFORE_MONTH 0 + b2z ((2 <? m) && is_leap y).

(** [_ymd2ord]: the ordinal of a date, 0001-01-01 being day 1. *)
Definition ymd2ord (y m d : Z) : Z :=
  days_before_year y + days_before_month y m + d.

(** [_ord2ymd]: the date of an ordinal. *)
Definition ord2ymd (n : Z) : Z * Z * Z :=
  let n := n - 1 in
  let n400 := n / 146097 in let n := n mod 146097 in
  let y := n400 * 400 + 1 in
  let n100 := n / 36524 in let n := n mod 36524 in
  let n4 := n / 1461 in let n := n mod 1461 in
  let n1 := n / 365 in let n := n mod 365 in
  let y := y + n100 * 100 + n4 * 4 + n1 in
  if (n1 =? 4) || (n100 =? 4) then (y - 1, 12, 31)
  else
    let leapyear := (n1 =? 3) && (negb (n4 =? 24) || (n100 =? 3)) in
    let m := Z.shiftr (n + 50) 5 in
    let preceding := nth (Z.to_nat m) DAYS_BEFORE_MONTH 0 + b2z ((2 <? m) && leapyear) in
    if n <? preceding
    then
      let m := m - 1 in
      let preceding :=
        preceding - (nth (Z.to_nat m) DAYS_IN_MONTH 0 + b2z ((m =? 2) && leapyear)) in
      (y, m, n - preceding + 1)
    else (y, m, n - preceding + 1).

(** The ordinal of 1970-01-01 and of 9999-12-31. *)
Definition EPOCH_ORDINAL : Z := 719163.
Definition MAX_ORDINAL : Z := 3652059.

(** [datetime.utcfromtimestamp(t)] for a whole number of seconds: a naive
    object; a year outside 1..9999 is an error. *)
Definition utcfromtimestamp (t : Z) : result datetime :=
  let n := EPOCH_ORDINAL + t / 86400 in
  let r := t mod 86400 in
  if (1 <=? n) && (n <=? MAX_ORDINAL) then
    let '(y, m, d) := ord2ymd n in
    Ok (mk_datetime y m d (r / 3600) (r mod 3600 / 60) (r mod 60) 0 None)
  else Raise ValueError.

(** The fields in the order in which two naive objects are compared. *)
Definition fields (d : datetime) : list Z :=
  [year d; month d; day d; hour d; minute d; second d; microsecond d].

Fixpoint lex_lt (a b : list Z) : bool :=
  match a, b with
  | x :: a', y :: b' => (x <? y) || ((x =? y) && lex_lt a' b')
  | [], _ :: _ => true
  | _, [] => false
  end.

(** Microseconds since 0001-01-01T00:00:00 UTC of an aware object with offset
    [off]. *)
Definition instant (d : datetime) (off : Z) : Z :=
  (((ymd2ord (year d) (month d) (day d) * 24 + hour d) * 60 + minute d) * 60
   + second d - off) * 1000000 + microsecond d.

(** [a < b]: naive objects by their fields, aware objects by their instants;
    a naive and an aware object are not ordered. *)
Definition datetime_lt (a b : datetime) : result bool :=
  match tzinfo a, tzinfo b with
  | None, None => Ok (lex_lt (fields a) (fields b))
  | Some oa, Some ob => Ok (instant a oa <? instant b ob)
  | _, _ => Raise TypeError
  end.

(** [d.strftime('%Y-%m-%d')] (years of four digits) *)
Definition strftime_Ymd (d : datetime) : string :=
  zfill 4 (year d) +:+ "-" +:+ zfill 2 (month d) +:+ "-" +:+ zfill 2 (day d).

(** [d.strftime('%Y-%m-%d %H:%M:%S')] *)
Definition strftime_Ymd_HMS (d : datetime) : string :=
  strftime_Ymd d +:+ " " +:+ zfill 2 (hour d) +:+ ":" +:+ zfill 2 (minute d)
  +:+ ":" +:+ zfill 2 (second d).

(** The offset of an aware object as [isoformat] prints it: [+HH:MM], and
    [:SS] when the offset has seconds. *)
Definition format_offset (off : Z) : string :=
  let a := Z.abs off in
  (if off <? 0 then "-" else "+") +:+ zfill 2 (a / 3600) +:+ ":" +:+ zfill 2 (a mod 3600 / 60)
  +:+ (if a mod 60 =? 0 then "" else ":" +:+ zfill 2 (a mod 60)).

(** [d.isoformat()] *)
Definition isoformat (d : datetime) : string :=
  strftime_Ymd d +:+ "T" +:+ zfill 2 (hour d) +:+ ":" +:+ zfill 2 (minute d)
  +:+ ":" +:+ zfill 2 (second d)
  +:+ (if microsecond d =? 0 then "" else "." +:+ zfill 6 (microsecond d))
  +:+ match tzinfo d with Some off => format_offset off | None => "" end.

(** *** Reading an ISO-8601 string *)

Definition digit (c : ascii) : option Z :=
  let n := N_of_ascii c in
  if ((48 <=? n) && (n <=? 57))%N then Some (Z.of_N n - 48) else None.

(** The number written by the [n] digits at the head of [s], and the rest. *)
Fixpoint digits (n : nat) (acc : Z) (s : string) : option (Z * string) :=
  match n with
  | O => Some (acc, s)
  | S k =>
      match s with
      | String c s' => match digit c with
                       | Some v => digits k (acc * 10 + v) s'
                       | None => None
                       end
      | EmptyString => None
      end
  end.

(** [s] with the character [c] taken from its head. *)
Definition expect (c : ascii) (s : string) : option string :=
  match s with
  | String c' s' => if Ascii.eqb c c' then Some s' else None
  | EmptyString => None
  end.

(** The end of the string, or an offset [+HH:MM] / [-HH:MM] of less than a day. *)
Definition iso_offset (s : string) : option (option Z) :=
  match s with
  | EmptyString => Some None
  | String c s' =>
      sign ← (if Ascii.eqb c "+" then Some 1 else if Ascii.eqb c "-" then Some (-1) else None);
      '(h, s1) ← digits 2 0 s';
      s2 ← expect ":" s1;
      '(m, s3) ← digits 2 0 s2;
      if String.eqb s3 "" && (h <? 24) && (m <? 60)
      then Some (Some (sign * (h * 3600 + m * 60)))
      else None
  end.

(** The strings [YYYY-MM-DDTHH:MM:SS], with an offset or without, that name a
    valid date and time. *)
Definition iso_seconds (s : string) : option datetime :=
  '(y, s) ← digits 4 0 s; s ← expect "-" s;
  '(m, s) ← digits 2 0 s; s ← expect "-" s;
  '(d, s) ← digits 2 0 s; s ← expect "T" s;
  '(hh, s) ← digits 2 0 s; s ← expect ":" s;
  '(mm, s) ← digits 2 0 s; s ← expect ":" s;
  '(ss, s) ← digits 2 0 s;
  tz ← iso_offset s;
  if (1 <=? y) && (1 <=? m) && (m <=? 12) && (1 <=? d) && (d <=? days_in_month y m)
     && (hh <? 24) && (mm <? 60) && (ss <? 60)
  then Some (mk_datetime y m d hh mm ss 0 tz)
  else None.

End Datetime.
Export Datetime.

(* ===================================================================== *)
(** * Library routines taken as given *)
(* ===================================================================== *)

(** - [charref_sub]: [html._charref.sub(_replace_charref, s)], the replacement
      of the character references of [s] (it rests on the table of HTML5
      entity names);
    - [fromisoformat_other]: [datetime.fromisoformat] on the strings that are
      not of the form read by [iso_seconds] (fractions of a second, dates
      alone, ...: what is accepted there depends on the Python version). *)
Class PyLib := {
  charref_sub : string -> string;
  fromisoformat_other : string -> result datetime
}.

(** A parsed HTML document (a [bs4] tree): text, or a tag with its
    attributes and its children in document order. *)
Inductive node :=
| TextNode (s : string)
| Tag (tag : string) (attrs : list (string * string)) (children : list node).

(** [BeautifulSoup(html, 'html.parser')]: the parser of [bs4], which builds a
    tree from any text. *)
Class HtmlParser := { BeautifulSoup : string -> node }.

Section Library.
Context `{PyLib}.

(** [html.unescape]: a string without an ampersand is returned as it is. *)
Definition unescape (s : string) : string :=
  if negb (contains "&" s) then s else charref_sub s.

(** [datetime.fromisoformat] *)
Definition fromisoformat (s : string) : result datetime :=
  match iso_seconds s with
  | Some d => Ok d
  | None => fromisoformat_other s
  end.

End Library.

(* ===================================================================== *)
(** * The outside world *)
(* ===================================================================== *)

Module World.

(** An HTTP response: its status, its body as text ([response.text], read by
    the scraper), and what [response.json()] makes of the body (read by the
    monitor). *)
Record response := mk_response {
  status_code : Z;
  text : string;
  decoded : result json
}.

(** What a GET request meets: a transport failure (no connection, timeout) or
    a response. *)
Inductive reply :=
| Failed
| Reply (r : response).

(** What the program takes from outside: the local and the UTC clock at each
    reading, and what the network gives to each request, in order. *)
Record env := mk_env {
  now_at : nat -> datetime;
  utcnow_at : nat -> datetime;
  respond : nat -> reply
}.

(** What a file holds: a document written by [json.dump], a text, or a chart
    of category counts drawn by matplotlib. *)
Inductive content :=
| Json (doc : json)
| Text (s : string)
| Chart (title : string) (counts : gmap string nat).

(** What the program does that is seen from outside, in order. *)
Inductive event :=
| Get (url : string)
| Sleep (seconds : Z)
| Print (line : string)
| PrintTable (rows : list (list string))
| Close (client : string).

Record world := mk_world {
  files : gmap string content;
  trace : list event;
  clock_reads : nat;
  requests : nat
}.

(** A computation with effects: it reads the environment, changes the world,
    and returns a value or raises. *)
Record M (A : Type) := mk_M { run : env -> world -> result A * world }.
Arguments mk_M {A} _.
Arguments run {A} _ _ _.

#[export] Instance M_ret : MRet M := fun A a => mk_M (fun _ w => (Ok a, w)).
#[export] Instance M_bind : MBind M := fun A B f m => mk_M (fun e w =>
  match run m e w with
  | (Ok a, w') => run (f a) e w'
  | (Raise x, w') => (Raise x, w')
  end).

(** A computation without effects, run where it stands. *)
Definition lift {A} (r : result A) : M A := mk_M (fun _ w => (r, w)).

(** [try: body / except Exception as e: handler(e)] *)
Definition try_except {A} (body : M A) (handler : exn -> M A) : M A := mk_M (fun e w =>
  match run body e w with
  | (Ok a, w') => (Ok a, w')
  | (Raise x, w') => run (handler x) e w'
  end).

(** [try: body / finally: cleanup] *)
Definition try_finally {A} (body : M A) (cleanup : M unit) : M A := mk_M (fun e w =>
  let '(r, w') := run body e w in
  match run cleanup e w' with
  | (Ok _, w'') => (r, w'')
  | (Raise x, w'') => (Raise x, w'')
  end).

Definition emit (ev : event) : M unit := mk_M (fun _ w =>
  (Ok tt, mk_world (files w) (trace w ++ [ev])%list (clock_reads w) (requests w))).

(** [print(line)] *)
Definition print (line : string) : M unit := emit (Print line).

(** [time.sleep(seconds)] *)
Definition sleep (seconds : Z) : M unit := emit (Sleep seconds).

(** [datetime.now()] *)
Definition now : M datetime := mk_M (fun e w =>
  (Ok (now_at e (clock_reads w)),
   mk_world (files w) (trace w) (S (clock_reads w)) (requests w))).

(** [datetime.utcnow()] *)
Definition utcnow : M datetime := mk_M (fun e w =>
  (Ok (utcnow_at e (clock_reads w)),
   mk_world (files w) (trace w) (S (clock_reads w)) (requests w))).

(** [client.get(url)]: a transport failure is an exception.  The headers and
    the query parameters of the request are not part of the model. *)
Definition http_get (url : string) : M response := mk_M (fun e w =>
  let w' := mk_world (files w) (trace w ++ [Get url])%list (clock_reads w) (S (requests w)) in
  match respond e (requests w) with
  | Failed => (Raise TransportError, w')
  | Reply r => (Ok r, w')
  end).

(** [with open(path, 'w') as f: ...]: the file holds [c] afterwards. *)
Definition write_file (path : string) (c : content) : M unit := mk_M (fun _ w =>
  (Ok tt, mk_world (<[path := c]> (files w)) (trace w) (clock_reads w) (requests w))).

(** [[f(x) for x in xs]] with effects *)
Fixpoint comprehensionM {A B} (f : A -> M B) (xs : list A) : M (list B) :=
  match xs with
  | [] => mret []
  | x :: xs' => y ← f x; ys ← comprehensionM f xs'; mret (y :: ys)
  end.

(** [for x in xs: body(x)] *)
Fixpoint for_each {A} (body : A -> M unit) (xs : list A) : M unit :=
  match xs with
  | [] => mret tt
  | x :: xs' => _ ← body x; for_each body xs'
  end.

(** The name of an exception, as it shows in a logged message. *)
Definition describe (e : exn) : string :=
  match e with
  | KeyError => "KeyError" | IndexError => "IndexError" | TypeError => "TypeError"
  | AttributeError => "AttributeError" | ValueError => "ValueError"
  | HTTPStatusError => "HTTPStatusError" | TransportError => "TransportError"
  | JSONDecodeError => "JSONDecodeError"
  end.

(** [response.raise_for_status()] of httpx: any status outside 200..299 is an
    exception. *)
Definition raise_for_status (r : response) : result unit :=
  if (200 <=? status_code r) && (status_code r <=? 299) then Ok tt
  else Raise HTTPStatusError.

(** The world before a run: no file, nothing done. *)
Definition initial : world := mk_world ∅ [] 0 0.

End World.
Export World.

(* ===================================================================== *)
(** * sorted *)
(* ===================================================================== *)

Module PySort.
Section Sorted.
Context {A : Type} (lt : A -> A -> result bool).

(** [x] is put behind the elements that are not greater than it: the only
    test is [x < y], and its exception ends the sort. *)
Fixpoint insort (x : A) (l : list A) : result (list A) :=
  match l with
  | [] => Ok [x]
  | y :: l' =>
      b ← lt x y;
      if b : bool then Ok (x :: y :: l') else (r ← insort x l'; Ok (y :: r))
  end.

Fixpoint insort_all (acc : list A) (l : list A) : result (list A) :=
  match l with
  | [] => Ok acc
  | x :: l' => acc' ← insort x acc; insort_all acc' l'
  end.

(** [sorted(l, key=...)]: a stable sort by [<] on the keys. *)
Definition sorted (l : list A) : result (list A) := insort_all [] l.

(** [sorted(l, key=..., reverse=True)]: the list is reversed, sorted, and
    reversed again, which keeps equal elements in their order. *)
Definition sorted_reverse (l : list A) : result (list A) :=
  reverse <$> sorted (reverse l).

End Sorted.
End PySort.
Export PySort.

(* ===================================================================== *)
(** * main.py *)
(* ===================================================================== *)

(** The dataclass [TrackerData], with the types of its declaration. *)
Record TrackerData := mk_TrackerData {
  name : string;
  date : datetime;
  description : string;
  categories : list string;
  url : string;
  status : bool
}.

Module TrackerStatus.
Definition OPEN : string := "🟢 Open".
Definition CLOSED : string := "🔴 Closed".
End TrackerStatus.

(** The phrase looked for in a title, and the text taken out of it. *)
Definition SIGNUP_PHRASE : string := "is Open for Limited Signup!".
Definition SIGNUP_SUFFIX : string := " is Open for Limited Signup!".

Module WordPressAPI.
Section WordPressAPI.
Context `{PyLib}.
Variable _base_url : string.

(** [_parse_post].  The title, the excerpt and the date are texts that the
    code works on.  The name of a term and the link are handed on to the
    record as they are: the record has the types of the dataclass, so they
    are read as strings here, and on any other value, where the code goes on
    with that value in the record, this definition raises [TypeError].  What
    is stated of a post that is read so holds of a post that has strings
    there. *)
Definition _parse_post (post : json) : result TrackerData :=
  rendered ← (t ← getitem post "title"; getitem t "rendered") ≫= as_str;
  let title := unescape rendered in
  let status := contains SIGNUP_PHRASE title in
  let name := strip (replace SIGNUP_SUFFIX "" title) in
  excerpt ← (t ← getitem post "excerpt"; getitem t "rendered") ≫= as_str;
  let description := unescape excerpt in
  let description := strip (replace "</p>" "" (replace "<p>" "" description)) in
  terms ← (e ← getitem post "_embedded"; t ← getitem e "wp:term"; getitem0 t) ≫= iter;
  categories ←
    comprehension_if
      (fun term => tax ← getitem term "taxonomy"; Ok (eq_str tax "category"))
      (fun term => getitem term "name" ≫= as_str)
      terms;
  date ← (getitem post "date" ≫= as_str) ≫= (fun d => fromisoformat (replace "Z" "+00:00" d));
  url ← getitem post "link" ≫= as_str;
  Ok (mk_TrackerData name date description categories url status).

Definition fetch_posts : M (list TrackerData) :=
  try_except
    (let api_url := _base_url +:+ "/wp-json/wp/v2/posts" in
     response ← http_get api_url;
     _ ← lift (raise_for_status response);
     lift ((decoded response ≫= iter) ≫= comprehension _parse_post))
    (fun e => _ ← print ("WordPress API Error: " +:+ describe e); mret []).

Definition close : M unit := emit (Close "wordpress").

End WordPressAPI.
End WordPressAPI.

Module RedditAPI.
Section RedditAPI.
Context `{PyLib}.
Variable subreddit : string.

Definition _base_url : string := "https://www.reddit.com/r/" +:+ subreddit.

(** [datetime.utcfromtimestamp(created) if created else datetime.utcnow()]:
    the conversion takes a number ([True] counts as 1). *)
Definition date_of (created : json) : M datetime :=
  if truthy created then
    match created with
    | JNum t => lift (utcfromtimestamp t)
    | JBool b => lift (utcfromtimestamp (b2z b))
    | _ => lift (Raise TypeError)
    end
  else utcnow.

(** [_parse_post].  The title and the selftext are texts that the code
    works on.  The id, where it stands for the name, and the url are handed
    on to the record as they are, and are read as strings here, as the name
    of a term and the link are for WordPress. *)
Definition _parse_post (post : json) : M TrackerData :=
  raw ← lift (get post "title" (JStr "") ≫= as_str);
  let title := unescape raw in
  let status := contains SIGNUP_PHRASE title in
  let cleaned := strip (replace SIGNUP_SUFFIX "" title) in
  name ← lift (if negb (String.eqb cleaned "") then Ok cleaned
               else get post "id" (JStr "No Title") ≫= as_str);
  selftext ← lift (get post "selftext" (JStr "") ≫= as_str);
  let description := strip (unescape selftext) in
  let categories := [] in
  created ← lift (get post "created_utc" JNull);
  date ← date_of created;
  url ← lift (get post "url" (JStr _base_url) ≫= as_str);
  mret (mk_TrackerData name date description categories url status).

Definition fetch_posts : M (list TrackerData) :=
  try_except
    (let api_url := _base_url +:+ ".json" in
     response ← http_get api_url;
     _ ← lift (raise_for_status response);
     data ← lift (decoded response);
     posts ← lift ((d ← get data "data" (JObj []); get d "children" (JArr [])) ≫= iter);
     comprehensionM (fun post => p ← lift (getitem post "data"); _parse_post p) posts)
    (fun e => _ ← print ("Reddit API Error: " +:+ describe e); mret []).

Definition close : M unit := emit (Close "reddit").

End RedditAPI.
End RedditAPI.

(** The line feed *)
Definition LF : string := String (ascii_of_nat 10) EmptyString.

(** The loop that fills [category_stats], in [create_visualizations] and in
    [_create_markdown_report]:
    [category_stats[category] = category_stats.get(category, 0) + 1]
    for every category of every tracker. *)
Definition category_stats (trackers : list TrackerData) : gmap string nat :=
  foldl (fun stats tracker =>
           foldl (fun stats category =>
                    <[category := (default 0 (stats !! category) + 1)%nat]> stats)
                 stats (categories tracker))
        ∅ trackers.

(** [DataManager.__init__] makes the storage directory; directories are not
    part of [files]. *)
Module DataManager.
Section DataManager.
Variable _storage : string.

Definition _serialize_tracker (tracker : TrackerData) : json :=
  JObj [("name", JStr (name tracker));
        ("description", JStr (description tracker));
        ("categories", JArr (map JStr (categories tracker)));
        ("url", JStr (url tracker));
        ("status", JBool (status tracker));
        ("date", JStr (isoformat (date tracker)))].

Definition save (trackers : list TrackerData) : M unit :=
  last_updated ← now;
  let data := JObj [("last_updated", JStr (isoformat last_updated));
                    ("trackers", JArr (map _serialize_tracker trackers))] in
  today ← now;
  let current_date := strftime_Ymd today in
  for_each (fun file => write_file file (Json data))
    [_storage +:+ "/trackers_" +:+ current_date +:+ ".json";
     _storage +:+ "/latest.json"].

Definition create_visualizations (trackers : list TrackerData) : M unit :=
  match trackers with
  | [] => print "No data to visualize"
  | _ =>
      let stats := category_stats trackers in
      if decide (stats = ∅) then print "No category data available for visualization."
      else
        _ ← write_file (_storage +:+ "/category_distribution.png")
              (Chart "Category Distribution" stats);
        write_file (_storage +:+ "/category_percentage.png")
          (Chart "Category Percentage" stats)
  end.

End DataManager.
End DataManager.

Module TrackerMonitor.
Section TrackerMonitor.
Context `{PyLib}.

Definition _data_dir : string := "data".

Definition by_date (a b : TrackerData) : result bool := datetime_lt (date a) (date b).

Definition status_label (tracker : TrackerData) : string :=
  if status tracker then TrackerStatus.OPEN else TrackerStatus.CLOSED.

Definition categories_label (tracker : TrackerData) : string :=
  match categories tracker with
  | [] => "-"
  | cs => join ", " cs
  end.

(** The cells of the row of a tracker, in the table and in the report. *)
Definition row (tracker : TrackerData) : list string :=
  [name tracker; categories_label tracker; strftime_Ymd (date tracker); status_label tracker].

Definition _display_results (trackers : list TrackerData) : M unit :=
  ordered ← lift (sorted_reverse by_date trackers);
  emit (PrintTable (map row ordered)).

Definition report_line (tracker : TrackerData) : string :=
  "| " +:+ name tracker +:+ " | " +:+ categories_label tracker +:+ " | "
  +:+ strftime_Ymd (date tracker) +:+ " | " +:+ status_label tracker +:+ " |" +:+ LF.

Definition report_head (stamp : datetime) (total kinds : nat) : string :=
  "# Tracker Status Report" +:+ LF +:+
  "> Last Updated: " +:+ strftime_Ymd_HMS stamp +:+ LF +:+ LF +:+
  "## Statistics" +:+ LF +:+
  "- Total Active Trackers: " +:+ pretty total +:+ LF +:+
  "- Total Categories: " +:+ pretty kinds +:+ LF +:+ LF +:+
  "## Category Distribution" +:+ LF +:+
  "![Distribution](./category_distribution.png)" +:+ LF +:+
  "![Percentage](./category_percentage.png)" +:+ LF +:+ LF +:+
  "## Active Trackers" +:+ LF +:+
  "| Tracker | Categories | Open Date | Status |" +:+ LF +:+
  "|---------|------------|-----------|--------|" +:+ LF.

Definition _create_markdown_report (trackers : list TrackerData) : M unit :=
  let stats := category_stats trackers in
  stamp ← now;
  let markdown := report_head stamp (length trackers) (size stats) in
  ordered ← lift (sorted_reverse by_date trackers);
  let markdown := markdown +:+ String.concat "" (map report_line ordered) in
  write_file (_data_dir +:+ "/README.md") (Text markdown).

Definition run : M unit :=
  try_finally
    (try_except
       (wordpress_trackers ← WordPressAPI.fetch_posts "https://opentrackers.org";
        reddit_trackers ← RedditAPI.fetch_posts "OpenSignup";
        let trackers := (wordpress_trackers ++ reddit_trackers)%list in
        match trackers with
        | [] => print "[yellow]No trackers found[/yellow]"
        | _ =>
            _ ← DataManager.save _data_dir trackers;
            _ ← DataManager.create_visualizations _data_dir trackers;
            _ ← _display_results trackers;
            _create_markdown_report trackers
        end)
       (fun e => print ("Error in main run: " +:+ describe e)))
    (_ ← WordPressAPI.close; RedditAPI.close).

End TrackerMonitor.
End TrackerMonitor.

(* ===================================================================== *)
(** * bs4: searching a parsed document *)
(* ===================================================================== *)

Module Bs4.

(** The tags and texts below a node, in document order. *)
Fixpoint descendants (n : node) : list node :=
  match n with
  | TextNode _ => []
  | Tag _ _ cs => flat_map (fun c => c :: descendants c) cs
  end.

(** [n.text]: the texts below a node, put together. *)
Fixpoint get_text (n : node) : string :=
  match n with
  | TextNode s => s
  | Tag _ _ cs => String.concat "" (map get_text cs)
  end.

Definition tag_name (n : node) : option string :=
  match n with
  | TextNode _ => None
  | Tag t _ _ => Some t
  end.

Fixpoint lookup_attr (k : string) (kv : list (string * string)) : option string :=
  match kv with
  | [] => None
  | (k', v) :: kv' => if String.eqb k k' then Some v else lookup_attr k kv'
  end.

(** [n.get(k)] *)
Definition get_attr (k : string) (n : node) : option string :=
  match n with
  | TextNode _ => None
  | Tag _ kv _ => lookup_attr k kv
  end.

(** The words of a text that white space separates. *)
Fixpoint words_from (cur : string) (s : string) : list string :=
  match s with
  | EmptyString => if String.eqb cur "" then [] else [cur]
  | String c s' =>
      if isspace c
      then (if String.eqb cur "" then words_from "" s' else cur :: words_from "" s')
      else words_from (cur +:+ String c EmptyString) s'
  end.

(** The class names of a tag: [None] without a [class] attribute. *)
Definition classes (n : node) : option (list string) :=
  words_from "" <$> get_attr "class" n.

(** [class_=f]: [f] holds of one of the class names, or of all of them joined
    by spaces. *)
Definition has_class (f : string -> bool) (n : node) : bool :=
  match classes n with
  | None => false
  | Some cs => existsb f cs || f (join " " cs)
  end.

Definition is_tag (t : string) (n : node) : bool :=
  match tag_name n with
  | Some t' => String.eqb t' t
  | None => false
  end.

Definition any_tag (n : node) : bool :=
  match n with Tag _ _ _ => true | TextNode _ => false end.

(** [n.find_all(...)]: the tags below [n] that pass the test. *)
Definition find_all (test : node -> bool) (n : node) : list node :=
  List.filter test (descendants n).

(** [n.find(...)]: the first of them. *)
Definition find (test : node -> bool) (n : node) : option node :=
  head (find_all test n).

End Bs4.
Export Bs4.

(* ===================================================================== *)
(** * scraper.py *)
(* ===================================================================== *)

(** The dictionary built for a post. *)
Record veri := mk_veri {
  baslik : string;
  baglanti : string;
  tarih : string;
  ozet : string;
  zaman : string
}.

Module TrackerScraper.
Section TrackerScraper.
Context `{HtmlParser}.

Definition site_url : string := "https://opentrackers.org/tag/limited-signup/".

Definition temizle_metin (metin : string) : string :=
  if String.eqb metin "" then ""
  else strip (collapse_spaces false metin).

Definition url_duzenle (url : string) : string :=
  if String.eqb url "" then ""
  else if negb (startswith "http" url) then "https://opentrackers.org" +:+ url
  else url.

(** The loop [for _ in range(n)] of [sayfa_icerik_al], and the [return ""]
    behind it. *)
Fixpoint deneme (n : nat) : M string :=
  match n with
  | O => mret ""
  | S k =>
      response ← http_get site_url;
      if status_code response =? 200 then mret (text response)
      else (_ ← sleep 2; deneme k)
  end.

Definition sayfa_icerik_al : M string :=
  try_except (deneme 3)
    (fun e => _ ← print ("Bağlantı hatası: " +:+ describe e); mret "").

(** [a or b] on lists of tags *)
Definition or_tags (a b : list node) : list node :=
  match a with [] => b | _ => a end.

(** [a or b] on a tag that may be missing ([a or b] on strings is [or_str]) *)
Definition or_tag (a b : option node) : option node :=
  match a with Some _ => a | None => b end.

Definition or_str (a : option string) (b : string) : string :=
  match a with
  | Some s => if String.eqb s "" then b else s
  | None => b
  end.

Definition class_has (word : string) (x : string) : bool := contains word (lower x).

Definition post_containers (soup : node) : list node :=
  or_tags (find_all (is_tag "article") soup)
    (or_tags (find_all (fun n => is_tag "div" n && has_class (class_has "post") n) soup)
       (find_all (fun n => is_tag "div" n && has_class (String.eqb "post-list") n) soup)).

(** The title of a post: the text of the first heading tried, [h1] before
    [h2] before [h3]; [None] without a heading. *)
Fixpoint find_title (tags : list string) (post : node) : option string :=
  match tags with
  | [] => None
  | t :: tags' =>
      match find (is_tag t) post with
      | Some title_elem => Some (get_text title_elem)
      | None => find_title tags' post
      end
  end.

(** The body of the loop over the posts: the dictionary of a post, or
    [None] where the loop goes on ([continue]) without one. *)
Definition post_veri (post : node) : M (option veri) :=
  match find_title ["h1"; "h2"; "h3"] post with
  | None | Some EmptyString => mret None
  | Some title =>
      let link := find (is_tag "a") post ≫= get_attr "href" in
      match link with
      | None | Some EmptyString => mret None
      | Some link =>
          let date_elem :=
            or_tag (find (is_tag "time") post)
                   (find (fun n => any_tag n && has_class (class_has "date") n) post) in
          date ← match date_elem return M string with
                 | Some e => mret (or_str (get_attr "datetime" e) (get_text e))
                 | None => today ← now; mret (strftime_Ymd today)
                 end;
          let content_elem :=
            or_tag (find (fun n => any_tag n && has_class (String.eqb "entry-content") n) post)
              (or_tag (find (fun n => any_tag n && has_class (String.eqb "content") n) post)
                 (find (is_tag "p") post)) in
          let content :=
            match content_elem with
            | Some e => temizle_metin (get_text e)
            | None => ""
            end in
          stamp ← now;
          mret (Some (mk_veri (temizle_metin title) (url_duzenle link) (temizle_metin date)
                        (if String.eqb content "" then "" else take_str 200 content +:+ "...")
                        (strftime_Ymd_HMS stamp)))
      end
  end.

(** [for post in post_containers: try: ... except Exception: ...; continue],
    for any loop body. *)
Fixpoint collect (body : node -> M (option veri)) (posts : list node) : M (list veri) :=
  match posts with
  | [] => mret []
  | post :: posts' =>
      found ← try_except (body post)
                 (fun e => _ ← print ("Post işlenirken hata: " +:+ describe e); mret None);
      rest ← collect body posts';
      mret (match found with Some v => v :: rest | None => rest end)
  end.

Definition by_tarih (a b : veri) : result bool := Ok (str_lt (tarih a) (tarih b)).

Definition veri_ayikla : M (list veri) :=
  html_content ← sayfa_icerik_al;
  if String.eqb html_content "" then mret []
  else
    try_except
      (let soup := BeautifulSoup html_content in
       match post_containers soup with
       | [] =>
           _ ← print "HTML içeriği:";
           _ ← print (take_str 500 html_content);
           mret []
       | containers =>
           veriler ← collect post_veri containers;
           lift (sorted_reverse by_tarih veriler)
       end)
      (fun e => _ ← print ("HTML parse hatası: " +:+ describe e); mret []).

(** The dictionary of a post as [json.dump] writes it. *)
Definition veri_json (v : veri) : json :=
  JObj [("baslik", JStr (baslik v));
        ("baglanti", JStr (baglanti v));
        ("tarih", JStr (tarih v));
        ("ozet", JStr (ozet v));
        ("zaman", JStr (zaman v))].

(** [c * n] *)
Definition rule (c : string) (n : nat) : string := String.concat "" (replicate n c).

(** The lines printed for a post in [main]. *)
Definition show_veri (v : veri) : M unit :=
  _ ← print ("📌 " +:+ baslik v);
  _ ← print ("🔗 " +:+ baglanti v);
  _ ← print ("📅 " +:+ tarih v);
  _ ← (if String.eqb (ozet v) "" then mret tt else print ("📝 " +:+ ozet v));
  print (rule "-" 50 +:+ LF).

(** [main()]: the exception that reaches it is printed and raised again. *)
Definition main : M unit :=
  try_except
    (_ ← print "Veriler çekiliyor...";
     veriler ← veri_ayikla;
     match veriler with
     | [] =>
         _ ← print (LF +:+ "❌ Veri bulunamadı.");
         print "Lütfen site yapısını kontrol edin veya daha sonra tekrar deneyin."
     | _ =>
         _ ← write_file "tracker_data.json" (Json (JArr (map veri_json veriler)));
         _ ← print (LF +:+ rule "=" 50);
         _ ← print ("Toplam " +:+ pretty (length veriler) +:+ " tracker bulundu");
         _ ← print (rule "=" 50 +:+ LF);
         for_each show_veri veriler
     end)
    (fun e => _ ← print (LF +:+ "❌ Program hatası: " +:+ describe e); lift (Raise e)).

End TrackerScraper.
End TrackerScraper.

(* ===================================================================== *)
(** * Sample inputs *)
(* ===================================================================== *)

(** A library for the samples: their texts have no character reference and
    their dates are read by [iso_seconds], so neither routine is reached. *)
Definition plain_lib : PyLib :=
  {| charref_sub := fun s => s; fromisoformat_other := fun _ => Raise ValueError |}.

(** A post of the WordPress REST API, in the category "Music" and with the
    tag "limited-signup". *)
Definition wp_post (title date : string) : json :=
  JObj [("id", JNum 101);
        ("date", JStr date);
        ("link", JStr "https://opentrackers.org/2024/01/03/sample/");
        ("title", JObj [("rendered", JStr title)]);
        ("excerpt", JObj [("rendered", JStr "<p>Signups are open.</p>")]);
        ("_embedded",
         JObj [("wp:term",
                JArr [JArr [JObj [("id", JNum 7); ("name", JStr "Music");
                                  ("taxonomy", JStr "category")]];
                      JArr [JObj [("id", JNum 93); ("name", JStr "limited-signup");
                                  ("taxonomy", JStr "post_tag")]]])])].

(** The [data] of a child of a Reddit listing. *)
Definition reddit_post (title id : string) (created_utc : Z) : json :=
  JObj [("id", JStr id);
        ("title", JStr title);
        ("selftext", JStr "Signups are open.");
        ("created_utc", JNum created_utc);
        ("url", JStr "https://example.org/signup")].

(** Clocks that stand still at 2024-01-05T08:30:00 (UTC and local). *)
Definition still_clock (n : nat) : datetime := mk_datetime 2024 1 5 8 30 0 0 None.

(** A network that fails the first request and then serves the page. *)
Definition page_after_failure (n : nat) : reply :=
  match n with
  | O => Failed
  | S _ => Reply (mk_response 200 "<html><body><article></article></body></html>" (Raise JSONDecodeError))
  end.

(** A page without [article] tags, with one [div] of class "Post-Item" that
    holds a heading and a link, and one that holds neither. *)
Definition sample_item : node :=
  Tag "div" [("class", "Post-Item featured")]
    [Tag "h2" [] [Tag "a" [("href", "/libble/")] [TextNode "Libble  is open"]];
     Tag "time" [("datetime", "2024-01-03")] [TextNode "January 3"];
     Tag "p" [] [TextNode "Signups are open."]].

Definition sample_bare : node :=
  Tag "div" [("class", "post-teaser")] [Tag "p" [] [TextNode "No heading here."]].

Definition sample_soup : node :=
  Tag "[document]" []
    [Tag "html" []
       [Tag "body" [] [Tag "div" [("id", "main")] [sample_bare; sample_item]]]].

(** A record with the given categories. *)
Definition tracker_in (cs : list string) : TrackerData :=
  mk_TrackerData "Libble" (mk_datetime 2024 1 3 10 0 0 0 None) "Signups are open." cs
    "https://opentrackers.org/2024/01/03/sample/" true.

(** What the two sources give on a day when WordPress writes its date with
    a "Z": one post each, both read without error. *)
Definition wordpress_body : json :=
  JArr [wp_post "Libble is Open for Limited Signup!" "2024-01-03T10:00:00Z"].

Definition reddit_body : json :=
  JObj [("kind", JStr "Listing");
        ("data", JObj [("children",
           JArr [JObj [("kind", JStr "t3");
                       ("data", reddit_post "Orpheus is Open for Limited Signup!" "1abcde"
                                  1704189600)]])])].

Definition both_answer (n : nat) : reply :=
  match n with
  | O => Reply (mk_response 200 "" (Ok wordpress_body))
  | _ => Reply (mk_response 200 "" (Ok reddit_body))
  end.

Definition libble_record : TrackerData :=
  mk_TrackerData "Libble" (mk_datetime 2024 1 3 10 0 0 0 (Some 0)) "Signups are open."
    ["Music"] "https://opentrackers.org/2024/01/03/sample/" true.

Definition orpheus_record : TrackerData :=
  mk_TrackerData "Orpheus" (mk_datetime 2024 1 2 10 0 0 0 None) "Signups are open."
    [] "https://example.org/signup" true.







(** A network that answers every request with the status 503. *)
Definition always_busy (n : nat) : reply :=
  Reply (mk_response 503 "Service Unavailable" (Raise JSONDecodeError)).

(* ===================================================================== *)
(** * Words for the statements *)
(* ===================================================================== *)

(** The world after a GET request to [url], and after a line is printed. *)
Definition sent (url : string) (w : world) : world :=
  mk_world (files w) (trace w ++ [Get url])%list (clock_reads w) (S (requests w)).

Definition noted (ev : event) (w : world) : world :=
  mk_world (files w) (trace w ++ [ev])%list (clock_reads w) (requests w).


(** The two adapters of the monitor. *)
Inductive adapter := WordPress | Reddit.

Section Statements.
Context `{PyLib}.

(** [parsed a title r]: the record [r] is what the adapter [a] makes of a
    post whose title, its character references replaced, is [title]. *)
Inductive parsed : adapter -> string -> TrackerData -> Prop :=
| parsed_wordpress (post : json) (raw : string) (r : TrackerData) :
    (t ← getitem post "title"; getitem t "rendered") = Ok (JStr raw) ->
    WordPressAPI._parse_post post = Ok r ->
    parsed WordPress (unescape raw) r
| parsed_reddit (subreddit : string) (post : json) (raw : string) (e : env) (w w' : world)
    (r : TrackerData) :
    get post "title" (JStr "") = Ok (JStr raw) ->
    run (RedditAPI._parse_post subreddit post) e w = (Ok r, w') ->
    parsed Reddit (unescape raw) r.








End Statements.

(** [quiet m]: [m] reads the clock at most; it sends nothing, prints nothing
    and writes no file. *)
Definition quiet {C} (m : M C) : Prop :=
  forall (e : env) (w w' : world) (r : result C),
    run m e w = (r, w') ->
    files w' = files w /\ trace w' = trace w /\ requests w' = requests w.

(** How often [c] stands among the categories of all the records. *)
Definition occurrences (c : string) (trackers : list TrackerData) : nat :=
  count_occ string_dec (flat_map categories trackers) c.

(** The document that [save] writes, and the name of its dated file. *)
Definition snapshot (stamp : datetime) (trackers : list TrackerData) : json :=
  JObj [("last_updated", JStr (isoformat stamp));
        ("trackers", JArr (map DataManager._serialize_tracker trackers))].

Definition dated_file (storage : string) (today : datetime) : string :=
  storage +:+ "/trackers_" +:+ strftime_Ymd today +:+ ".json".

Definition latest_file (storage : string) : string := storage +:+ "/latest.json".

(** Two readings of the clock on one calendar day. *)
Definition same_day (a b : datetime) : Prop :=
  year a = year b /\ month a = month b /\ day a = day b.

(** One step of the counting loop. *)
Definition bump (stats : gmap string nat) (category : string) : gmap string nat :=
  <[category := (default O (stats !! category) + 1)%nat]> stats.

Definition tally (stats : gmap string nat) (c : string) : nat := default O (stats !! c).

(** No category is kept with the count 0. *)
Definition counted (stats : gmap string nat) : Prop :=
  forall c : string, stats !! c <> Some O.


(** Whether the date of a record is aware of its offset from UTC. *)
Definition is_aware (t : TrackerData) : bool :=
  match tzinfo (date t) with Some _ => true | None => false end.

(** A list with a naive and an aware date in it. *)
Definition mixed (l : list TrackerData) : Prop :=
  exists a b : TrackerData, In a l /\ In b l /\ is_aware a <> is_aware b.

(** [a] is before [b]: the test of the sort where it does not raise. *)
Definition earlier (a b : TrackerData) : bool :=
  match tzinfo (date a), tzinfo (date b) with
  | None, None => lex_lt (fields (date a)) (fields (date b))
  | Some oa, Some ob => instant (date a) oa <? instant (date b) ob
  | _, _ => false
  end.

(** [a] may stand before [b] among the rows: [a] is not earlier than [b]. *)
Definition not_earlier (a b : TrackerData) : Prop := earlier a b = false.

(** The world after one more reading of the clock, and after a file is
    written. *)
Definition ticked (w : world) : world :=
  mk_world (files w) (trace w) (S (clock_reads w)) (requests w).

Definition written (path : string) (c : content) (w : world) : world :=
  mk_world (<[path := c]> (files w)) (trace w) (clock_reads w) (requests w).

(** The text of the report for the rows in the order [ordered]. *)
Definition report_text (stamp : datetime) (trackers ordered : list TrackerData) : string :=
  TrackerMonitor.report_head stamp (length trackers) (size (category_stats trackers))
  +:+ String.concat "" (map TrackerMonitor.report_line ordered).

(** What follows the two fetches when a record was found. *)
Definition persist_and_report (trackers : list TrackerData) : M unit :=
  _ ← DataManager.save TrackerMonitor._data_dir trackers;
  _ ← DataManager.create_visualizations TrackerMonitor._data_dir trackers;
  _ ← TrackerMonitor._display_results trackers;
  TrackerMonitor._create_markdown_report trackers.

(** Neither of two elements is before the other: the sort sees them as
    equal. *)
Definition tied {A} (ltb : A -> A -> bool) (x y : A) : bool :=
  negb (ltb x y) && negb (ltb y x).

(** The test of the sort of the scraper: the texts of the dates compared as
    strings. *)
Definition tarih_lt (a b : veri) : bool := str_lt (tarih a) (tarih b).

(** A text as [temizle_metin] leaves it: no white space at either end, and
    between its words single spaces only. *)
Definition head_space (s : string) : bool :=
  match s with
  | String c _ => isspace c
  | EmptyString => false
  end.

Fixpoint last_space (s : string) : bool :=
  match s with
  | EmptyString => false
  | String c s' => match s' with EmptyString => isspace c | _ => last_space s' end
  end.

Fixpoint single_spaced (s : string) : bool :=
  match s with
  | EmptyString => true
  | String c s' =>
      (if isspace c then Ascii.eqb c " " && negb (head_space s') else true)
      && single_spaced s'
  end.

Definition tidy (s : string) : bool :=
  negb (head_space s) && negb (last_space s) && single_spaced s.

(** The request number [k] was answered, with a status that is not 200. *)
Definition refused (e : env) (k : nat) : Prop :=
  exists r : response, respond e k = Reply r /\ status_code r <> 200.

(** What holds of every dictionary that the scraper builds: the title and
    the date are cleaned texts, the link is absolute, and the summary is
    empty or the first 200 characters at most of a text with three dots
    behind them. *)
Definition veri_ok (v : veri) : Prop :=
  tidy (baslik v) = true /\ tidy (tarih v) = true /\
  startswith "http" (baglanti v) = true /\
  (ozet v = "" \/
   exists t : string, t <> "" /\ (String.length t <= 200)%nat /\ ozet v = t +:+ "...").

(** Descending order of the texts of the dates. *)
Definition newest_text_first (a b : veri) : Prop := str_lt (tarih a) (tarih b) = false.

(** The name that a term of a post gives to the categories: its [name] when
    its [taxonomy] is "category". *)
Definition category_name (term : json) : option string :=
  match getitem term "taxonomy", getitem term "name" with
  | Ok tax, Ok (JStr n) => if eq_str tax "category" then Some n else None
  | _, _ => None
  end.

(** The files that a run of the monitor may write, [today] being the reading
    of the clock that names the dated file. *)
Definition monitor_outputs (today : datetime) : list string :=
  [dated_file "data" today; latest_file "data";
   "data/category_distribution.png"; "data/category_percentage.png";
   "data/README.md"].

(** The fields of a calendar date in the ranges that a [datetime] keeps them
    in. *)
Definition calendar_date (d : datetime) : Prop :=
  1 <= year d <= 9999 /\ 1 <= month d <= 12 /\ 1 <= day d <= 31.

(** The number [x] written with [k] decimal digits before [acc], the last
    digit first to be found. *)
Fixpoint decimal (k : nat) (x : N) (acc : string) : string :=
  match k with
  | O => acc
  | S k' => decimal k' (x / 10)%N (String (pretty_N_char (x mod 10)%N) acc)
  end.

(** [j] zeros *)
Fixpoint zeros (j : nat) : string :=
  match j with
  | O => ""
  | S j' => String "0" (zeros j')
  end.

(** The fields of a [datetime] in the ranges that Python keeps them in: a
    calendar date, a time of the day, and an offset of less than a day. *)
Definition proper (d : datetime) : Prop :=
  calendar_date d /\
  0 <= hour d < 24 /\ 0 <= minute d < 60 /\ 0 <= second d < 60 /\
  0 <= microsecond d < 1000000 /\
  forall off : Z, tzinfo d = Some off -> -86400 < off < 86400.

(* ===================================================================== *)
(** * The builtins on examples *)
(* ===================================================================== *)

Example strip_example : strip "  a b  " = "a b".
Proof. reflexivity. Qed.

Example replace_example :
  replace SIGNUP_SUFFIX "" "Libble is Open for Limited Signup!" = "Libble"
  /\ replace "aa" "b" "aaaaa" = "bba" /\ replace "" "-" "ab" = "-a-b-".
Proof. repeat split; reflexivity. Qed.

Example replace_Z_example :
  replace "Z" "+00:00" "2024-01-03T10:00:00Z" = "2024-01-03T10:00:00+00:00".
Proof. reflexivity. Qed.

Example utcfromtimestamp_example :
  utcfromtimestamp 0 = Ok (mk_datetime 1970 1 1 0 0 0 0 None)
  /\ utcfromtimestamp 1709210096 = Ok (mk_datetime 2024 2 29 12 34 56 0 None)
  /\ utcfromtimestamp (-1) = Ok (mk_datetime 1969 12 31 23 59 59 0 None)
  /\ utcfromtimestamp 253402300799 = Ok (mk_datetime 9999 12 31 23 59 59 0 None)
  /\ utcfromtimestamp 253402300800 = Raise ValueError.
Proof. repeat split; reflexivity. Qed.

Example ymd2ord_example : ymd2ord 1970 1 1 = EPOCH_ORDINAL /\ ymd2ord 9999 12 31 = MAX_ORDINAL.
Proof. split; reflexivity. Qed.

Example iso_seconds_example :
  iso_seconds "2024-01-03T10:00:00+00:00" = Some (mk_datetime 2024 1 3 10 0 0 0 (Some 0))
  /\ iso_seconds "2024-01-03T10:00:00" = Some (mk_datetime 2024 1 3 10 0 0 0 None)
  /\ iso_seconds "2024-02-30T10:00:00" = None.
Proof. repeat split; reflexivity. Qed.

Example isoformat_example :
  isoformat (mk_datetime 2024 1 3 10 0 0 0 (Some (-19800))) = "2024-01-03T10:00:00-05:30"
  /\ isoformat (mk_datetime 2024 1 3 10 0 0 250 None) = "2024-01-03T10:00:00.000250".
Proof. split; reflexivity. Qed.

Example temizle_metin_example :
  TrackerScraper.temizle_metin "  Libble   is
  open " = "Libble is open".
Proof. reflexivity. Qed.

(* ===================================================================== *)
(** * Facts about strings *)
(* ===================================================================== *)

Section StringFacts.

Lemma app_nil_l (s : string) : "" +:+ s = s.
Proof. reflexivity. Qed.

Lemma app_cons (c : ascii) (a b : string) : String c a +:+ b = String c (a +:+ b).
Proof. reflexivity. Qed.

Lemma app_empty_r (s : string) : s +:+ "" = s.
Proof. induction s as [|c s IH]; [done | by rewrite app_cons, IH]. Qed.

Lemma app_assoc_str (a b c : string) : (a +:+ b) +:+ c = a +:+ (b +:+ c).
Proof. induction a as [|x a IH]; [done | by rewrite !app_cons, IH]. Qed.

Lemma startswith_spec (p s : string) :
  startswith p s = true <-> exists r, s = p +:+ r.
Proof.
  revert s. induction p as [|c p IH]; intros s; cbn [startswith].
  - split; [intros _; by exists s | done].
  - destruct s as [|d s].
    + split; [done | intros [r Hr]; done].
    + rewrite andb_true_iff, Ascii.eqb_eq, IH. split.
      * intros [-> [r ->]]. by exists r.
      * intros [r Hr]. rewrite app_cons in Hr. inversion Hr. eauto.
Qed.

Lemma startswith_app (p s : string) : startswith p (p +:+ s) = true.
Proof. apply startswith_spec. by exists s. Qed.

(** [sub in s] holds exactly when [s] is some text, [sub], and some text. *)
Lemma contains_spec (sub s : string) :
  contains sub s = true <-> exists a b, s = a +:+ sub +:+ b.
Proof.
  induction s as [|c s IH]; cbn [contains].
  - rewrite orb_false_r, startswith_spec. split.
    + intros [r Hr]. by exists "", r.
    + intros [a [b Hab]]. destruct a; [by exists b | done].
  - rewrite orb_true_iff, startswith_spec, IH. split.
    + intros [[r Hr] | [a [b Hab]]].
      * by exists "", r.
      * exists (String c a), b. by rewrite app_cons, Hab.
    + intros [a [b Hab]]. destruct a as [|d a].
      * left. by exists b.
      * right. rewrite app_cons in Hab. inversion Hab. by exists a, b.
Qed.

Lemma contains_app_false (sub a b c : string) :
  contains sub (a +:+ b +:+ c) = false -> contains sub b = false.
Proof.
  intros Hf. destruct (contains sub b) eqn:Hb; [|done].
  apply contains_spec in Hb as [x [y Hxy]].
  assert (contains sub (a +:+ b +:+ c) = true) as Ht; [|by rewrite Ht in Hf].
  apply contains_spec. exists (a +:+ x), (y +:+ c).
  rewrite Hxy. by rewrite !app_assoc_str.
Qed.

Lemma lstrip_suffix (s : string) : exists a, s = a +:+ lstrip s.
Proof.
  induction s as [|c s [a Ha]]; simpl.
  - by exists "".
  - destruct (isspace c).
    + exists (String c a). by rewrite app_cons, <- Ha.
    + by exists "".
Qed.

Lemma rstrip_prefix (s : string) : exists b, s = rstrip s +:+ b.
Proof.
  induction s as [|c s [b Hb]]; simpl.
  - by exists "".
  - destruct (rstrip s) as [|d r] eqn:Hr.
    + destruct (isspace c).
      * by exists (String c s).
      * exists s. done.
    + exists b. rewrite app_cons. by rewrite Hb at 1.
Qed.

(** What [strip] leaves is a part of the text. *)
Lemma strip_inside (s : string) : exists a b, s = a +:+ strip s +:+ b.
Proof.
  unfold strip. destruct (lstrip_suffix s) as [a Ha].
  destruct (rstrip_prefix (lstrip s)) as [b Hb].
  exists a, b. by rewrite <- Hb.
Qed.

Lemma contains_strip_false (sub s : string) :
  contains sub s = false -> contains sub (strip s) = false.
Proof.
  intros Hf. destruct (strip_inside s) as [a [b Hab]].
  rewrite Hab in Hf. by apply contains_app_false in Hf.
Qed.

(** The characters of a matched occurrence are passed over. *)
Lemma replace_from_skip (old new p s : string) :
  replace_from old new (String.length p) (p +:+ s) = replace_from old new 0 s.
Proof.
  induction p as [|c p IH]; [done|].
  rewrite app_cons. simpl. apply IH.
Qed.

Lemma replace_found (c : ascii) (o new s : string) :
  replace (String c o) new (String c o +:+ s) = new +:+ replace (String c o) new s.
Proof.
  unfold replace. rewrite app_cons. cbn [replace_from].
  rewrite <- app_cons, startswith_app. cbn [String.length Nat.pred].
  by rewrite replace_from_skip.
Qed.

Lemma replace_passed (c d : ascii) (o new s : string) :
  startswith (String c o) (String d s) = false ->
  replace (String c o) new (String d s) = String d (replace (String c o) new s).
Proof. unfold replace. cbn [replace_from]. by intros ->. Qed.

End StringFacts.

Section SignupTitle.

(** Before the end of a text that has the phrase nowhere, the suffix does not
    begin: its last character, the exclamation mark, is its only one. *)
Lemma suffix_not_ahead (b : string) :
  b <> "" -> contains SIGNUP_PHRASE b = false ->
  startswith SIGNUP_SUFFIX (b +:+ SIGNUP_SUFFIX) = false.
Proof.
  intros Hne Hc. destruct (startswith _ _) eqn:Hp; [|done]. exfalso.
  unfold SIGNUP_SUFFIX in Hp.
  do 28 (destruct b as [|? b];
         [ first [done | vm_compute in Hp; discriminate]
         | rewrite app_cons in Hp; cbn [startswith] in Hp;
           apply andb_true_iff in Hp as [<-%Ascii.eqb_eq Hp] ]).
  vm_compute in Hc. discriminate.
Qed.

(** A title that ends with the suffix, and has the phrase nowhere before,
    is left with what stands before the suffix. *)
Lemma replace_suffix (base : string) :
  contains SIGNUP_PHRASE base = false ->
  replace SIGNUP_SUFFIX "" (base +:+ SIGNUP_SUFFIX) = base.
Proof.
  induction base as [|c b IH]; intros Hc; [reflexivity|].
  assert (contains SIGNUP_PHRASE b = false) as Hb.
  { cbn [contains] in Hc. by apply orb_false_iff in Hc as [_ ?]. }
  pose proof (suffix_not_ahead (String c b) ltac:(done) Hc) as Hn.
  rewrite app_cons in *. unfold SIGNUP_SUFFIX at 1.
  rewrite replace_passed by exact Hn.
  f_equal. by apply IH.
Qed.

End SignupTitle.

(* ===================================================================== *)
(** * The records of the adapters *)
(* ===================================================================== *)

(** Computations, step by step. *)
Lemma result_bind_eq {A B} (m : result A) (f : A -> result B) :
  m ≫= f = match m with Ok a => f a | Raise e => Raise e end.
Proof. reflexivity. Qed.

Lemma run_bind {A B} (m : M A) (f : A -> M B) (e : env) (w : world) :
  run (m ≫= f) e w =
  match run m e w with
  | (Ok a, w') => run (f a) e w'
  | (Raise x, w') => (Raise x, w')
  end.
Proof. reflexivity. Qed.

Lemma run_lift {A} (r : result A) (e : env) (w : world) : run (lift r) e w = (r, w).
Proof. reflexivity. Qed.

Lemma run_ret {A} (a : A) (e : env) (w : world) : run (mret a) e w = (Ok a, w).
Proof. reflexivity. Qed.

(** Taking a successful computation apart. *)
Ltac bind_inv H :=
  repeat (
    rewrite ?result_bind_eq in H;
    match type of H with
    | context [match ?x with Ok _ => _ | Raise _ => _ end] =>
        let E := fresh "E" in destruct x eqn:E; try discriminate H
    end).

Ltac run_inv H :=
  repeat (
    rewrite ?run_bind, ?run_lift, ?run_ret, ?result_bind_eq in H; cbn beta iota in H;
    match type of H with
    | context [match ?x with Ok _ => _ | Raise _ => _ end] =>
        let E := fresh "E" in destruct x eqn:E; try discriminate H
    | context [match ?p with pair _ _ => _ end] =>
        let E := fresh "E" in destruct p as [[?|?] ?] eqn:E; try discriminate H
    end);
  rewrite ?run_ret in H.

Section Records.
Context `{PyLib}.

Lemma wordpress_record (post : json) (raw : string) (r : TrackerData) :
  (t ← getitem post "title"; getitem t "rendered") = Ok (JStr raw) ->
  WordPressAPI._parse_post post = Ok r ->
  status r = contains SIGNUP_PHRASE (unescape raw) /\
  name r = strip (replace SIGNUP_SUFFIX "" (unescape raw)).
Proof.
  intros Ht Hp. unfold WordPressAPI._parse_post in Hp.
  rewrite Ht in Hp. bind_inv Hp. cbn [as_str] in *. simplify_eq. done.
Qed.

Lemma reddit_record (subreddit : string) (post : json) (raw : string) (e : env)
    (w w' : world) (r : TrackerData) :
  get post "title" (JStr "") = Ok (JStr raw) ->
  run (RedditAPI._parse_post subreddit post) e w = (Ok r, w') ->
  status r = contains SIGNUP_PHRASE (unescape raw) /\
  (strip (replace SIGNUP_SUFFIX "" (unescape raw)) <> "" ->
   name r = strip (replace SIGNUP_SUFFIX "" (unescape raw))).
Proof.
  intros Ht Hp. unfold RedditAPI._parse_post in Hp.
  rewrite Ht in Hp. run_inv Hp. cbn [as_str] in *. simplify_eq.
  split; [done|]. intros Hne. cbn [name].
  destruct (String.eqb _ "") eqn:Heq; [by apply String.eqb_eq in Heq|].
  cbn [negb] in *. by simplify_eq.
Qed.

(** A title that is a text without the phrase, and the suffix behind it, is
    cleaned to that text. *)
Lemma cleaned_title (base : string) :
  contains SIGNUP_PHRASE base = false ->
  strip (replace SIGNUP_SUFFIX "" (base +:+ SIGNUP_SUFFIX)) = strip base /\
  contains SIGNUP_PHRASE (strip base) = false.
Proof.
  intros Hb. rewrite replace_suffix by done.
  split; [done | by apply contains_strip_false].
Qed.

(** C1, as amended: for every post parsed by the WordPress or the Reddit
    adapter, isOpen is true exactly when the title contains the phrase
    "is Open for Limited Signup!", so a title without the phrase gives a
    closed record; and when the title is a text without the phrase followed
    by " is Open for Limited Signup!", the name is that text with the white
    space around it removed, and has the phrase nowhere (for the Reddit
    adapter, provided that text is not blank). *)
Theorem C1_status_follows_title (a : adapter) (title : string) (r : TrackerData) :
  parsed a title r ->
  status r = contains SIGNUP_PHRASE title /\
  (contains SIGNUP_PHRASE title = false -> status r = false) /\
  (forall base : string,
     title = base +:+ SIGNUP_SUFFIX ->
     contains SIGNUP_PHRASE base = false ->
     a = WordPress \/ strip base <> "" ->
     status r = true /\ name r = strip base /\ contains SIGNUP_PHRASE (name r) = false).
Proof.
  intros Hp.
  assert (status r = contains SIGNUP_PHRASE title /\
          (a = WordPress \/ strip (replace SIGNUP_SUFFIX "" title) <> "" ->
           name r = strip (replace SIGNUP_SUFFIX "" title))) as [Hs Hn].
  { destruct Hp as [post raw r Ht Hr | sub post raw e w w' r Ht Hr].
    - destruct (wordpress_record _ _ _ Ht Hr) as [? ?]. by split.
    - destruct (reddit_record _ _ _ _ _ _ _ Ht Hr) as [? Hn]. split; [done|].
      intros [|Hne]; [done | by apply Hn]. }
  split; [done|]. split; [by intros <-|].
  intros base -> Hb Hne. destruct (cleaned_title base Hb) as [Hc Hf].
  rewrite Hc in Hn. rewrite (Hn Hne). split; [|done].
  rewrite Hs. apply contains_spec. exists (base +:+ " "), "".
  by rewrite app_assoc_str.
Qed.

End Records.

(** C1 at the WordPress post titled "Libble is Open for Limited Signup!". *)
Lemma C1_status_follows_title_witness :
  let r := mk_TrackerData "Libble" (mk_datetime 2024 1 3 10 0 0 0 None) "Signups are open."
             ["Music"] "https://opentrackers.org/2024/01/03/sample/" true in
  @parsed plain_lib WordPress "Libble is Open for Limited Signup!" r /\
  status r = true /\ name r = "Libble".
Proof.
  intros r.
  assert (@parsed plain_lib WordPress "Libble is Open for Limited Signup!" r) as Hp.
  { apply (@parsed_wordpress plain_lib
             (wp_post "Libble is Open for Limited Signup!" "2024-01-03T10:00:00")
             "Libble is Open for Limited Signup!" r); reflexivity. }
  split; [exact Hp|].
  destruct (@C1_status_follows_title plain_lib _ _ r Hp) as (_ & _ & Hb).
  destruct (Hb "Libble" eq_refl eq_refl (or_introl eq_refl)) as (? & ? & _).
  by split.
Defined.

(** C1 as it was stated fails: a title without the phrase gives a record
    that is not open, with either adapter; and the title that is the phrase
    alone keeps the phrase in the name. *)
Lemma C1_closed_status_is_produced :
  (forall L : PyLib,
     @WordPressAPI._parse_post L (wp_post "Libble closes its doors" "2024-01-03T10:00:00")
     = Ok (mk_TrackerData "Libble closes its doors" (mk_datetime 2024 1 3 10 0 0 0 None)
             "Signups are open." ["Music"] "https://opentrackers.org/2024/01/03/sample/"
             false)) /\
  (forall (L : PyLib) (e : env) (w : world),
     run (@RedditAPI._parse_post L "OpenSignup"
            (reddit_post "Libble closes its doors" "1abcde" 1704276000)) e w
     = (Ok (mk_TrackerData "Libble closes its doors" (mk_datetime 2024 1 3 10 0 0 0 None)
              "Signups are open." [] "https://example.org/signup" false), w)) /\
  (forall L : PyLib,
     @WordPressAPI._parse_post L (wp_post "is Open for Limited Signup!" "2024-01-03T10:00:00")
     = Ok (mk_TrackerData "is Open for Limited Signup!" (mk_datetime 2024 1 3 10 0 0 0 None)
             "Signups are open." ["Music"] "https://opentrackers.org/2024/01/03/sample/"
             true)).
Proof. repeat split; intros; reflexivity. Qed.

Section Names.
Context `{PyLib}.

(** The Reddit adapter leaves the name empty only when the cleaned title is
    empty and the post's id is the empty string. *)
Lemma reddit_name_fallback (subreddit : string) (post : json) (e : env) (w w' : world)
    (r : TrackerData) :
  run (RedditAPI._parse_post subreddit post) e w = (Ok r, w') ->
  name r = "" -> get post "id" (JStr "No Title") = Ok (JStr "").
Proof.
  intros Hp Hn. unfold RedditAPI._parse_post in Hp. run_inv Hp.
  injection Hp as <- <-. cbn [name] in Hn. subst.
  destruct (String.eqb _ "") eqn:Heq; cbn [negb] in *.
  - bind_inv E0.
    repeat match goal with
    | Hx : as_str ?j = Ok _ |- _ => destruct j; cbn [as_str] in Hx; try discriminate Hx
    end.
    congruence.
  - apply String.eqb_neq in Heq. exfalso. apply Heq. by injection E0.
Qed.

(** C4 (a defect of the code): the WordPress adapter has no fallback for the
    name.  A post without a title, and a post whose title is the suffix
    alone, are given the empty name; the Reddit adapter gives the post's id to
    a post with the same title. *)
Theorem C4_wordpress_name_is_empty :
  name <$> WordPressAPI._parse_post (wp_post "" "2024-01-03T10:00:00") = Ok "" /\
  name <$> WordPressAPI._parse_post
             (wp_post " is Open for Limited Signup!" "2024-01-03T10:00:00") = Ok "" /\
  forall (e : env) (w : world),
    name <$> fst (run (RedditAPI._parse_post "OpenSignup"
                         (reddit_post " is Open for Limited Signup!" "1abcde" 1704276000)) e w)
    = Ok "1abcde".
Proof. repeat split; intros; reflexivity. Qed.

(** ** The date of a Reddit post *)

Lemma date_of_false (created : json) (e : env) (w : world) :
  truthy created = false ->
  run (RedditAPI.date_of created) e w = (Ok (utcnow_at e (clock_reads w)), ticked w).
Proof. intros Hc. unfold RedditAPI.date_of. by rewrite Hc. Qed.

Lemma date_of_nonzero (t : Z) (e : env) (w : world) :
  t <> 0 -> run (RedditAPI.date_of (JNum t)) e w = (utcfromtimestamp t, w).
Proof.
  intros Ht. unfold RedditAPI.date_of. cbn [truthy].
  destruct (Z.eqb_spec t 0) as [->|_]; [done | reflexivity].
Qed.

(** C10: in the Reddit adapter a post whose [created_utc] is present and
    equal to 0 is dated by the clock, not 1970-01-01, which is what the
    conversion of 0 gives: the field is tested for its truth value, and
    whatever is false there (0 as an absent field) is dated by the clock; a
    [created_utc] that is not 0 is converted to its UTC date and time. *)
Theorem C10_zero_created_utc_is_dated_now (subreddit : string) (members : list (string * json))
    (e : env) (w w' : world) (r : TrackerData) :
  run (RedditAPI._parse_post subreddit (JObj members)) e w = (Ok r, w') ->
  (assoc "created_utc" members = Some (JNum 0) ->
   date r = utcnow_at e (clock_reads w) /\ clock_reads w' = S (clock_reads w)) /\
  utcfromtimestamp 0 = Ok (mk_datetime 1970 1 1 0 0 0 0 None) /\
  (forall t : Z, assoc "created_utc" members = Some (JNum t) -> t <> 0 ->
   utcfromtimestamp t = Ok (date r) /\ clock_reads w' = clock_reads w) /\
  (forall (created : json) (e0 : env) (w0 : world),
     truthy created = false ->
     run (RedditAPI.date_of created) e0 w0
     = (Ok (utcnow_at e0 (clock_reads w0)), ticked w0)) /\
  (forall (t : Z) (e0 : env) (w0 : world),
     t <> 0 -> run (RedditAPI.date_of (JNum t)) e0 w0 = (utcfromtimestamp t, w0)).
Proof.
  intros Hp. unfold RedditAPI._parse_post in Hp. run_inv Hp. simplify_eq.
  cbn [date]. cbn [get] in E2.
  split; [|split; [reflexivity|split; [|split]]].
  - intros Hc. rewrite Hc in E2. simplify_eq.
    rewrite date_of_false in E4 by done. by simplify_eq.
  - intros t Hc Ht. rewrite Hc in E2. simplify_eq.
    rewrite date_of_nonzero in E4 by done. by simplify_eq.
  - apply date_of_false.
  - apply date_of_nonzero.
Qed.

End Names.

(** C10 at a post with [created_utc] 0, read when the clock shows
    2024-01-05T08:30:00. *)
Lemma C10_zero_created_utc_is_dated_now_witness :
  let e := mk_env still_clock still_clock (fun _ => Failed) in
  let r := mk_TrackerData "Libble" (still_clock 0) "Signups are open." []
             "https://example.org/signup" true in
  run (@RedditAPI._parse_post plain_lib "OpenSignup"
         (reddit_post "Libble is Open for Limited Signup!" "1abcde" 0)) e initial
  = (Ok r, mk_world ∅ [] 1 0) /\
  date r = mk_datetime 2024 1 5 8 30 0 0 None.
Proof.
  intros e r.
  assert (run (@RedditAPI._parse_post plain_lib "OpenSignup"
                 (reddit_post "Libble is Open for Limited Signup!" "1abcde" 0)) e initial
          = (Ok r, mk_world ∅ [] 1 0)) as Hp by reflexivity.
  split; [exact Hp|].
  destruct (@C10_zero_created_utc_is_dated_now plain_lib _ _ _ _ _ _ Hp) as [Hz _].
  destruct (Hz eq_refl) as [Hd _]. exact Hd.
Defined.

(* ===================================================================== *)
(** * Fetching *)
(* ===================================================================== *)

Section Comprehensions.
Context {A B : Type}.










End Comprehensions.

Section Fetch.
Context `{PyLib}.


(** What the WordPress fetch comes to. *)
Lemma wordpress_fetch (base : string) (e : env) (w : world) :
  run (WordPressAPI.fetch_posts base) e w =
  let w1 := sent (base +:+ "/wp-json/wp/v2/posts") w in
  match
    match respond e (requests w) with
    | Failed => Raise TransportError
    | Reply r =>
        _ ← raise_for_status r; (decoded r ≫= iter) ≫= comprehension WordPressAPI._parse_post
    end
  with
  | Ok l => (Ok l, w1)
  | Raise x => (Ok [], noted (Print ("WordPress API Error: " +:+ describe x)) w1)
  end.
Proof.
  unfold WordPressAPI.fetch_posts, try_except. cbn [run].
  rewrite run_bind. unfold http_get at 1. cbn [run]. fold (sent (base +:+ "/wp-json/wp/v2/posts") w).
  destruct (respond e (requests w)) as [|r]; [reflexivity|].
  rewrite run_bind, run_lift, !result_bind_eq.
  destruct (raise_for_status r) as [[]|x]; [|reflexivity].
  rewrite run_lift.
  destruct (decoded r) as [doc|x]; [|reflexivity].
  destruct (iter doc) as [posts|x]; [|reflexivity].
  by destruct (comprehension _ posts).
Qed.

(** The Reddit adapter reads a post without sending, printing or writing. *)
Lemma quiet_lift {C} (r : result C) : quiet (lift r).
Proof. intros e w w' r' Hr. rewrite run_lift in Hr. by simplify_eq. Qed.

Lemma quiet_ret {C} (c : C) : quiet (mret c).
Proof. intros e w w' r' Hr. rewrite run_ret in Hr. by simplify_eq. Qed.

Lemma quiet_utcnow : quiet utcnow.
Proof. intros e w w' r' Hr. unfold utcnow in Hr. cbn [run] in Hr. by simplify_eq. Qed.

Lemma quiet_bind {C D} (m : M C) (f : C -> M D) :
  quiet m -> (forall c, quiet (f c)) -> quiet (m ≫= f).
Proof.
  intros Hm Hf e w w' r Hr. rewrite run_bind in Hr.
  destruct (run m e w) as [[c|x] w1] eqn:E.
  - destruct (Hm _ _ _ _ E) as (? & ? & ?).
    destruct (Hf c _ _ _ _ Hr) as (? & ? & ?). repeat split; congruence.
  - simplify_eq. by apply (Hm _ _ _ _ E).
Qed.

Lemma quiet_comprehensionM {C D} (f : C -> M D) (xs : list C) :
  (forall c, quiet (f c)) -> quiet (comprehensionM f xs).
Proof.
  intros Hf. induction xs as [|c xs IH]; cbn [comprehensionM]; [apply quiet_ret|].
  apply quiet_bind; [apply Hf|]. intros d.
  apply quiet_bind; [apply IH|]. intros ds. apply quiet_ret.
Qed.

Lemma quiet_date_of (created : json) : quiet (RedditAPI.date_of created).
Proof.
  unfold RedditAPI.date_of. destruct (truthy created); [|apply quiet_utcnow].
  destruct created; apply quiet_lift.
Qed.

Lemma quiet_parse_post (subreddit : string) (post : json) :
  quiet (RedditAPI._parse_post subreddit post).
Proof.
  unfold RedditAPI._parse_post.
  repeat (apply quiet_bind; [first [apply quiet_lift | apply quiet_date_of]|]; intros ?).
  apply quiet_ret.
Qed.

(** What the Reddit fetch comes to. *)
Lemma reddit_fetch (subreddit : string) (e : env) (w : world) :
  run (RedditAPI.fetch_posts subreddit) e w =
  let w1 := sent (RedditAPI._base_url subreddit +:+ ".json") w in
  let failed x w' := (Ok [], noted (Print ("Reddit API Error: " +:+ describe x)) w') in
  match respond e (requests w) with
  | Failed => failed TransportError w1
  | Reply r =>
      match _ ← raise_for_status r; doc ← decoded r;
            (d ← get doc "data" (JObj []); get d "children" (JArr [])) ≫= iter with
      | Raise x => failed x w1
      | Ok posts =>
          match run (comprehensionM
                       (fun post => p ← lift (getitem post "data");
                                    RedditAPI._parse_post subreddit p) posts) e w1 with
          | (Ok l, w2) => (Ok l, w2)
          | (Raise x, w2) => failed x w2
          end
      end
  end.
Proof.
  unfold RedditAPI.fetch_posts, try_except. cbn [run].
  rewrite run_bind. unfold http_get at 1. cbn [run].
  fold (sent (RedditAPI._base_url subreddit +:+ ".json") w).
  destruct (respond e (requests w)) as [|r]; [reflexivity|].
  rewrite run_bind, run_lift, !result_bind_eq.
  destruct (raise_for_status r) as [[]|x]; [|reflexivity].
  rewrite run_bind, run_lift.
  destruct (decoded r) as [doc|x]; [|reflexivity].
  rewrite run_bind, run_lift, ?result_bind_eq.
  destruct (get doc "data" (JObj [])) as [d|x]; [|reflexivity].
  destruct (get d "children" (JArr [])) as [c|x]; [|reflexivity].
  destruct (iter c) as [posts|x]; [|reflexivity].
  by destruct (run (comprehensionM _ posts) e _) as [[l|x] w2].
Qed.






End Fetch.

(* ===================================================================== *)
(** * The scraper *)
(* ===================================================================== *)

Section Scraper.

(** An answer that is not 200 is followed by a sleep of two seconds and the
    next attempt. *)
Lemma deneme_refused (n : nat) (r : response) (e : env) (w : world) :
  respond e (requests w) = Reply r -> status_code r <> 200 ->
  run (TrackerScraper.deneme (S n)) e w =
  run (TrackerScraper.deneme n) e (noted (Sleep 2) (sent TrackerScraper.site_url w)).
Proof.
  intros Hr Hs. cbn [TrackerScraper.deneme]. rewrite run_bind.
  unfold http_get at 1. cbn [run]. rewrite Hr.
  destruct (Z.eqb_spec (status_code r) 200) as [|_]; [done|].
  rewrite run_bind. reflexivity.
Qed.

(** The answer 200 ends the attempts with the page. *)
Lemma deneme_served (n : nat) (r : response) (e : env) (w : world) :
  respond e (requests w) = Reply r -> status_code r = 200 ->
  run (TrackerScraper.deneme (S n)) e w = (Ok (text r), sent TrackerScraper.site_url w).
Proof.
  intros Hr Hs. cbn [TrackerScraper.deneme]. rewrite run_bind.
  unfold http_get at 1. cbn [run]. rewrite Hr, Hs. reflexivity.
Qed.

(** Three answers that are not 200: three requests, a sleep after each, and
    the empty page. *)
Lemma sayfa_icerik_al_refused (r0 r1 r2 : response) (e : env) (w : world) :
  respond e (requests w) = Reply r0 -> status_code r0 <> 200 ->
  respond e (S (requests w)) = Reply r1 -> status_code r1 <> 200 ->
  respond e (S (S (requests w))) = Reply r2 -> status_code r2 <> 200 ->
  run TrackerScraper.sayfa_icerik_al e w =
  (Ok "", mk_world (files w)
            (trace w ++ [Get TrackerScraper.site_url; Sleep 2;
                         Get TrackerScraper.site_url; Sleep 2;
                         Get TrackerScraper.site_url; Sleep 2])%list
            (clock_reads w) (S (S (S (requests w))))).
Proof.
  intros H0 S0 H1 S1 H2 S2.
  unfold TrackerScraper.sayfa_icerik_al, try_except. cbn [run].
  rewrite (deneme_refused _ r0) by done.
  rewrite (deneme_refused _ r1) by done.
  rewrite (deneme_refused _ r2) by done.
  cbn [TrackerScraper.deneme]. rewrite run_ret.
  unfold noted, sent. cbn [files trace clock_reads requests].
  by rewrite <- !app_assoc.
Qed.

(** C5 (a defect of the code): a transport error ends the attempts.  When the
    first request meets no response, the page fetch returns the empty string
    after that one request, without sleeping and without a second attempt,
    whatever the network would have given next. *)
Theorem C5_transport_error_ends_attempts (e : env) (w : world) :
  respond e (requests w) = Failed ->
  run TrackerScraper.sayfa_icerik_al e w =
  (Ok "", mk_world (files w)
            (trace w ++ [Get TrackerScraper.site_url;
                         Print ("Bağlantı hatası: " +:+ describe TransportError)])%list
            (clock_reads w) (S (requests w))).
Proof.
  intros Hr. unfold TrackerScraper.sayfa_icerik_al, try_except. cbn [run].
  cbn [TrackerScraper.deneme]. rewrite run_bind. unfold http_get at 1. cbn [run].
  rewrite Hr. cbn [print emit run mbind M_bind mret M_ret files trace clock_reads requests].
  by rewrite <- app_assoc.
Qed.

End Scraper.

(** C5 where the network fails the first request and would serve the page to
    the second: one request is made, and the page is not fetched. *)
Lemma C5_transport_error_ends_attempts_witness :
  let e := mk_env still_clock still_clock page_after_failure in
  respond e 1 = Reply (mk_response 200 "<html><body><article></article></body></html>"
                         (Raise JSONDecodeError)) /\
  run TrackerScraper.sayfa_icerik_al e initial =
  (Ok "", mk_world ∅ [Get TrackerScraper.site_url; Print "Bağlantı hatası: TransportError"] 0 1).
Proof.
  intros e. split; [reflexivity|].
  exact (C5_transport_error_ends_attempts e initial eq_refl).
Defined.

Section Containers.

(** [a or b] takes [a] unless it is empty. *)
Lemma or_tags_first (a b : list node) : a <> [] -> TrackerScraper.or_tags a b = a.
Proof. by destruct a. Qed.

Lemma or_tags_second (b : list node) : TrackerScraper.or_tags [] b = b.
Proof. reflexivity. Qed.

(** Without a heading of the three levels there is no title. *)
Lemma find_title_none (post : node) :
  find (is_tag "h1") post = None -> find (is_tag "h2") post = None ->
  find (is_tag "h3") post = None ->
  TrackerScraper.find_title ["h1"; "h2"; "h3"] post = None.
Proof. intros H1 H2 H3. cbn [TrackerScraper.find_title]. by rewrite H1, H2, H3. Qed.

(** A post without a heading, or without a link, gives no dictionary, and
    nothing is read or printed for it. *)
Lemma post_veri_skipped (post : node) (e : env) (w : world) :
  (find (is_tag "h1") post = None /\ find (is_tag "h2") post = None /\
   find (is_tag "h3") post = None) \/
  find (is_tag "a") post = None ->
  run (TrackerScraper.post_veri post) e w = (Ok None, w).
Proof.
  intros Hs. unfold TrackerScraper.post_veri.
  destruct Hs as [(H1 & H2 & H3) | Ha].
  - by rewrite find_title_none.
  - rewrite Ha. by destruct (TrackerScraper.find_title _ post) as [[|c t]|].
Qed.

(** The loop goes on after a post without a dictionary ... *)
Lemma collect_skipped (body : node -> M (option veri)) (post : node) (rest : list node)
    (e : env) (w w1 : world) :
  run (body post) e w = (Ok None, w1) ->
  run (TrackerScraper.collect body (post :: rest)) e w =
  run (TrackerScraper.collect body rest) e w1.
Proof.
  intros Hb. cbn [TrackerScraper.collect]. rewrite run_bind.
  unfold try_except at 1. cbn [run]. rewrite Hb. rewrite run_bind.
  by destruct (run (TrackerScraper.collect body rest) e w1) as [[l|x] w2].
Qed.

(** ... and after a post whose reading raises, once the error is printed. *)
Lemma collect_isolated (body : node -> M (option veri)) (post : node) (rest : list node)
    (e : env) (w w1 : world) (x : exn) :
  run (body post) e w = (Raise x, w1) ->
  run (TrackerScraper.collect body (post :: rest)) e w =
  run (TrackerScraper.collect body rest) e
    (noted (Print ("Post işlenirken hata: " +:+ describe x)) w1).
Proof.
  intros Hb. cbn [TrackerScraper.collect]. rewrite run_bind.
  unfold try_except at 1. cbn [run]. rewrite Hb.
  rewrite run_bind. cbn [print emit run]. rewrite run_ret. rewrite run_bind.
  fold (noted (Print ("Post işlenirken hata: " +:+ describe x)) w1).
  by destruct (run (TrackerScraper.collect body rest) e _) as [[l|y] w2].
Qed.

(** A post with a dictionary puts it before those of the posts behind it. *)
Lemma collect_found (body : node -> M (option veri)) (post : node) (rest : list node)
    (e : env) (w w1 : world) (v : veri) :
  run (body post) e w = (Ok (Some v), w1) ->
  run (TrackerScraper.collect body (post :: rest)) e w =
  match run (TrackerScraper.collect body rest) e w1 with
  | (Ok l, w2) => (Ok (v :: l), w2)
  | (Raise y, w2) => (Raise y, w2)
  end.
Proof.
  intros Hb. cbn [TrackerScraper.collect]. rewrite run_bind.
  unfold try_except at 1. cbn [run]. rewrite Hb. rewrite run_bind.
  by destruct (run (TrackerScraper.collect body rest) e w1) as [[l|y] w2].
Qed.

(** The loop itself never raises. *)
Lemma collect_total (body : node -> M (option veri)) (posts : list node) (e : env) (w : world) :
  exists l w', run (TrackerScraper.collect body posts) e w = (Ok l, w').
Proof.
  revert w. induction posts as [|post rest IH]; intros w; [by eexists _, _|].
  destruct (run (body post) e w) as [[[v|]|x] w1] eqn:Hb.
  - rewrite (collect_found _ _ _ _ _ _ _ Hb). destruct (IH w1) as (l & w2 & ->).
    by eexists _, _.
  - rewrite (collect_skipped _ _ _ _ _ _ Hb). apply IH.
  - rewrite (collect_isolated _ _ _ _ _ _ _ Hb). apply IH.
Qed.

(** A [div] of class "post-list" is a [div] whose class has "post" in it:
    where the second search finds nothing, the third finds nothing. *)
Lemma has_class_post_list (n : node) :
  has_class (String.eqb "post-list") n = true ->
  has_class (TrackerScraper.class_has "post") n = true.
Proof.
  unfold has_class. destruct (classes n) as [cs|]; [|done].
  intros [Hx | Hj]%orb_true_iff; apply orb_true_iff.
  - left. apply existsb_exists in Hx as (c & Hin & <-%String.eqb_eq).
    apply existsb_exists. by exists "post-list".
  - right. by apply String.eqb_eq in Hj as <-.
Qed.

Lemma fallback_finds_nothing (soup : node) :
  find_all (fun n => is_tag "div" n && has_class (TrackerScraper.class_has "post") n) soup = [] ->
  find_all (fun n => is_tag "div" n && has_class (String.eqb "post-list") n) soup = [].
Proof.
  unfold find_all. induction (descendants soup) as [|n ns IH]; [done|].
  cbn [List.filter]. destruct (is_tag "div" n); cbn [andb]; [|exact IH].
  destruct (has_class (String.eqb "post-list") n) eqn:Hl.
  - rewrite (has_class_post_list n Hl). discriminate.
  - destruct (has_class (TrackerScraper.class_has "post") n); [discriminate | exact IH].
Qed.

(** C9: the containers of the posts are all [article] tags; where there is
    none, the [div] tags whose class has "post" in it, in any case of the
    letters; where there is none either, the [div] tags of class "post-list".
    A container without a heading [h1], [h2] or [h3], or without a link, is
    passed over, and so is, alone, a container whose reading raises. *)
Theorem C9_containers_and_skipping (soup : node) :
  let articles := find_all (is_tag "article") soup in
  let posts :=
    find_all (fun n => is_tag "div" n && has_class (TrackerScraper.class_has "post") n) soup in
  let listed :=
    find_all (fun n => is_tag "div" n && has_class (String.eqb "post-list") n) soup in
  (articles <> [] -> TrackerScraper.post_containers soup = articles) /\
  (articles = [] -> posts <> [] -> TrackerScraper.post_containers soup = posts) /\
  (articles = [] -> posts = [] -> TrackerScraper.post_containers soup = listed) /\
  (forall (post : node) (rest : list node) (e : env) (w : world),
     (find (is_tag "h1") post = None /\ find (is_tag "h2") post = None /\
      find (is_tag "h3") post = None) \/
     find (is_tag "a") post = None ->
     run (TrackerScraper.collect TrackerScraper.post_veri (post :: rest)) e w =
     run (TrackerScraper.collect TrackerScraper.post_veri rest) e w) /\
  (forall (body : node -> M (option veri)) (post : node) (rest : list node)
          (e : env) (w w1 : world) (x : exn),
     run (body post) e w = (Raise x, w1) ->
     run (TrackerScraper.collect body (post :: rest)) e w =
     run (TrackerScraper.collect body rest) e
       (noted (Print ("Post işlenirken hata: " +:+ describe x)) w1)).
Proof.
  intros articles posts listed. unfold TrackerScraper.post_containers.
  fold articles posts listed. repeat split.
  - apply or_tags_first.
  - intros -> Hp. by rewrite or_tags_second, or_tags_first.
  - intros -> ->. by rewrite !or_tags_second.
  - intros post rest e w Hs. apply collect_skipped. by apply post_veri_skipped.
  - intros body post rest e w w1 x. apply collect_isolated.
Qed.

End Containers.

(** C9 on the sample page: no [article], two [div] tags whose class has
    "post" in it; the one without a heading is passed over. *)
Lemma C9_containers_and_skipping_witness :
  find_all (is_tag "article") sample_soup = [] /\
  TrackerScraper.post_containers sample_soup = [sample_bare; sample_item] /\
  forall (e : env) (w : world),
    run (TrackerScraper.collect TrackerScraper.post_veri [sample_bare; sample_item]) e w =
    run (TrackerScraper.collect TrackerScraper.post_veri [sample_item]) e w.
Proof.
  destruct (C9_containers_and_skipping sample_soup) as (_ & Hposts & _ & Hskip & _).
  split; [reflexivity|]. split.
  - rewrite Hposts; [reflexivity | reflexivity | discriminate].
  - intros e w. apply Hskip. left. repeat split; reflexivity.
Defined.

(* ===================================================================== *)
(** * Category statistics *)
(* ===================================================================== *)

Section Stats.

Lemma tally_bump (stats : gmap string nat) (c' c : string) :
  tally (bump stats c') c = (tally stats c + if string_dec c' c then 1 else 0)%nat.
Proof.
  unfold tally, bump. destruct (string_dec c' c) as [->|Hne].
  - by rewrite lookup_insert_eq.
  - rewrite lookup_insert_ne by done. lia.
Qed.

Lemma tally_foldl (cs : list string) (stats : gmap string nat) (c : string) :
  tally (foldl bump stats cs) c = (tally stats c + count_occ string_dec cs c)%nat.
Proof.
  revert stats. induction cs as [|c' cs IH]; intros stats; cbn [foldl count_occ]; [lia|].
  rewrite IH, tally_bump. destruct (string_dec c' c); lia.
Qed.

Lemma counted_bump (stats : gmap string nat) (c' : string) :
  counted stats -> counted (bump stats c').
Proof.
  intros Hc c. unfold bump. destruct (decide (c' = c)) as [->|Hne].
  - rewrite lookup_insert_eq. intros [=]. lia.
  - rewrite lookup_insert_ne by done. apply Hc.
Qed.

Lemma counted_foldl (cs : list string) (stats : gmap string nat) :
  counted stats -> counted (foldl bump stats cs).
Proof.
  revert stats. induction cs as [|c' cs IH]; intros stats Hc; [done|].
  cbn [foldl]. by apply IH, counted_bump.
Qed.

Lemma stats_foldl (trackers : list TrackerData) (stats : gmap string nat) (c : string) :
  counted stats ->
  let result := foldl (fun stats tracker => foldl bump stats (categories tracker))
                  stats trackers in
  counted result /\ tally result c = (tally stats c + occurrences c trackers)%nat.
Proof.
  revert stats. unfold occurrences.
  induction trackers as [|t ts IH]; intros stats Hc; cbn [foldl flat_map].
  - split; [done | cbn; lia].
  - destruct (IH (foldl bump stats (categories t)) (counted_foldl _ _ Hc)) as [Hr Ht].
    split; [done|]. cbn zeta in Ht. rewrite Ht, tally_foldl, count_occ_app. lia.
Qed.

(** C7: the statistics count every category string over the categories of
    all the records, a record with several categories counting for each of
    them; the records with categories A, B and with category A alone give
    exactly A: 2, B: 1. *)
Theorem C7_category_stats_counts (trackers : list TrackerData) (c : string) :
  category_stats trackers !! c =
    (if Nat.eqb (occurrences c trackers) 0 then None else Some (occurrences c trackers)) /\
  category_stats [tracker_in ["A"; "B"]; tracker_in ["A"]] = {["A" := 2%nat; "B" := 1%nat]}.
Proof.
  split; [|by apply map_eq; intros k; vm_compute].
  destruct (stats_foldl trackers ∅ c) as [Hc Ht]; [by intros k; rewrite lookup_empty|].
  cbn zeta in Hc, Ht. change (foldl _ ∅ trackers) with (category_stats trackers) in Hc, Ht.
  unfold tally in Ht. rewrite lookup_empty in Ht. cbn [default] in Ht.
  rewrite Nat.add_0_l in Ht. rewrite <- Ht.
  destruct (category_stats trackers !! c) as [[|k]|] eqn:Hl; cbn [default Nat.eqb]; try done.
  by destruct (Hc c).
Qed.

End Stats.

(* ===================================================================== *)
(** * Persistence *)
(* ===================================================================== *)

Section Persistence.

(** What [save] does: two readings of the clock, and the same document in
    the dated file and in the latest file. *)
Lemma save_run (storage : string) (trackers : list TrackerData) (e : env) (w : world) :
  run (DataManager.save storage trackers) e w =
  let data := snapshot (now_at e (clock_reads w)) trackers in
  (Ok tt,
   mk_world
     (<[latest_file storage := Json data]>
        (<[dated_file storage (now_at e (S (clock_reads w))) := Json data]> (files w)))
     (trace w) (S (S (clock_reads w))) (requests w)).
Proof. reflexivity. Qed.

Lemma same_day_file (storage : string) (a b : datetime) :
  same_day a b -> dated_file storage a = dated_file storage b.
Proof.
  intros (Hy & Hm & Hd). unfold dated_file, strftime_Ymd. by rewrite Hy, Hm, Hd.
Qed.

(** C8: every save writes one document to the file named by the day and to
    the latest file, which so hold the same content, and touches no other
    file.  The document has two members, the time of the run as an ISO-8601
    string and the list of the records; a record is written with its six
    fields, in the order name, description, categories, url, status, date:
    the first five as they are in the record and the date as an ISO-8601
    string.  A second save on the same calendar day puts its own document in
    the place of that day's file. *)
Theorem C8_save_writes_both_files (storage : string) (trackers : list TrackerData)
    (e : env) (w : world) :
  let stamp := now_at e (clock_reads w) in
  let today := now_at e (S (clock_reads w)) in
  exists w' : world,
    run (DataManager.save storage trackers) e w = (Ok tt, w') /\
    files w' !! dated_file storage today = Some (Json (snapshot stamp trackers)) /\
    files w' !! latest_file storage = Some (Json (snapshot stamp trackers)) /\
    (forall path : string,
       path <> dated_file storage today -> path <> latest_file storage ->
       files w' !! path = files w !! path) /\
    getitem (snapshot stamp trackers) "last_updated" = Ok (JStr (isoformat stamp)) /\
    getitem (snapshot stamp trackers) "trackers"
      = Ok (JArr (map DataManager._serialize_tracker trackers)) /\
    iter (snapshot stamp trackers) = Ok [JStr "last_updated"; JStr "trackers"] /\
    (forall t : TrackerData,
       let entry := DataManager._serialize_tracker t in
       iter entry = Ok [JStr "name"; JStr "description"; JStr "categories"; JStr "url";
                        JStr "status"; JStr "date"] /\
       getitem entry "name" = Ok (JStr (name t)) /\
       getitem entry "description" = Ok (JStr (description t)) /\
       getitem entry "categories" = Ok (JArr (map JStr (categories t))) /\
       getitem entry "url" = Ok (JStr (url t)) /\
       getitem entry "status" = Ok (JBool (status t)) /\
       getitem entry "date" = Ok (JStr (isoformat (date t)))) /\
    (forall (again : list TrackerData) (w'' : world),
       same_day today (now_at e (S (clock_reads w'))) ->
       run (DataManager.save storage again) e w' = (Ok tt, w'') ->
       files w'' !! dated_file storage today
         = Some (Json (snapshot (now_at e (clock_reads w')) again)) /\
       files w'' !! latest_file storage
         = Some (Json (snapshot (now_at e (clock_reads w')) again))).
Proof.
  intros stamp today. eexists. split; [apply save_run|].
  cbn zeta. cbn [files clock_reads]. fold stamp today.
  assert (forall (m : gmap string content) (a b : string) (c : content),
            <[b := c]> (<[a := c]> m) !! a = Some c) as Hboth.
  { intros m a b c. destruct (decide (b = a)) as [->|Hne].
    - apply lookup_insert_eq.
    - rewrite lookup_insert_ne by done. apply lookup_insert_eq. }
  split; [apply Hboth|]. split; [apply lookup_insert_eq|].
  split; [intros path Hd Hl; by rewrite !lookup_insert_ne|].
  split; [reflexivity|]. split; [reflexivity|]. split; [reflexivity|].
  split; [intros t; repeat split|].
  intros again w'' Hday Hrun. rewrite save_run in Hrun. cbn zeta in Hrun.
  cbn [clock_reads files] in Hrun. injection Hrun as <-. cbn [files].
  rewrite (same_day_file storage today _ Hday).
  split; [apply Hboth | apply lookup_insert_eq].
Qed.

End Persistence.

(* ===================================================================== *)
(** * The order of the rows *)
(* ===================================================================== *)

Section Order.

Lemma by_date_same (a b : TrackerData) :
  is_aware a = is_aware b -> TrackerMonitor.by_date a b = Ok (earlier a b).
Proof.
  unfold is_aware, TrackerMonitor.by_date, datetime_lt, earlier.
  by destruct (tzinfo (date a)), (tzinfo (date b)).
Qed.

Lemma by_date_mixed (a b : TrackerData) :
  is_aware a <> is_aware b -> TrackerMonitor.by_date a b = Raise TypeError.
Proof.
  unfold is_aware, TrackerMonitor.by_date, datetime_lt.
  by destruct (tzinfo (date a)), (tzinfo (date b)).
Qed.

(** Inserting among dates of its kind keeps the kind and the elements. *)
Lemma insort_same (k : bool) (x : TrackerData) (l : list TrackerData) :
  is_aware x = k -> Forall (fun t => is_aware t = k) l ->
  exists l', insort TrackerMonitor.by_date x l = Ok l' /\
             Forall (fun t => is_aware t = k) l' /\ Permutation (x :: l) l'.
Proof.
  intros Hx Hl. induction Hl as [|y l Hy Hl IH]; cbn [insort].
  - exists [x]. by repeat constructor.
  - rewrite by_date_same by congruence. rewrite result_bind_eq.
    destruct (earlier x y).
    + eexists. split; [reflexivity|]. split; [by repeat constructor | done].
    + destruct IH as (l' & -> & Hk & Hp). rewrite result_bind_eq.
      eexists. split; [reflexivity|]. split; [by constructor|].
      rewrite perm_swap. by constructor.
Qed.

(** Inserting a date of the other kind raises at the first comparison. *)
Lemma insort_other (k : bool) (x : TrackerData) (l : list TrackerData) :
  is_aware x <> k -> Forall (fun t => is_aware t = k) l -> l <> [] ->
  insort TrackerMonitor.by_date x l = Raise TypeError.
Proof.
  intros Hx Hl Hne. destruct Hl as [|y l Hy Hl]; [done|].
  cbn [insort]. rewrite by_date_mixed by congruence. reflexivity.
Qed.

Lemma insort_all_mixed (k : bool) (l acc : list TrackerData) :
  Forall (fun t => is_aware t = k) acc -> acc <> [] ->
  ~ Forall (fun t => is_aware t = k) l ->
  insort_all TrackerMonitor.by_date acc l = Raise TypeError.
Proof.
  revert acc. induction l as [|x l IH]; intros acc Hacc Hne Hl.
  - destruct Hl. constructor.
  - cbn [insort_all]. rewrite result_bind_eq.
    destruct (decide (is_aware x = k)) as [Hx|Hx].
    + destruct (insort_same k x acc Hx Hacc) as (acc' & -> & Hk & Hp).
      apply IH; [done | |].
      * intros ->. symmetry in Hp. by apply Permutation_nil_cons in Hp.
      * intros Hf. apply Hl. by constructor.
    + by rewrite (insort_other k x acc Hx Hacc Hne).
Qed.

(** A list with a naive and an aware date cannot be sorted. *)
Lemma sorted_mixed (l : list TrackerData) :
  mixed l -> sorted TrackerMonitor.by_date l = Raise TypeError.
Proof.
  intros (a & b & Ha & Hb & Hab). unfold sorted.
  destruct l as [|x l]; [done|]. cbn [insort_all insort]. rewrite result_bind_eq.
  apply (insort_all_mixed (is_aware x)); [by repeat constructor | done |].
  intros Hf. rewrite Forall_forall in Hf.
  assert (forall t, In t (x :: l) -> is_aware t = is_aware x) as Hall.
  { intros t [<-|Ht]; [done | by apply Hf, list_elem_of_In]. }
  apply Hab. by rewrite (Hall a Ha), (Hall b Hb).
Qed.

Lemma sorted_reverse_mixed (l : list TrackerData) :
  mixed l -> sorted_reverse TrackerMonitor.by_date l = Raise TypeError.
Proof.
  intros (a & b & Ha & Hb & Hab). unfold sorted_reverse.
  rewrite sorted_mixed; [done|].
  exists a, b. rewrite <- !list_elem_of_In, !elem_of_reverse, !list_elem_of_In. done.
Qed.

(** ** Dates of one kind *)

Lemma lex_lt_asym (a b : list Z) : lex_lt a b = true -> lex_lt b a = false.
Proof.
  revert b. induction a as [|x a IH]; intros [|y b]; cbn [lex_lt]; try done.
  intros [Hlt | [Heq Hrec]%andb_true_iff]%orb_true_iff.
  - apply Z.ltb_lt in Hlt. apply orb_false_iff. split; [apply Z.ltb_ge; lia|].
    apply andb_false_iff. left. apply Z.eqb_neq. lia.
  - apply Z.eqb_eq in Heq as ->. rewrite Z.ltb_irrefl, Z.eqb_refl. cbn [orb andb].
    by apply IH.
Qed.

Lemma earlier_asym (a b : TrackerData) : earlier a b = true -> earlier b a = false.
Proof.
  unfold earlier. destruct (tzinfo (date a)), (tzinfo (date b)); try done.
  - intros Hlt%Z.ltb_lt. apply Z.ltb_ge. lia.
  - apply lex_lt_asym.
Qed.

Lemma insort_sorted (k : bool) (x : TrackerData) (l : list TrackerData) :
  is_aware x = k -> Forall (fun t => is_aware t = k) l ->
  Sorted (flip not_earlier) l ->
  exists l', insort TrackerMonitor.by_date x l = Ok l' /\
             Sorted (flip not_earlier) l' /\
             forall z, flip not_earlier z x -> HdRel (flip not_earlier) z l ->
                       HdRel (flip not_earlier) z l'.
Proof.
  intros Hx Hl Hs. induction Hl as [|y l Hy Hl IH]; cbn [insort].
  - exists [x]. split; [done|]. split; [by repeat constructor|].
    intros z Hz _. by constructor.
  - rewrite by_date_same by congruence. rewrite result_bind_eq.
    apply Sorted_inv in Hs as [Hs Hhd].
    destruct (earlier x y) eqn:Hxy.
    + eexists. split; [reflexivity|]. split.
      * constructor; [by constructor|]. constructor. by apply earlier_asym.
      * intros z Hz _. by constructor.
    + destruct (IH Hs) as (l' & -> & Hs' & Hh'). rewrite result_bind_eq.
      eexists. split; [reflexivity|]. split.
      * constructor; [done|]. by apply Hh'.
      * intros z _ Hz. apply HdRel_inv in Hz. by constructor.
Qed.

Lemma insort_all_sorted (k : bool) (l acc : list TrackerData) :
  Forall (fun t => is_aware t = k) acc -> Forall (fun t => is_aware t = k) l ->
  Sorted (flip not_earlier) acc ->
  exists l', insort_all TrackerMonitor.by_date acc l = Ok l' /\
             Sorted (flip not_earlier) l' /\ Permutation (acc ++ l) l'.
Proof.
  revert acc. induction l as [|x l IH]; intros acc Hacc Hl Hs; cbn [insort_all].
  - exists acc. by rewrite app_nil_r.
  - apply Forall_cons in Hl as [Hx Hl]. rewrite result_bind_eq.
    destruct (insort_sorted k x acc Hx Hacc Hs) as (acc' & Hi & Hs' & _).
    destruct (insort_same k x acc Hx Hacc) as (acc'' & Hi' & Hk & Hp).
    rewrite Hi in Hi'. injection Hi' as <-. rewrite Hi.
    destruct (IH acc' Hk Hl Hs') as (l' & -> & Hs'' & Hp').
    exists l'. split; [done|]. split; [done|].
    rewrite <- Hp', <- Hp. symmetry. apply Permutation_middle.
Qed.

Lemma lex_lt_chain (a b c : list Z) :
  lex_lt a b = false -> lex_lt b c = false -> lex_lt a c = false.
Proof.
  revert b c. induction a as [|x a IH]; intros [|y b] [|z c]; cbn [lex_lt]; try done.
  intros [Hxy Hab]%orb_false_iff [Hyz Hbc]%orb_false_iff.
  apply Z.ltb_ge in Hxy, Hyz. apply orb_false_iff. split; [apply Z.ltb_ge; lia|].
  destruct (Z.eqb_spec x z) as [->|]; [|done]. cbn [andb].
  assert (y = z) as -> by lia. rewrite Z.eqb_refl in Hab, Hbc. cbn [andb] in Hab, Hbc.
  by apply (IH b c).
Qed.

(** Among dates of one kind, "not earlier" is transitive. *)
Lemma not_earlier_chain (a b c : TrackerData) :
  is_aware a = is_aware b -> is_aware b = is_aware c ->
  not_earlier a b -> not_earlier b c -> not_earlier a c.
Proof.
  unfold is_aware, not_earlier, earlier.
  destruct (tzinfo (date a)), (tzinfo (date b)), (tzinfo (date c)); try done.
  - intros _ _ Hab%Z.ltb_ge Hbc%Z.ltb_ge. apply Z.ltb_ge. lia.
  - intros _ _. apply lex_lt_chain.
Qed.

Lemma sorted_strongly (k : bool) (l : list TrackerData) :
  Forall (fun t => is_aware t = k) l -> Sorted not_earlier l ->
  StronglySorted not_earlier l.
Proof.
  induction 1 as [|x l Hx Hl IH]; intros Hs; [constructor|].
  apply Sorted_inv in Hs as [Hs Hhd]. specialize (IH Hs).
  constructor; [done|].
  destruct Hhd as [|y l' Hxy]; [constructor|].
  apply StronglySorted_inv in IH as [_ Hy]. apply Forall_cons in Hl as [Hk Hl].
  constructor; [done|].
  rewrite Forall_forall in Hy, Hl |- *. intros z Hz.
  apply (not_earlier_chain x y z); [congruence | | done | by apply Hy].
  rewrite (Hl z Hz). congruence.
Qed.

(** Dates of one kind are sorted: the result holds the same records, and no
    record is earlier than one behind it. *)
Lemma sorted_reverse_same (k : bool) (l : list TrackerData) :
  Forall (fun t => is_aware t = k) l ->
  exists l', sorted_reverse TrackerMonitor.by_date l = Ok l' /\
             Permutation l l' /\ StronglySorted not_earlier l'.
Proof.
  intros Hl. unfold sorted_reverse, sorted.
  destruct (insort_all_sorted k (reverse l) []) as (l' & -> & Hs & Hp);
    [done | by apply Forall_reverse | constructor |].
  cbn [app] in Hp.
  assert (Permutation l (reverse l')) as Hperm.
  { etrans; [symmetry; apply reverse_Permutation|].
    etrans; [exact Hp|]. symmetry. apply reverse_Permutation. }
  exists (reverse l'). split; [done|]. split; [done|].
  apply (sorted_strongly k).
  - rewrite <- Hperm. exact Hl.
  - by apply (Sorted_reverse (flip not_earlier)).
Qed.

(** ** The table and the report *)

Lemma display_run (trackers : list TrackerData) (e : env) (w : world) :
  run (TrackerMonitor._display_results trackers) e w =
  match sorted_reverse TrackerMonitor.by_date trackers with
  | Ok ordered => (Ok tt, noted (PrintTable (map TrackerMonitor.row ordered)) w)
  | Raise x => (Raise x, w)
  end.
Proof.
  unfold TrackerMonitor._display_results. rewrite run_bind, run_lift.
  by destruct (sorted_reverse _ trackers).
Qed.

Lemma report_run (trackers : list TrackerData) (e : env) (w : world) :
  run (TrackerMonitor._create_markdown_report trackers) e w =
  match sorted_reverse TrackerMonitor.by_date trackers with
  | Ok ordered =>
      (Ok tt, written "data/README.md"
                (Text (report_text (now_at e (clock_reads w)) trackers ordered)) (ticked w))
  | Raise x => (Raise x, ticked w)
  end.
Proof.
  unfold TrackerMonitor._create_markdown_report. rewrite run_bind.
  unfold now at 1. cbn [run]. fold (ticked w). rewrite run_bind, run_lift.
  by destruct (sorted_reverse _ trackers).
Qed.

(** C2 (a defect of the code): the rows are not sorted when the dates are of
    both kinds.  The WordPress adapter gives an aware date to a post whose
    date is written with an offset (a "Z" is read as +00:00) and the Reddit
    adapter gives naive dates; the sort of such a list raises TypeError, so
    the table is not printed and the report is not written. *)
Theorem C2_mixed_dates_are_not_sorted (trackers : list TrackerData) (e : env) (w : world) :
  mixed trackers ->
  run (TrackerMonitor._display_results trackers) e w = (Raise TypeError, w) /\
  run (TrackerMonitor._create_markdown_report trackers) e w = (Raise TypeError, ticked w).
Proof.
  intros Hm. rewrite display_run, report_run. by rewrite (sorted_reverse_mixed _ Hm).
Qed.

(** Where the dates are of one kind, the rows of the table and of the report
    are those of the records, none earlier than one behind it. *)
Lemma display_same_kind (k : bool) (trackers : list TrackerData) (e : env) (w : world) :
  Forall (fun t => is_aware t = k) trackers ->
  exists ordered,
    Permutation trackers ordered /\ StronglySorted not_earlier ordered /\
    run (TrackerMonitor._display_results trackers) e w
    = (Ok tt, noted (PrintTable (map TrackerMonitor.row ordered)) w) /\
    run (TrackerMonitor._create_markdown_report trackers) e w
    = (Ok tt, written "data/README.md"
                (Text (report_text (now_at e (clock_reads w)) trackers ordered)) (ticked w)).
Proof.
  intros Hk. destruct (sorted_reverse_same k trackers Hk) as (ordered & Hs & Hp & Hd).
  exists ordered. rewrite display_run, report_run, Hs. done.
Qed.

End Order.

(** The dates 2024-01-03, 2024-01-01 and 2024-01-02 give the rows in the
    order 01-03, 01-02, 01-01. *)
Example rows_of_three_days :
  let on d := mk_TrackerData "Libble" (mk_datetime 2024 1 d 10 0 0 0 None) "" [] "" true in
  (map (fun t => day (date t))) <$> sorted_reverse TrackerMonitor.by_date [on 3; on 1; on 2]
  = Ok [3; 2; 1].
Proof. reflexivity. Qed.

(** C2 on the records that the two adapters make of the sample answers: a
    WordPress post dated "2024-01-03T10:00:00Z" and a Reddit post. *)
Lemma C2_mixed_dates_are_not_sorted_witness :
  let e := mk_env still_clock still_clock both_answer in
  exists w1 w2 : world,
    run (@WordPressAPI.fetch_posts plain_lib "https://opentrackers.org") e initial
      = (Ok [libble_record], w1) /\
    run (@RedditAPI.fetch_posts plain_lib "OpenSignup") e w1 = (Ok [orpheus_record], w2) /\
    mixed [libble_record; orpheus_record] /\
    run (TrackerMonitor._display_results [libble_record; orpheus_record]) e w2
      = (Raise TypeError, w2).
Proof.
  intros e.
  assert (mixed [libble_record; orpheus_record]) as Hm.
  { exists libble_record, orpheus_record. split; [by left|]. split; [by right; left|]. done. }
  eexists _, _. split; [reflexivity|]. split; [reflexivity|]. split; [exact Hm|].
  apply (C2_mixed_dates_are_not_sorted _ e _ Hm).
Defined.

(* ===================================================================== *)
(** * A run of the monitor *)
(* ===================================================================== *)

Section Monitor.
Context `{PyLib}.




(** What [create_visualizations] does: nothing but printing without a
    category, and the two charts otherwise. *)
Lemma visualizations_run (storage : string) (trackers : list TrackerData) (e : env) (w : world) :
  run (DataManager.create_visualizations storage trackers) e w =
  (Ok tt,
   match trackers with
   | [] => noted (Print "No data to visualize") w
   | _ =>
       if decide (category_stats trackers = ∅)
       then noted (Print "No category data available for visualization.") w
       else written (storage +:+ "/category_percentage.png")
              (Chart "Category Percentage" (category_stats trackers))
              (written (storage +:+ "/category_distribution.png")
                 (Chart "Category Distribution" (category_stats trackers)) w)
   end).
Proof.
  unfold DataManager.create_visualizations. destruct trackers as [|t ts]; [reflexivity|].
  by destruct (decide (category_stats (t :: ts) = ∅)).
Qed.

(** A run, after its two fetches. *)
Lemma monitor_run (e : env) (w w1 w2 : world) (wp rd : list TrackerData) :
  run (WordPressAPI.fetch_posts "https://opentrackers.org") e w = (Ok wp, w1) ->
  run (RedditAPI.fetch_posts "OpenSignup") e w1 = (Ok rd, w2) ->
  run TrackerMonitor.run e w =
  let body := match (wp ++ rd)%list with
              | [] => print "[yellow]No trackers found[/yellow]"
              | _ => persist_and_report (wp ++ rd)
              end in
  let w3 := match run body e w2 with
            | (Ok _, w3) => w3
            | (Raise x, w3) => noted (Print ("Error in main run: " +:+ describe x)) w3
            end in
  (Ok tt, noted (Close "reddit") (noted (Close "wordpress") w3)).
Proof.
  intros Hwp Hrd. unfold TrackerMonitor.run, try_finally, try_except. cbn [run].
  rewrite run_bind, Hwp, run_bind, Hrd. cbn zeta.
  change (_ ← DataManager.save TrackerMonitor._data_dir (wp ++ rd);
          _ ← DataManager.create_visualizations TrackerMonitor._data_dir (wp ++ rd);
          _ ← TrackerMonitor._display_results (wp ++ rd);
          TrackerMonitor._create_markdown_report (wp ++ rd))
    with (persist_and_report (wp ++ rd)).
  destruct (wp ++ rd)%list as [|t ts].
  - reflexivity.
  - by destruct (run (persist_and_report (t :: ts)) e w2) as [[[]|x] w3].
Qed.




End Monitor.

(* ===================================================================== *)
(** * The statements at the sample inputs *)
(* ===================================================================== *)

(** A whole run on the sample answers, a WordPress date with "Z" and a Reddit
    post: the snapshot is saved and the charts drawn, then the sort raises;
    no table is printed and no report is written. *)
Lemma run_with_both_sources (L : PyLib) :
  let e := mk_env still_clock still_clock both_answer in
  let trackers := [libble_record; orpheus_record] in
  exists w' : world,
    run TrackerMonitor.run e initial = (Ok tt, w') /\
    trace w' = [Get "https://opentrackers.org/wp-json/wp/v2/posts";
                Get "https://www.reddit.com/r/OpenSignup.json";
                Print "Error in main run: TypeError";
                Close "wordpress"; Close "reddit"] /\
    files w' !! "data/latest.json" = Some (Json (snapshot (still_clock 0) trackers)) /\
    files w' !! "data/category_distribution.png"
      = Some (Chart "Category Distribution" {["Music" := 1%nat]}) /\
    files w' !! "data/README.md" = None.
Proof.
  intros e trackers. eexists. split; [vm_compute; reflexivity|].
  repeat split; vm_compute; reflexivity.
Qed.




(** C8 for two saves on 2024-01-05: the first writes the record with all
    its fields to both files, and the day's file then holds the second
    document. *)
Lemma C8_save_writes_both_files_witness :
  let e := mk_env still_clock still_clock (fun _ => Failed) in
  let first :=
    Json (JObj [("last_updated", JStr "2024-01-05T08:30:00");
                ("trackers",
                 JArr [JObj [("name", JStr "Libble");
                             ("description", JStr "Signups are open.");
                             ("categories", JArr [JStr "A"]);
                             ("url", JStr "https://opentrackers.org/2024/01/03/sample/");
                             ("status", JBool true);
                             ("date", JStr "2024-01-03T10:00:00")]])]) in
  exists w' w'' : world,
    run (DataManager.save "data" [tracker_in ["A"]]) e initial = (Ok tt, w') /\
    files w' !! "data/trackers_2024-01-05.json" = Some first /\
    files w' !! "data/latest.json" = Some first /\
    run (DataManager.save "data" []) e w' = (Ok tt, w'') /\
    files w'' !! "data/trackers_2024-01-05.json"
      = Some (Json (snapshot (still_clock 2) [])) /\
    files w'' !! "data/latest.json" = Some (Json (snapshot (still_clock 2) [])).
Proof.
  intros e first.
  destruct (C8_save_writes_both_files "data" [tracker_in ["A"]] e initial)
    as (w' & Hrun & Hdated & Hlatest & _ & _ & _ & _ & _ & Hagain).
  exists w'. eexists. split; [exact Hrun|].
  split; [exact Hdated|]. split; [exact Hlatest|]. split; [apply save_run|].
  apply (Hagain [] _ ltac:(by repeat split) (save_run _ _ _ _)).
Defined.

(* ===================================================================== *)
(** * Further properties of the code *)
(* ===================================================================== *)

(** ** sorted(..., reverse=True) where the test does not raise *)

Lemma filter_none {A} (f : A -> bool) (l : list A) :
  Forall (fun y => f y = false) l -> List.filter f l = [].
Proof. induction 1 as [|y l Hy _ IH]; [done|]. cbn. by rewrite Hy. Qed.

Section SortedReverse.
Context {A : Type} (P : A -> Prop) (lt : A -> A -> result bool) (ltb : A -> A -> bool).
Hypothesis lt_ltb : forall a b, P a -> P b -> lt a b = Ok (ltb a b).
Hypothesis ltb_asym : forall a b, P a -> P b -> ltb a b = true -> ltb b a = false.
Hypothesis ltb_chain : forall a b c, P a -> P b -> P c ->
  ltb a b = false -> ltb b c = false -> ltb a c = false.

(** [a] may stand before [b] in ascending order, and in descending order. *)
Let up (a b : A) : Prop := ltb b a = false.
Let down (a b : A) : Prop := ltb a b = false.

Lemma ltb_ahead (x y z : A) :
  P x -> P y -> P z -> ltb x y = true -> ltb z y = false -> ltb x z = true.
Proof.
  intros Hx Hy Hz Hxy Hzy. destruct (ltb x z) eqn:Hxz; [done|].
  rewrite (ltb_chain x z y Hx Hz Hy Hxz Hzy) in Hxy. discriminate.
Qed.

Lemma tied_ahead (x y z : A) :
  P x -> P y -> P z -> tied ltb z x = true -> ltb x y = true -> tied ltb z y = false.
Proof.
  intros Hx Hy Hz Hzx Hxy. unfold tied in *.
  apply andb_true_iff in Hzx as [Hzx%negb_true_iff Hxz%negb_true_iff].
  destruct (ltb z y) eqn:Hzy; [done|]. cbn.
  rewrite (ltb_chain x z y Hx Hz Hy Hxz Hzy) in Hxy. discriminate.
Qed.

Lemma insort_total (x : A) (l : list A) :
  P x -> Forall P l -> StronglySorted up l ->
  exists l', insort lt x l = Ok l' /\ Forall P l' /\ Permutation (x :: l) l' /\
             StronglySorted up l' /\
             forall z, P z ->
               List.filter (tied ltb z) l'
               = (List.filter (tied ltb z) l ++ List.filter (tied ltb z) [x])%list.
Proof.
  intros Hx Hl Hs. induction l as [|y l IH].
  - exists [x]. repeat split; auto. repeat constructor.
  - apply Forall_cons in Hl as [Hy Hl]. apply StronglySorted_inv in Hs as [Hs Hyl].
    cbn [insort]. rewrite (lt_ltb x y Hx Hy), result_bind_eq.
    destruct (ltb x y) eqn:Hxy.
    + assert (Hall : Forall (fun y' => ltb x y' = true) (y :: l)).
      { constructor; [done|]. rewrite Forall_forall in Hyl, Hl |- *. intros y' Hy'.
        apply (ltb_ahead x y y'); auto. apply Hyl, Hy'. }
      exists (x :: y :: l). split; [done|]. split; [auto|]. split; [done|]. split.
      * constructor; [constructor; auto|].
        rewrite Forall_forall in Hall |- *. intros y' Hy'. unfold up.
        apply ltb_asym; auto. inversion Hy'; subst; auto.
        rewrite Forall_forall in Hl. auto.
      * intros z Hz.
        change (List.filter (tied ltb z) (x :: y :: l))
          with (if tied ltb z x then x :: List.filter (tied ltb z) (y :: l)
                else List.filter (tied ltb z) (y :: l)).
        change (List.filter (tied ltb z) [x]) with (if tied ltb z x then [x] else []).
        destruct (tied ltb z x) eqn:Hzx; [|by rewrite app_nil_r].
        rewrite (filter_none (tied ltb z) (y :: l)); [done|].
        assert (HP : Forall P (y :: l)) by auto.
        rewrite Forall_forall in Hall, HP |- *. intros y' Hy'.
        apply (tied_ahead x y' z); auto.
    + destruct (IH Hl Hs) as (l' & -> & HP & Hperm & Hs' & Hf).
      exists (y :: l'). cbn. split; [done|]. split; [auto|]. split.
      * rewrite <- Hperm. apply perm_swap.
      * split.
        -- constructor; [done|]. rewrite <- Hperm. constructor; [exact Hxy|exact Hyl].
        -- intros z Hz. cbn [List.filter]. rewrite (Hf z Hz).
           destruct (tied ltb z y); reflexivity.
Qed.

Lemma insort_all_total (l acc : list A) :
  Forall P acc -> Forall P l -> StronglySorted up acc ->
  exists l', insort_all lt acc l = Ok l' /\ Forall P l' /\ Permutation (acc ++ l) l' /\
             StronglySorted up l' /\
             forall z, P z ->
               List.filter (tied ltb z) l'
               = (List.filter (tied ltb z) acc ++ List.filter (tied ltb z) l)%list.
Proof.
  revert acc. induction l as [|x l IH]; intros acc Hacc Hl Hs.
  - exists acc. rewrite !app_nil_r. repeat split; auto. intros; by rewrite app_nil_r.
  - apply Forall_cons in Hl as [Hx Hl].
    destruct (insort_total x acc Hx Hacc Hs) as (acc' & Hi & HP & Hperm & Hs' & Hf).
    destruct (IH acc' HP Hl Hs') as (l' & Hi' & HP' & Hperm' & Hs'' & Hf').
    exists l'. cbn [insort_all]. rewrite Hi, result_bind_eq. split; [exact Hi'|].
    split; [exact HP'|]. split.
    + rewrite <- Hperm', <- Hperm. symmetry. apply Permutation_middle.
    + split; [exact Hs''|]. intros z Hz. rewrite (Hf' z Hz), (Hf z Hz), <- app_assoc.
      f_equal. cbn. by destruct (tied ltb z x).
Qed.

Lemma strongly_sorted_reverse (l : list A) :
  StronglySorted up l -> StronglySorted down (reverse l).
Proof.
  induction 1 as [|a l Hs IH Ha]; [constructor|].
  rewrite reverse_cons. apply StronglySorted_app_2; [|exact IH|repeat constructor].
  intros x1 x2 Hx1 Hx2. apply list_elem_of_singleton in Hx2 as ->.
  rewrite elem_of_reverse in Hx1. rewrite Forall_forall in Ha. by apply (Ha x1).
Qed.

(** The result is the list in descending order, and the elements that the
    test takes as equal stand as they stood. *)
Lemma sorted_reverse_total (l : list A) :
  Forall P l ->
  exists l', sorted_reverse lt l = Ok l' /\ Permutation l l' /\
             StronglySorted down l' /\
             forall z, P z -> List.filter (tied ltb z) l' = List.filter (tied ltb z) l.
Proof.
  intros Hl.
  destruct (insort_all_total (reverse l) [] (Forall_nil_2 _))
    as (l' & Hi & _ & Hperm & Hs & Hf).
  { by apply Forall_reverse. }
  { constructor. }
  exists (reverse l'). unfold sorted_reverse, sorted. rewrite Hi. split; [done|]. split.
  - etrans; [symmetry; apply reverse_Permutation|].
    etrans; [exact Hperm|]. symmetry. apply reverse_Permutation.
  - split; [by apply strongly_sorted_reverse|]. intros z Hz.
    unfold reverse. rewrite <- !rev_alt, filter_rev, <- (rev_involutive (List.filter _ l)).
    f_equal. rewrite <- filter_rev, rev_alt. exact (Hf z Hz).
Qed.

End SortedReverse.

(* ===================================================================== *)
(** * The order of strings *)
(* ===================================================================== *)

Lemma ascii_eqb_N (x y : ascii) : Ascii.eqb x y = (N_of_ascii x =? N_of_ascii y)%N.
Proof.
  destruct (Ascii.eqb_spec x y) as [->|Hne].
  - by rewrite N.eqb_refl.
  - symmetry. apply N.eqb_neq. intros Heq. apply Hne.
    by rewrite <- (ascii_N_embedding x), <- (ascii_N_embedding y), Heq.
Qed.

Lemma str_lt_asym (a b : string) : str_lt a b = true -> str_lt b a = false.
Proof.
  revert b. induction a as [|x a IH]; intros [|y b]; cbn; try done.
  rewrite !ascii_eqb_N. intros Hab.
  destruct (N.ltb_spec (N_of_ascii x) (N_of_ascii y)),
           (N.ltb_spec (N_of_ascii y) (N_of_ascii x)),
           (N.eqb_spec (N_of_ascii x) (N_of_ascii y)),
           (N.eqb_spec (N_of_ascii y) (N_of_ascii x)); cbn in *; try lia; try done.
  by apply IH.
Qed.

Lemma str_lt_chain (a b c : string) :
  str_lt a b = false -> str_lt b c = false -> str_lt a c = false.
Proof.
  revert b c. induction a as [|x a IH]; intros [|y b] [|z c]; cbn; try done.
  rewrite !ascii_eqb_N. intros Hab Hbc.
  destruct (N.ltb_spec (N_of_ascii x) (N_of_ascii y)),
           (N.ltb_spec (N_of_ascii y) (N_of_ascii z)),
           (N.ltb_spec (N_of_ascii x) (N_of_ascii z)),
           (N.eqb_spec (N_of_ascii x) (N_of_ascii y)),
           (N.eqb_spec (N_of_ascii y) (N_of_ascii z)),
           (N.eqb_spec (N_of_ascii x) (N_of_ascii z)); cbn in *; try lia; try done.
  by apply (IH b c).
Qed.

(** Two strings that the order does not tell apart are the same string. *)
Lemma str_lt_tied (a b : string) : str_lt a b = false -> str_lt b a = false -> a = b.
Proof.
  revert b. induction a as [|x a IH]; intros [|y b]; cbn; try done.
  rewrite !ascii_eqb_N. intros Hab Hba.
  destruct (N.ltb_spec (N_of_ascii x) (N_of_ascii y)),
           (N.ltb_spec (N_of_ascii y) (N_of_ascii x)),
           (N.eqb_spec (N_of_ascii x) (N_of_ascii y)) as [Heq|],
           (N.eqb_spec (N_of_ascii y) (N_of_ascii x)); cbn in *; try lia; try done.
  f_equal; [|by apply IH].
  by rewrite <- (ascii_N_embedding x), <- (ascii_N_embedding y), Heq.
Qed.

(* ===================================================================== *)
(** * main.py: the two adapters *)
(* ===================================================================== *)

Section Adapters.
Context `{PyLib}.

Lemma wordpress_fetch_frame (base : string) (e : env) (w : world) :
  exists (l : list TrackerData) (w' : world) (tail : list event),
    run (WordPressAPI.fetch_posts base) e w = (Ok l, w') /\
    requests w' = S (requests w) /\ files w' = files w /\
    trace w' = (trace w ++ Get (base +:+ "/wp-json/wp/v2/posts") :: tail)%list /\
    (tail = [] \/
     l = [] /\ exists x, tail = [Print ("WordPress API Error: " +:+ describe x)]).
Proof.
  rewrite wordpress_fetch. cbn zeta.
  destruct (match respond e (requests w) with Failed => _ | Reply r => _ end) as [l|x].
  - exists l, (sent (base +:+ "/wp-json/wp/v2/posts") w), []. repeat split. by left.
  - eexists [], _, [_]. split; [reflexivity|]. cbn. repeat split.
    + by rewrite <- app_assoc.
    + right. split; [done|]. by exists x.
Qed.

Lemma reddit_fetch_frame (subreddit : string) (e : env) (w : world) :
  exists (l : list TrackerData) (w' : world) (tail : list event),
    run (RedditAPI.fetch_posts subreddit) e w = (Ok l, w') /\
    requests w' = S (requests w) /\ files w' = files w /\
    trace w' = (trace w ++ Get (RedditAPI._base_url subreddit +:+ ".json") :: tail)%list /\
    (tail = [] \/
     l = [] /\ exists x, tail = [Print ("Reddit API Error: " +:+ describe x)]).
Proof.
  rewrite reddit_fetch. cbn zeta.
  assert (Hfailed : forall x w1,
             requests w1 = S (requests w) -> files w1 = files w ->
             trace w1 = (trace w ++ [Get (RedditAPI._base_url subreddit +:+ ".json")])%list ->
             exists (l : list TrackerData) (w' : world) (tail : list event),
               (Ok [], noted (Print ("Reddit API Error: " +:+ describe x)) w1) = (Ok l, w') /\
               requests w' = S (requests w) /\ files w' = files w /\
               trace w' = (trace w ++ Get (RedditAPI._base_url subreddit +:+ ".json") :: tail)%list /\
               (tail = [] \/
                l = [] /\ exists x, tail = [Print ("Reddit API Error: " +:+ describe x)])).
  { intros x w1 Hr Hf Ht. eexists [], _, [_]. split; [reflexivity|]. cbn.
    rewrite Ht, <- app_assoc. repeat split; try done. right. split; [done|]. by exists x. }
  destruct (respond e (requests w)) as [|r]; [by apply Hfailed|].
  destruct (_ ← raise_for_status r; _) as [posts|x]; [|by apply Hfailed].
  destruct (run (comprehensionM _ posts) e _) as [[l|x] w2] eqn:Hrun;
    apply quiet_comprehensionM in Hrun as (Hf & Ht & Hr);
    try (intros c; apply quiet_bind; [apply quiet_lift|intros p; apply quiet_parse_post]).
  - exists l, w2, []. repeat split; try done. by left.
  - by apply Hfailed.
Qed.

(** X1: each adapter sends one request and no more.  Whatever the answer, a
    fetch returns a list without raising, after one GET request to the
    address of its source; it writes no file; and it prints nothing, or it
    returns the empty list and prints one line that names the error. *)
Theorem fetch_is_one_request (base subreddit : string) (e : env) (w : world) :
  (exists (l : list TrackerData) (w' : world) (tail : list event),
     run (WordPressAPI.fetch_posts base) e w = (Ok l, w') /\
     requests w' = S (requests w) /\ files w' = files w /\
     trace w' = (trace w ++ Get (base +:+ "/wp-json/wp/v2/posts") :: tail)%list /\
     (tail = [] \/
      l = [] /\ exists x, tail = [Print ("WordPress API Error: " +:+ describe x)])) /\
  (exists (l : list TrackerData) (w' : world) (tail : list event),
     run (RedditAPI.fetch_posts subreddit) e w = (Ok l, w') /\
     requests w' = S (requests w) /\ files w' = files w /\
     trace w' = (trace w ++ Get ("https://www.reddit.com/r/" +:+ subreddit +:+ ".json")
                   :: tail)%list /\
     (tail = [] \/
      l = [] /\ exists x, tail = [Print ("Reddit API Error: " +:+ describe x)])).
Proof.
  split; [apply wordpress_fetch_frame|].
  destruct (reddit_fetch_frame subreddit e w) as (l & w' & tail & Hrun & Hr & Hf & Ht & Htail).
  exists l, w', tail. unfold RedditAPI._base_url in Ht. rewrite app_assoc_str in Ht. done.
Qed.

(** X2: a WordPress post needs all its keys.  A post that lacks one of
    "title", "excerpt", "_embedded", "date" and "link" is not read: the
    adapter raises, with a [KeyError] when it is the title that is missing. *)
Theorem wordpress_post_needs_its_keys (members : list (string * json)) (key : string) :
  In key ["title"; "excerpt"; "_embedded"; "date"; "link"] ->
  assoc key members = None ->
  exists x : exn,
    WordPressAPI._parse_post (JObj members) = Raise x /\
    (key = "title" -> x = KeyError).
Proof.
  intros Hkey Hnone. unfold WordPressAPI._parse_post.
  assert (Hget : getitem (JObj members) key = Raise KeyError).
  { unfold getitem. by rewrite Hnone. }
  cbn [In] in Hkey.
  destruct Hkey as [<-|[<-|[<-|[<-|[<-|[]]]]]]; rewrite Hget;
    repeat (rewrite ?result_bind_eq; cbn beta iota;
            match goal with
            | |- exists x, Raise ?y = Raise x /\ _ => exists y; split; [reflexivity|done]
            | |- exists x, match ?m with Ok _ => _ | Raise _ => _ end = _ /\ _ =>
                destruct m eqn:?
            end).
Qed.

End Adapters.

(* ===================================================================== *)
(** * main.py: what the adapters read from a post *)
(* ===================================================================== *)

Lemma digit_not_Z (c : ascii) (v : Z) : digit c = Some v -> Ascii.eqb "Z" c = false.
Proof. destruct (Ascii.eqb_spec "Z" c) as [<-|]; [by vm_compute|done]. Qed.

Lemma contains_Z_cons (c : ascii) (s : string) :
  contains "Z" (String c s) = Ascii.eqb "Z" c || contains "Z" s.
Proof. cbn [contains startswith]. by rewrite andb_true_r. Qed.

Lemma digits_app (n : nat) (acc : Z) (s : string) (v : Z) (r x : string) :
  digits n acc s = Some (v, r) ->
  digits n acc (s +:+ x) = Some (v, r +:+ x) /\ contains "Z" s = contains "Z" r.
Proof.
  revert acc s. induction n as [|n IH]; intros acc s; cbn [digits].
  - by intros [= -> ->].
  - destruct s as [|c s]; [done|]. rewrite app_cons.
    destruct (digit c) as [d|] eqn:Hd; [|done]. intros Hs.
    destruct (IH _ _ Hs) as [-> <-]. split; [done|].
    by rewrite contains_Z_cons, (digit_not_Z c d Hd).
Qed.

Lemma expect_app (c : ascii) (s r x : string) :
  expect c s = Some r -> Ascii.eqb "Z" c = false ->
  expect c (s +:+ x) = Some (r +:+ x) /\ contains "Z" s = contains "Z" r.
Proof.
  destruct s as [|c' s]; [done|]. rewrite app_cons. cbn [expect].
  destruct (Ascii.eqb_spec c c') as [<-|]; [|done]. intros [= ->] Hc.
  split; [done|]. by rewrite contains_Z_cons, Hc.
Qed.

Lemma iso_offset_naive (s : string) : iso_offset s = Some None -> s = "".
Proof.
  destruct s as [|c s]; [done|]. cbn [iso_offset].
  destruct (if Ascii.eqb c "+" then _ else _) as [sign|]; [|done]. cbn [mbind option_bind].
  destruct (digits 2 0 s) as [[h s1]|]; [|done]. cbn [mbind option_bind].
  destruct (expect ":" s1) as [s2|]; [|done]. cbn [mbind option_bind].
  destruct (digits 2 0 s2) as [[m s3]|]; [|done]. cbn [mbind option_bind].
  by destruct (_ && _).
Qed.

(** A text that names a date and time without an offset has no "Z" in it,
    and with an offset written behind it, it names the same date and time at
    that offset. *)
Lemma iso_seconds_app (t : string) (d : datetime) :
  iso_seconds t = Some d -> tzinfo d = None ->
  contains "Z" t = false /\
  forall (x : string) (off : option Z),
    iso_offset x = Some off ->
    iso_seconds (t +:+ x)
    = Some (mk_datetime (year d) (month d) (day d) (hour d) (minute d) (second d)
              (microsecond d) off).
Proof.
  unfold iso_seconds. intros Ht Hnaive.
  destruct (digits 4 0 t) as [[y s1]|] eqn:E1; [|done]. cbn [mbind option_bind] in Ht.
  destruct (expect "-" s1) as [s2|] eqn:E2; [|done]. cbn [mbind option_bind] in Ht.
  destruct (digits 2 0 s2) as [[m s3]|] eqn:E3; [|done]. cbn [mbind option_bind] in Ht.
  destruct (expect "-" s3) as [s4|] eqn:E4; [|done]. cbn [mbind option_bind] in Ht.
  destruct (digits 2 0 s4) as [[dd s5]|] eqn:E5; [|done]. cbn [mbind option_bind] in Ht.
  destruct (expect "T" s5) as [s6|] eqn:E6; [|done]. cbn [mbind option_bind] in Ht.
  destruct (digits 2 0 s6) as [[hh s7]|] eqn:E7; [|done]. cbn [mbind option_bind] in Ht.
  destruct (expect ":" s7) as [s8|] eqn:E8; [|done]. cbn [mbind option_bind] in Ht.
  destruct (digits 2 0 s8) as [[mm s9]|] eqn:E9; [|done]. cbn [mbind option_bind] in Ht.
  destruct (expect ":" s9) as [s10|] eqn:E10; [|done]. cbn [mbind option_bind] in Ht.
  destruct (digits 2 0 s10) as [[ss s11]|] eqn:E11; [|done]. cbn [mbind option_bind] in Ht.
  destruct (iso_offset s11) as [tz|] eqn:Htz; [|done]. cbn [mbind option_bind] in Ht.
  destruct (_ && _) eqn:Hvalid in Ht; [|done]. injection Ht as <-. cbn in Hnaive. subst tz.
  apply iso_offset_naive in Htz as ->. split.
  - rewrite (proj2 (digits_app _ _ _ _ _ "" E1)),
      (proj2 (expect_app _ _ _ "" E2 eq_refl)),
      (proj2 (digits_app _ _ _ _ _ "" E3)),
      (proj2 (expect_app _ _ _ "" E4 eq_refl)),
      (proj2 (digits_app _ _ _ _ _ "" E5)),
      (proj2 (expect_app _ _ _ "" E6 eq_refl)),
      (proj2 (digits_app _ _ _ _ _ "" E7)),
      (proj2 (expect_app _ _ _ "" E8 eq_refl)),
      (proj2 (digits_app _ _ _ _ _ "" E9)),
      (proj2 (expect_app _ _ _ "" E10 eq_refl)),
      (proj2 (digits_app _ _ _ _ _ "" E11)).
    reflexivity.
  - intros x off Hoff.
    rewrite (proj1 (digits_app _ _ _ _ _ x E1)). cbn [mbind option_bind].
    rewrite (proj1 (expect_app _ _ _ x E2 eq_refl)). cbn [mbind option_bind].
    rewrite (proj1 (digits_app _ _ _ _ _ x E3)). cbn [mbind option_bind].
    rewrite (proj1 (expect_app _ _ _ x E4 eq_refl)). cbn [mbind option_bind].
    rewrite (proj1 (digits_app _ _ _ _ _ x E5)). cbn [mbind option_bind].
    rewrite (proj1 (expect_app _ _ _ x E6 eq_refl)). cbn [mbind option_bind].
    rewrite (proj1 (digits_app _ _ _ _ _ x E7)). cbn [mbind option_bind].
    rewrite (proj1 (expect_app _ _ _ x E8 eq_refl)). cbn [mbind option_bind].
    rewrite (proj1 (digits_app _ _ _ _ _ x E9)). cbn [mbind option_bind].
    rewrite (proj1 (expect_app _ _ _ x E10 eq_refl)). cbn [mbind option_bind].
    rewrite (proj1 (digits_app _ _ _ _ _ x E11)). cbn [mbind option_bind].
    rewrite app_nil_l, Hoff. cbn [mbind option_bind]. by rewrite Hvalid.
Qed.

Lemma replace_Z (t : string) :
  contains "Z" t = false ->
  replace "Z" "+00:00" (t +:+ "Z") = t +:+ "+00:00" /\ replace "Z" "+00:00" t = t.
Proof.
  induction t as [|c t IH]; [done|]. rewrite contains_Z_cons.
  intros [Hc Ht]%orb_false_iff. destruct (IH Ht) as [IH1 IH2].
  rewrite app_cons, !replace_passed, IH1, IH2; [done| |];
    cbn [startswith]; by rewrite Hc.
Qed.

Lemma category_names (terms : list json) (cs : list string) :
  comprehension_if
    (fun term => tax ← getitem term "taxonomy"; Ok (eq_str tax "category"))
    (fun term => getitem term "name" ≫= as_str) terms = Ok cs ->
  cs = omap category_name terms.
Proof.
  revert cs. induction terms as [|term terms IH]; intros cs; cbn [comprehension_if].
  { by intros [= <-]. }
  change (omap category_name (term :: terms))
    with (match category_name term with
          | Some n => n :: omap category_name terms
          | None => omap category_name terms
          end).
  unfold category_name. rewrite !result_bind_eq.
  destruct (getitem term "taxonomy") as [tax|]; [|done].
  destruct (eq_str tax "category").
  - rewrite ?result_bind_eq. destruct (getitem term "name") as [[| | |n| |]|]; try done.
    cbn [as_str]. destruct (comprehension_if _ _ terms) as [cs'|]; [|done].
    intros [= <-]. by rewrite (IH cs').
  - intros Hc. rewrite (IH cs Hc). by destruct (getitem term "name") as [[]|].
Qed.

Section Reading.
Context `{PyLib}.

(** X3: the categories of a WordPress record are the names of the category
    terms of the post.  Of the terms of the first group of "wp:term", those
    whose taxonomy is "category" give their names, in their order; the terms
    of any other taxonomy give nothing, and the groups behind the first one
    are not read. *)
Theorem wordpress_categories_are_category_terms (post : json) (terms : list json)
    (r : TrackerData) :
  (e ← getitem post "_embedded"; t ← getitem e "wp:term"; getitem0 t) = Ok (JArr terms) ->
  WordPressAPI._parse_post post = Ok r ->
  categories r = omap category_name terms.
Proof.
  intros Ht Hp. unfold WordPressAPI._parse_post in Hp. rewrite Ht in Hp.
  bind_inv Hp. injection Hp as <-. cbn [categories].
  match goal with Hi : iter (JArr terms) = Ok _ |- _ => injection Hi as <- end.
  match goal with Hc : comprehension_if _ _ terms = Ok _ |- _ => exact (category_names _ _ Hc) end.
Qed.

(** X4: how the date of a WordPress post is read.  A text without "Z" is
    read as it stands.  A text that ends in its only "Z" is read with
    "+00:00" in the place of the "Z"; so the text of a date and time without
    an offset, with "Z" behind it, gives that date and time at the offset
    zero: an aware date. *)
Theorem wordpress_date_reading (post : json) (s : string) (r : TrackerData) :
  getitem post "date" = Ok (JStr s) ->
  WordPressAPI._parse_post post = Ok r ->
  (contains "Z" s = false -> fromisoformat s = Ok (date r)) /\
  (forall t : string,
     s = t +:+ "Z" -> contains "Z" t = false ->
     fromisoformat (t +:+ "+00:00") = Ok (date r)) /\
  (forall (t : string) (d : datetime),
     s = t +:+ "Z" -> iso_seconds t = Some d -> tzinfo d = None ->
     date r = mk_datetime (year d) (month d) (day d) (hour d) (minute d) (second d)
                (microsecond d) (Some 0)).
Proof.
  intros Hd Hp. unfold WordPressAPI._parse_post in Hp. rewrite Hd in Hp.
  bind_inv Hp. injection Hp as <-. cbn [date].
  match goal with
  | Hf : context [fromisoformat] |- _ => cbn [as_str] in Hf; rename Hf into Hfound
  end.
  split; [|split].
  - intros Hz. by rewrite (proj2 (replace_Z s Hz)) in Hfound.
  - intros t -> Hz. by rewrite (proj1 (replace_Z t Hz)) in Hfound.
  - intros t d -> Ht Hnaive. destruct (iso_seconds_app t d Ht Hnaive) as [Hz Happ].
    rewrite (proj1 (replace_Z t Hz)) in Hfound. unfold fromisoformat in Hfound.
    rewrite (Happ "+00:00" (Some 0) eq_refl) in Hfound. by injection Hfound.
Qed.

End Reading.

(* ===================================================================== *)
(** * main.py: the records of the Reddit adapter *)
(* ===================================================================== *)

Lemma comprehensionM_Forall {A B} (f : A -> M B) (P : B -> Prop) (xs : list A) :
  (forall x e w y w', run (f x) e w = (Ok y, w') -> P y) ->
  forall (e : env) (w w' : world) (ys : list B),
    run (comprehensionM f xs) e w = (Ok ys, w') -> Forall P ys.
Proof.
  intros Hf e. induction xs as [|x xs IH]; intros w w' ys; cbn [comprehensionM].
  - rewrite run_ret. by intros [= <- _].
  - rewrite run_bind. destruct (run (f x) e w) as [[y|?] w1] eqn:Hy; [|done].
    rewrite run_bind. destruct (run (comprehensionM f xs) e w1) as [[ys'|?] w2] eqn:Hys; [|done].
    rewrite run_ret. intros [= <- _]. constructor; eauto.
Qed.

Lemma category_stats_none (trackers : list TrackerData) :
  Forall (fun t => categories t = []) trackers -> category_stats trackers = ∅.
Proof.
  unfold category_stats. generalize (∅ : gmap string nat).
  induction trackers as [|t ts IH]; intros acc Hall; [done|].
  apply Forall_cons in Hall as [Ht Hall]. cbn [foldl]. rewrite Ht. cbn [foldl].
  by apply IH.
Qed.

Section RedditRecords.
Context `{PyLib}.

Lemma reddit_no_categories (subreddit : string) (post : json) (e : env) (w w' : world)
    (r : TrackerData) :
  run (RedditAPI._parse_post subreddit post) e w = (Ok r, w') -> categories r = [].
Proof.
  intros Hp. unfold RedditAPI._parse_post in Hp. run_inv Hp. by injection Hp as <- _.
Qed.

(** X5: a Reddit post without fields is read with the defaults of the
    adapter.  A post object that has none of "title", "id", "selftext",
    "created_utc" and "url" gives the record named "No Title", dated with the
    UTC clock read once, with an empty description, no category, the address
    of the subreddit as its link, and the status closed. *)
Theorem reddit_post_defaults (subreddit : string) (members : list (string * json))
    (e : env) (w : world) :
  assoc "title" members = None -> assoc "id" members = None ->
  assoc "selftext" members = None -> assoc "created_utc" members = None ->
  assoc "url" members = None ->
  run (RedditAPI._parse_post subreddit (JObj members)) e w
  = (Ok (mk_TrackerData "No Title" (utcnow_at e (clock_reads w)) "" []
           ("https://www.reddit.com/r/" +:+ subreddit) false),
     ticked w).
Proof.
  intros Ht Hi Hs Hc Hu. unfold RedditAPI._parse_post, get. rewrite Ht, Hi, Hs, Hc, Hu.
  reflexivity.
Qed.

(** X6: the Reddit adapter gives no categories.  Every record of a Reddit
    fetch has the empty list of categories, so the statistics of the
    categories over the Reddit records alone are empty. *)
Theorem reddit_records_have_no_categories (subreddit : string) (e : env) (w : world) :
  exists (l : list TrackerData) (w' : world),
    run (RedditAPI.fetch_posts subreddit) e w = (Ok l, w') /\
    Forall (fun r => categories r = []) l /\
    category_stats l = ∅.
Proof.
  assert (Hall : exists (l : list TrackerData) (w' : world),
             run (RedditAPI.fetch_posts subreddit) e w = (Ok l, w') /\
             Forall (fun r => categories r = []) l).
  { rewrite reddit_fetch. cbn zeta.
    destruct (respond e (requests w)) as [|r]; [by eexists [], _|].
    destruct (_ ← raise_for_status r; _) as [posts|x]; [|by eexists [], _].
    destruct (run (comprehensionM _ posts) e _) as [[l|x] w2] eqn:Hrun; [|by eexists [], _].
    exists l, w2. split; [done|].
    apply (comprehensionM_Forall _ (fun r => categories r = []) _) in Hrun; [done|].
    intros post e0 w0 y w0' Hy. rewrite run_bind, run_lift in Hy.
    destruct (getitem post "data") as [p|]; [|done].
    by apply reddit_no_categories in Hy. }
  destruct Hall as (l & w' & Hrun & Hall). exists l, w'.
  split; [done|]. split; [done|]. by apply category_stats_none.
Qed.

End RedditRecords.

(* ===================================================================== *)
(** * main.py: the statistics and the charts *)
(* ===================================================================== *)

Lemma category_stats_lookup (trackers : list TrackerData) (c : string) :
  category_stats trackers !! c = None <-> ~ In c (flat_map categories trackers).
Proof.
  destruct (stats_foldl trackers ∅ c) as [Hc Ht]; [by intros k; rewrite lookup_empty|].
  cbn zeta in Hc, Ht. change (foldl _ ∅ trackers) with (category_stats trackers) in Hc, Ht.
  unfold tally in Ht. rewrite lookup_empty in Ht. cbn [default] in Ht.
  rewrite Nat.add_0_l in Ht. unfold occurrences in Ht.
  rewrite (count_occ_not_In string_dec), <- Ht.
  destruct (category_stats trackers !! c) as [[|k]|] eqn:Hl; cbn [default]; try done.
  by destruct (Hc c).
Qed.

Lemma category_stats_empty (trackers : list TrackerData) :
  category_stats trackers = ∅ <-> forall t, In t trackers -> categories t = [].
Proof.
  split.
  - intros Hempty t Ht. destruct (categories t) as [|c cs] eqn:Hcs; [done|]. exfalso.
    apply (proj1 (category_stats_lookup trackers c)); [by rewrite Hempty, lookup_empty|].
    apply in_flat_map. exists t. split; [done|]. rewrite Hcs. by left.
  - intros Hall. apply category_stats_none, Forall_forall. intros t Ht.
    by apply Hall, list_elem_of_In.
Qed.

(** X7: "Total Categories" counts the distinct categories.  The statistics
    have one entry for each category string that stands in some record,
    however often it stands there; and they are empty exactly when no record
    has a category. *)
Theorem total_categories_counts_distinct (trackers : list TrackerData) :
  size (category_stats trackers) = length (remove_dups (flat_map categories trackers)) /\
  (forall c : string,
     category_stats trackers !! c <> None <-> In c (flat_map categories trackers)) /\
  (category_stats trackers = ∅ <-> forall t, In t trackers -> categories t = []).
Proof.
  split; [|split; [|apply category_stats_empty]].
  - rewrite <- size_dom.
    assert (Hdom : dom (category_stats trackers)
                   = list_to_set (C := gset string) (remove_dups (flat_map categories trackers))).
    { apply set_eq. intros c.
      rewrite elem_of_dom, elem_of_list_to_set, elem_of_remove_dups, list_elem_of_In.
      rewrite <- not_eq_None_Some, category_stats_lookup.
      split; [|tauto]. intros Hnn.
      by destruct (in_dec string_dec c (flat_map categories trackers)). }
    rewrite Hdom. apply size_list_to_set, NoDup_remove_dups.
  - intros c. rewrite category_stats_lookup.
    split; [|tauto]. intros Hnn.
    by destruct (in_dec string_dec c (flat_map categories trackers)).
Qed.

(** X8: the charts need a category.  [create_visualizations] raises nothing
    of its own (the drawing and the writing of a chart cannot fail here).
    When no record has a category it writes no file and prints one line;
    when some record has one it prints nothing and writes the two charts,
    both of the same statistics, and no other file. *)
Theorem charts_need_a_category (storage : string) (trackers : list TrackerData)
    (e : env) (w : world) :
  exists w' : world,
    run (DataManager.create_visualizations storage trackers) e w = (Ok tt, w') /\
    ((forall t, In t trackers -> categories t = []) ->
     files w' = files w /\ exists line, trace w' = (trace w ++ [Print line])%list) /\
    ((exists t, In t trackers /\ categories t <> []) ->
     trace w' = trace w /\
     files w' !! (storage +:+ "/category_distribution.png")
       = Some (Chart "Category Distribution" (category_stats trackers)) /\
     files w' !! (storage +:+ "/category_percentage.png")
       = Some (Chart "Category Percentage" (category_stats trackers)) /\
     forall path : string,
       path <> storage +:+ "/category_distribution.png" ->
       path <> storage +:+ "/category_percentage.png" ->
       files w' !! path = files w !! path).
Proof.
  eexists. split; [apply visualizations_run|].
  destruct trackers as [|t ts].
  { split; [intros _; split; [done|by eexists]|]. by intros (t & [] & _). }
  destruct (decide (category_stats (t :: ts) = ∅)) as [Hempty|Hsome].
  - split; [intros _; split; [done|by eexists]|].
    intros (t' & Ht' & Hne). destruct Hne.
    by apply (proj1 (category_stats_empty (t :: ts))).
  - split.
    + intros Hall. destruct Hsome. by apply category_stats_empty.
    + intros _. split; [done|]. cbn [written files].
      assert (Hdiff : storage +:+ "/category_percentage.png"
                      <> storage +:+ "/category_distribution.png").
      { intros Heq. induction storage as [|c s IH]; [discriminate Heq|].
        rewrite !app_cons in Heq. injection Heq as Heq. by apply IH. }
      split; [by rewrite lookup_insert_ne, lookup_insert_eq|].
      split; [by rewrite lookup_insert_eq|].
      intros path H1 H2. by rewrite !lookup_insert_ne.
Qed.

(* ===================================================================== *)
(** * main.py: the description of a post, and the names of the dated files *)
(* ===================================================================== *)

Lemma contains_char_cons (a c : ascii) (s : string) :
  contains (String a "") (String c s) = Ascii.eqb a c || contains (String a "") s.
Proof. cbn [contains startswith]. by rewrite andb_true_r. Qed.

Lemma contains_char_app (a : ascii) (s t : string) :
  contains (String a "") (s +:+ t) = contains (String a "") s || contains (String a "") t.
Proof.
  induction s as [|c s IH]; [by rewrite app_nil_l|].
  by rewrite app_cons, !contains_char_cons, IH, orb_assoc.
Qed.

(** A text without the first character of [old] goes through the
    replacement as it is. *)
Lemma replace_through (a : ascii) (o new s rest : string) :
  contains (String a "") s = false ->
  replace (String a o) new (s +:+ rest) = s +:+ replace (String a o) new rest.
Proof.
  induction s as [|c s IH]; [by rewrite !app_nil_l|].
  rewrite contains_char_cons. intros [Hc Hs]%orb_false_iff.
  rewrite !app_cons, replace_passed, (IH Hs); [done|].
  cbn [startswith]. by rewrite Hc.
Qed.

Lemma replace_without (a : ascii) (o new s : string) :
  contains (String a "") s = false -> replace (String a o) new s = s.
Proof.
  intros Hs. rewrite <- (app_empty_r s) at 1. rewrite (replace_through a o new s "" Hs).
  by rewrite app_empty_r.
Qed.

Lemma paragraph_tags_dropped (body tail : string) :
  contains "<" body = false -> contains "<" tail = false ->
  replace "</p>" "" (replace "<p>" "" ("<p>" +:+ body +:+ "</p>" +:+ tail)) = body +:+ tail.
Proof.
  intros Hb Ht.
  rewrite (replace_found "<" "p>" "" (body +:+ "</p>" +:+ tail)), app_nil_l.
  rewrite (replace_through "<" "p>" "" body _ Hb).
  change ("</p>" +:+ tail) with (String "<" ("/p>" +:+ tail)).
  rewrite (replace_passed "<" "<" "p>" "" ("/p>" +:+ tail)) by done.
  rewrite (replace_without "<" "p>" "" ("/p>" +:+ tail))
    by (by rewrite contains_char_app, Ht).
  change (String "<" ("/p>" +:+ tail)) with ("</p>" +:+ tail).
  rewrite (replace_through "<" "/p>" "" body _ Hb).
  rewrite (replace_found "<" "/p>" "" tail), app_nil_l.
  by rewrite (replace_without "<" "/p>" "" tail Ht).
Qed.

Section Description.
Context `{PyLib}.

(** X9: the description of a WordPress record is the excerpt without its
    paragraph tags.  When the excerpt, its character references replaced, is
    one paragraph "<p>body</p>" and a tail, with no other tag in them, the
    description is the body and the tail, stripped of the white space at
    their ends. *)
Theorem wordpress_description_drops_paragraph_tags (post : json) (raw body tail : string)
    (r : TrackerData) :
  (t ← getitem post "excerpt"; getitem t "rendered") = Ok (JStr raw) ->
  unescape raw = "<p>" +:+ body +:+ "</p>" +:+ tail ->
  contains "<" body = false -> contains "<" tail = false ->
  WordPressAPI._parse_post post = Ok r ->
  description r = strip (body +:+ tail).
Proof.
  intros He Hu Hb Ht Hp. unfold WordPressAPI._parse_post in Hp. rewrite He in Hp.
  bind_inv Hp. injection Hp as <-. cbn [description].
  match goal with E0 : as_str (JStr raw) = Ok _ |- _ => injection E0 as <- end.
  rewrite <- (paragraph_tags_dropped body tail Hb Ht), <- Hu. reflexivity.
Qed.

End Description.

Lemma zeros_S (j : nat) : zeros (S j) = String "0" (zeros j).
Proof. reflexivity. Qed.

Lemma concat_zeros (j : nat) : String.concat "" (replicate j "0") = zeros j.
Proof.
  induction j as [|j IH]; [done|]. cbn [replicate zeros]. rewrite <- IH.
  destruct j as [|j]; [done|]. cbn [replicate String.concat].
  by rewrite app_cons, !app_nil_l.
Qed.

Lemma zeros_snoc (j : nat) (s : string) : zeros j +:+ String "0" s = zeros (S j) +:+ s.
Proof.
  induction j as [|j IH]; [done|]. by rewrite !zeros_S, !app_cons, IH, zeros_S, app_cons.
Qed.

(** [decimal] is the writing of [pretty] behind zeros. *)
Lemma decimal_pretty (k : nat) (x : N) (s : string) :
  (x < 10 ^ N.of_nat k)%N ->
  exists j : nat,
    (j <= k)%nat /\
    decimal k x s = zeros j +:+ pretty_N_go x s /\
    String.length (pretty_N_go x s) = (k - j + String.length s)%nat /\
    (x = 0%N -> j = k).
Proof.
  revert x s. induction k as [|k IH]; intros x s Hx.
  - assert (x = 0%N) as -> by (cbn in Hx; lia). exists O.
    rewrite pretty_N_go_0. by repeat split.
  - cbn [decimal]. rewrite Nat2N.inj_succ, N.pow_succ_r' in Hx.
    destruct (decide (x = 0%N)) as [->|Hne].
    + destruct (IH 0%N (String "0" s)) as (j & _ & Hd & _ & Hj); [apply N.neq_0_lt_0; lia|].
      specialize (Hj eq_refl). subst j. exists (S k).
      change (0 / 10)%N with 0%N. change (pretty_N_char (0 mod 10)) with "0"%char.
      rewrite Hd, !pretty_N_go_0, zeros_snoc. repeat split; [lia|]. lia.
    + destruct (IH (x / 10)%N (String (pretty_N_char (x mod 10)) s)) as (j & Hj & Hd & Hl & _).
      { apply N.Div0.div_lt_upper_bound. lia. }
      exists j. rewrite pretty_N_go_step by lia. rewrite Hd, Hl. cbn [String.length].
      repeat split; try lia.
Qed.

Lemma zfill_decimal (k : nat) (y : Z) :
  (0 < k)%nat -> 0 <= y < 10 ^ Z.of_nat k -> zfill k y = decimal k (Z.to_N y) "".
Proof.
  intros Hk Hy. unfold zfill. rewrite concat_zeros.
  assert (Hn : (Z.to_N y < 10 ^ N.of_nat k)%N).
  { apply N2Z.inj_lt. rewrite N2Z.inj_pow, Z2N.id, nat_N_Z by lia. cbn. lia. }
  destruct (decimal_pretty k (Z.to_N y) "" Hn) as (j & Hj & -> & Hl & Hz).
  unfold pretty, pretty_N. destruct (decide (Z.to_N y = 0%N)) as [H0|Hne].
  - rewrite (Hz H0), H0, pretty_N_go_0, app_empty_r. cbn [String.length].
    destruct k as [|k]; [lia|]. replace (S k - 1)%nat with k by lia.
    by rewrite zeros_snoc, app_empty_r.
  - rewrite Hl. cbn [String.length]. by replace (k - (k - j + 0))%nat with j by lia.
Qed.

Lemma digit_pretty_N_char (d : N) : (d < 10)%N -> digit (pretty_N_char d) = Some (Z.of_N d).
Proof.
  intros Hd.
  assert (d = 0 \/ d = 1 \/ d = 2 \/ d = 3 \/ d = 4 \/ d = 5 \/ d = 6 \/ d = 7 \/ d = 8
          \/ d = 9)%N as [->|[->|[->|[->|[->|[->|[->|[->|[->| ->]]]]]]]]] by lia;
    reflexivity.
Qed.

Lemma decimal_app (k : nat) (x : N) (s t : string) :
  decimal k x s +:+ t = decimal k x (s +:+ t).
Proof.
  revert x s. induction k as [|k IH]; intros x s; [done|].
  cbn [decimal]. by rewrite IH, app_cons.
Qed.

(** Reading [k] digits of [decimal] gives the number back. *)
Lemma digits_decimal (k n : nat) (x : N) (s : string) (acc : Z) :
  (x < 10 ^ N.of_nat k)%N ->
  digits (k + n) acc (decimal k x s) = digits n (acc * 10 ^ Z.of_nat k + Z.of_N x) s.
Proof.
  revert n x s. induction k as [|k IH]; intros n x s Hx.
  - assert (x = 0%N) as -> by (cbn in Hx; lia). cbn [decimal Nat.add]. f_equal. cbn. lia.
  - cbn [decimal]. rewrite Nat2N.inj_succ, N.pow_succ_r' in Hx.
    replace (S k + n)%nat with (k + S n)%nat by lia.
    rewrite IH by (apply N.Div0.div_lt_upper_bound; lia).
    cbn [digits]. rewrite digit_pretty_N_char by (apply N.mod_lt; lia).
    f_equal. rewrite Nat2Z.inj_succ, Z.pow_succ_r by lia.
    rewrite N2Z.inj_mod, N2Z.inj_div. change (Z.of_N 10) with 10.
    pose proof (Z.div_mod (Z.of_N x) 10 ltac:(lia)). lia.
Qed.

Lemma digits_zfill (k : nat) (y : Z) (rest : string) :
  (0 < k)%nat -> 0 <= y < 10 ^ Z.of_nat k ->
  digits k 0 (zfill k y +:+ rest) = Some (y, rest).
Proof.
  intros Hk Hy. rewrite zfill_decimal, decimal_app, app_nil_l by done.
  rewrite <- (Nat.add_0_r k) at 1. rewrite digits_decimal.
  - cbn [digits]. rewrite Z2N.id by lia. by rewrite Z.mul_0_l, Z.add_0_l.
  - apply N2Z.inj_lt. rewrite N2Z.inj_pow, Z2N.id, nat_N_Z by lia. cbn. lia.
Qed.

Lemma digits_zfill2 (y : Z) (rest : string) :
  0 <= y < 100 -> digits 2 0 (zfill 2 y +:+ rest) = Some (y, rest).
Proof. intros Hy. apply digits_zfill; [lia|by cbn]. Qed.

Lemma digits_zfill4 (y : Z) (rest : string) :
  0 <= y < 10000 -> digits 4 0 (zfill 4 y +:+ rest) = Some (y, rest).
Proof. intros Hy. apply digits_zfill; [lia|by cbn]. Qed.

Lemma digits_zfill6 (y : Z) (rest : string) :
  0 <= y < 1000000 -> digits 6 0 (zfill 6 y +:+ rest) = Some (y, rest).
Proof. intros Hy. apply digits_zfill; [lia|by cbn]. Qed.

Lemma app_inv_head_str (p a b : string) : p +:+ a = p +:+ b -> a = b.
Proof.
  induction p as [|c p IH]; [by rewrite !app_nil_l|].
  rewrite !app_cons. intros [= Heq]. by apply IH.
Qed.

(** The day is read back from the text of [strftime('%Y-%m-%d')]. *)
Lemma strftime_Ymd_day (d : datetime) (rest : string) :
  calendar_date d ->
  ('(y, s) ← digits 4 0 (strftime_Ymd d +:+ rest); s ← expect "-" s;
   '(m, s) ← digits 2 0 s; s ← expect "-" s;
   '(dd, s) ← digits 2 0 s; Some (y, m, dd, s))
  = Some (year d, month d, day d, rest).
Proof.
  intros (Hy & Hm & Hd). unfold strftime_Ymd. rewrite !app_assoc_str.
  rewrite digits_zfill4 by lia. cbn [mbind option_bind]. rewrite app_cons, app_nil_l.
  cbn [expect Ascii.eqb Bool.eqb andb]. cbn [mbind option_bind].
  rewrite digits_zfill2 by lia. cbn [mbind option_bind]. rewrite app_cons, app_nil_l.
  cbn [expect Ascii.eqb Bool.eqb andb]. cbn [mbind option_bind].
  rewrite digits_zfill2 by lia. reflexivity.
Qed.

(** X10: one dated file for each calendar day.  The dated files that [save]
    names on two readings of the clock are one and the same file exactly
    when the two readings fall on the same day: a later day never overwrites
    the snapshot of an earlier one.  (The years are of four digits, as
    [strftime_Ymd] takes them.) *)
Theorem dated_files_differ_by_day (storage : string) (a b : datetime) :
  calendar_date a -> calendar_date b -> 1000 <= year a -> 1000 <= year b ->
  (dated_file storage a = dated_file storage b <-> same_day a b).
Proof.
  intros Ha Hb _ _. split; [|apply same_day_file].
  unfold dated_file. intros Heq.
  apply app_inv_head_str in Heq. apply (app_inv_head_str "/trackers_") in Heq.
  pose proof (strftime_Ymd_day a ".json" Ha) as Hda.
  pose proof (strftime_Ymd_day b ".json" Hb) as Hdb.
  rewrite Heq, Hdb in Hda. injection Hda as H1 H2 H3. by repeat split.
Qed.

(* ===================================================================== *)
(** * main.py: what a snapshot keeps of a record *)
(* ===================================================================== *)

(** The date and the time of the day are read back from the head of the
    text of [isoformat]. *)
Lemma isoformat_head (d : datetime) :
  proper d ->
  exists rest : string,
    isoformat d = strftime_Ymd d +:+ "T" +:+ rest /\
    ('(hh, s) ← digits 2 0 rest; s ← expect ":" s;
     '(mm, s) ← digits 2 0 s; s ← expect ":" s;
     '(ss, s) ← digits 2 0 s; Some (hh, mm, ss, s))
    = Some (hour d, minute d, second d,
            (if microsecond d =? 0 then "" else "." +:+ zfill 6 (microsecond d))
            +:+ match tzinfo d with Some off => format_offset off | None => "" end).
Proof.
  intros (_ & Hh & Hm & Hs & _). eexists. unfold isoformat.
  split; [reflexivity|].
  rewrite digits_zfill2 by (Z.div_mod_to_equations; lia). cbn [mbind option_bind]. rewrite app_cons, app_nil_l.
  cbn [expect Ascii.eqb Bool.eqb andb]. cbn [mbind option_bind].
  rewrite digits_zfill2 by (Z.div_mod_to_equations; lia). cbn [mbind option_bind]. rewrite app_cons, app_nil_l.
  cbn [expect Ascii.eqb Bool.eqb andb]. cbn [mbind option_bind].
  rewrite digits_zfill2 by (Z.div_mod_to_equations; lia). reflexivity.
Qed.

Lemma format_offset_head (off : Z) :
  exists rest, format_offset off = String (if off <? 0 then "-"%char else "+"%char) rest.
Proof.
  unfold format_offset. destruct (off <? 0); rewrite app_cons, app_nil_l; by eexists.
Qed.

Lemma format_offset_inj (a b : Z) :
  -86400 < a < 86400 -> -86400 < b < 86400 -> format_offset a = format_offset b -> a = b.
Proof.
  intros Ha Hb. unfold format_offset.
  set (x := Z.abs a). set (y := Z.abs b).
  assert (Hx : 0 <= x < 86400) by lia. assert (Hy : 0 <= y < 86400) by lia.
  assert (Hsign : forall sa sb ra rb : string,
             String.length sa = 1%nat -> String.length sb = 1%nat ->
             sa +:+ ra = sb +:+ rb -> sa = sb /\ ra = rb).
  { intros [|ca [|]] [|cb [|]] ra rb; try done. intros _ _. rewrite !app_cons, !app_nil_l.
    by intros [= -> ->]. }
  intros Heq. apply Hsign in Heq as [Hs Heq]; [|by destruct (a <? 0)|by destruct (b <? 0)].
  assert (Hparse : forall z, 0 <= z < 86400 ->
             ('(h, s) ← digits 2 0 (zfill 2 (z / 3600) +:+ ":" +:+ zfill 2 (z mod 3600 / 60)
                                    +:+ (if z mod 60 =? 0 then "" else ":" +:+ zfill 2 (z mod 60)));
              s ← expect ":" s; '(m, s) ← digits 2 0 s; Some (h, m, s))
             = Some (z / 3600, z mod 3600 / 60,
                     if z mod 60 =? 0 then "" else ":" +:+ zfill 2 (z mod 60))).
  { intros z Hz. rewrite digits_zfill2 by (Z.div_mod_to_equations; lia). cbn [mbind option_bind].
    rewrite app_cons, app_nil_l. cbn [expect Ascii.eqb Bool.eqb andb]. cbn [mbind option_bind].
    rewrite digits_zfill2 by (Z.div_mod_to_equations; lia). reflexivity. }
  pose proof (Hparse x Hx) as Hpx. pose proof (Hparse y Hy) as Hpy.
  rewrite Heq, Hpy in Hpx. injection Hpx as H1 H2 H3.
  assert (Hsec : x mod 60 = y mod 60).
  { destruct (Z.eqb_spec (x mod 60) 0) as [Hx0|Hx0], (Z.eqb_spec (y mod 60) 0) as [Hy0|Hy0];
      try congruence; try (rewrite app_cons in H3; discriminate H3).
    pose proof (digits_zfill2 (x mod 60) "" ltac:(Z.div_mod_to_equations; lia)) as Hdx.
    pose proof (digits_zfill2 (y mod 60) "" ltac:(Z.div_mod_to_equations; lia)) as Hdy.
    rewrite !app_cons, !app_nil_l in H3. injection H3 as H3.
    rewrite H3 in Hdy. congruence. }
  assert (x = y) by (clear -H1 H2 Hsec Hx Hy; Z.div_mod_to_equations; lia).
  destruct (Z.ltb_spec a 0), (Z.ltb_spec b 0); try discriminate Hs; lia.
Qed.

(** The text of [isoformat] tells the proper objects apart. *)
Lemma isoformat_inj (a b : datetime) :
  proper a -> proper b -> isoformat a = isoformat b -> a = b.
Proof.
  intros Ha Hb Heq.
  destruct (isoformat_head a Ha) as (ra & Hia & Hra).
  destruct (isoformat_head b Hb) as (rb & Hib & Hrb).
  rewrite Hia, Hib in Heq.
  pose proof (strftime_Ymd_day a ("T" +:+ ra) (proj1 Ha)) as Hda.
  pose proof (strftime_Ymd_day b ("T" +:+ rb) (proj1 Hb)) as Hdb.
  rewrite Heq, Hdb in Hda. injection Hda as Hy Hm Hd Hr.
  rewrite !app_nil_l in Hr. subst rb.
  rewrite Hrb in Hra. injection Hra as Hh Hmi Hs Hrest.
  destruct Ha as (_ & _ & _ & _ & Hua & Hta), Hb as (_ & _ & _ & _ & Hub & Htb).
  assert (Htail : microsecond a = microsecond b /\ tzinfo a = tzinfo b).
  { destruct (Z.eqb_spec (microsecond a) 0) as [Ha0|Ha0],
             (Z.eqb_spec (microsecond b) 0) as [Hb0|Hb0].
    - split; [congruence|]. rewrite !app_nil_l in Hrest.
      destruct (tzinfo a) as [oa|], (tzinfo b) as [ob|]; try done.
      + f_equal. symmetry. apply format_offset_inj; auto.
      + by destruct (format_offset_head oa) as (? & Hoa); rewrite Hoa in Hrest.
      + by destruct (format_offset_head ob) as (? & Hob); rewrite Hob in Hrest.
    - exfalso. rewrite app_nil_l, !app_cons in Hrest.
      destruct (tzinfo a) as [oa|]; [|done].
      destruct (format_offset_head oa) as (? & Hoa). rewrite Hoa in Hrest.
      by destruct (oa <? 0).
    - exfalso. rewrite app_nil_l, !app_cons in Hrest.
      destruct (tzinfo b) as [ob|]; [|done].
      destruct (format_offset_head ob) as (? & Hob). rewrite Hob in Hrest.
      by destruct (ob <? 0).
    - rewrite !app_cons, !app_nil_l in Hrest. injection Hrest as Hrest.
      pose proof (digits_zfill6 (microsecond a)
                    match tzinfo a with Some off => format_offset off | None => "" end
                    ltac:(lia)) as Hpa.
      pose proof (digits_zfill6 (microsecond b)
                    match tzinfo b with Some off => format_offset off | None => "" end
                    ltac:(lia)) as Hpb.
      rewrite Hrest, Hpa in Hpb. injection Hpb as Hu Ht. split; [done|].
      destruct (tzinfo a) as [oa|], (tzinfo b) as [ob|]; try done.
      + f_equal. apply format_offset_inj; auto.
      + by destruct (format_offset_head oa) as (? & Hoa); rewrite Hoa in Ht.
      + by destruct (format_offset_head ob) as (? & Hob); rewrite Hob in Ht. }
  destruct Htail as [Hu Ht]. destruct a, b. cbn in *. congruence.
Qed.

Lemma map_JStr_inj (l1 l2 : list string) : map JStr l1 = map JStr l2 -> l1 = l2.
Proof.
  revert l2. induction l1 as [|x l1 IH]; intros [|y l2]; try done.
  cbn. intros [= -> Hl]. f_equal. by apply IH.
Qed.

(** X11: a snapshot loses nothing of a record.  Two records whose dates are
    proper and that are written as one and the same entry of the snapshot
    are one and the same record: the name, the description, the categories,
    the link and the status stand in the entry as they are, and the text of
    the date tells the date, with its microseconds and its offset. *)
Theorem snapshot_entry_determines_record (a b : TrackerData) :
  proper (date a) -> proper (date b) ->
  DataManager._serialize_tracker a = DataManager._serialize_tracker b -> a = b.
Proof.
  intros Ha Hb. unfold DataManager._serialize_tracker.
  intros [= Hn Hd Hc Hu Hs Hdate].
  apply map_JStr_inj in Hc. apply (isoformat_inj _ _ Ha Hb) in Hdate.
  destruct a, b. cbn in *. congruence.
Qed.

(* ===================================================================== *)
(** * main.py: the order of the rows, and the whole run *)
(* ===================================================================== *)



Lemma persist_and_report_frame (trackers : list TrackerData) (e : env) (w : world) :
  exists (r : result unit) (w' : world) (evs : list event),
    run (persist_and_report trackers) e w = (r, w') /\
    requests w' = requests w /\
    trace w' = (trace w ++ evs)%list /\
    forall path : string,
      ~ In path (monitor_outputs (now_at e (S (clock_reads w)))) ->
      files w' !! path = files w !! path.
Proof.
  unfold persist_and_report. rewrite run_bind, save_run. cbn beta iota zeta.
  rewrite run_bind, visualizations_run. cbn beta iota.
  set (w1 := mk_world _ (trace w) _ (requests w)).
  assert (Hw1 : requests w1 = requests w /\ trace w1 = trace w /\
                forall path, ~ In path (monitor_outputs (now_at e (S (clock_reads w)))) ->
                             files w1 !! path = files w !! path).
  { split; [done|]. split; [done|]. intros path Hpath. cbn [monitor_outputs In] in Hpath.
    subst w1. cbn [files]. rewrite !lookup_insert_ne; [done| |]; intros <-; tauto. }
  clearbody w1. destruct Hw1 as (Hr1 & Ht1 & Hf1).
  set (w2 := match trackers with [] => _ | _ => _ end).
  assert (Hw2 : requests w2 = requests w /\ (exists evs, trace w2 = (trace w ++ evs)%list) /\
                forall path, ~ In path (monitor_outputs (now_at e (S (clock_reads w)))) ->
                             files w2 !! path = files w !! path).
  { subst w2. destruct trackers as [|t ts].
    - cbn. rewrite Ht1. repeat split; eauto.
    - destruct (decide _).
      + cbn. rewrite Ht1. repeat split; eauto.
      + cbn [written requests trace files]. split; [done|]. split; [exists []; by rewrite app_nil_r|].
        intros path Hpath. rewrite <- (Hf1 path Hpath). cbn [monitor_outputs In] in Hpath.
        rewrite !lookup_insert_ne; [done| |]; intros <-; tauto. }
  clearbody w2. destruct Hw2 as (Hr2 & (evs2 & Ht2) & Hf2).
  rewrite run_bind, display_run.
  destruct (sorted_reverse TrackerMonitor.by_date trackers) as [ordered|x] eqn:Hs.
  - rewrite report_run, Hs. eexists _, _, _. split; [reflexivity|].
    cbn [written ticked noted requests trace files]. split; [done|]. split.
    + rewrite Ht2, <- app_assoc. reflexivity.
    + intros path Hpath. rewrite <- (Hf2 path Hpath). cbn [monitor_outputs In] in Hpath.
      rewrite lookup_insert_ne; [done|]. intros <-; tauto.
  - eexists _, _, _. split; [reflexivity|]. split; [done|]. split; [exact Ht2|exact Hf2].
Qed.

Section WholeRun.
Context `{PyLib}.

(** X13: a run of the monitor is contained.  Whatever the two sources answer
    and whatever the clock shows, [run] does not raise (the closing of a
    client cannot fail here); it sends two
    requests, one to each source; the last things it does are the closing of
    the WordPress client and then of the Reddit client; and it leaves every
    file as it was but the dated file, the latest file, the two charts and
    the report in the directory "data". *)
Theorem monitor_run_is_contained (e : env) (w : world) :
  exists (w' : world) (evs : list event) (n : nat),
    run TrackerMonitor.run e w = (Ok tt, w') /\
    requests w' = S (S (requests w)) /\
    trace w' = (trace w ++ Get "https://opentrackers.org/wp-json/wp/v2/posts" :: evs
                  ++ [Close "wordpress"; Close "reddit"])%list /\
    In (Get "https://www.reddit.com/r/OpenSignup.json") evs /\
    forall path : string,
      ~ In path (monitor_outputs (now_at e n)) -> files w' !! path = files w !! path.
Proof.
  destruct (wordpress_fetch_frame "https://opentrackers.org" e w)
    as (wp & w1 & tail1 & Hwp & Hr1 & Hf1 & Ht1 & _).
  destruct (reddit_fetch_frame "OpenSignup" e w1)
    as (rd & w2 & tail2 & Hrd & Hr2 & Hf2 & Ht2 & _).
  rewrite (monitor_run e w w1 w2 wp rd Hwp Hrd). cbn zeta.
  assert (Hbody : exists (r : result unit) (w3 : world) (evs : list event),
             run match (wp ++ rd)%list with
                 | [] => print "[yellow]No trackers found[/yellow]"
                 | _ => persist_and_report (wp ++ rd)
                 end e w2 = (r, w3) /\
             requests w3 = requests w2 /\ trace w3 = (trace w2 ++ evs)%list /\
             forall path, ~ In path (monitor_outputs (now_at e (S (clock_reads w2)))) ->
                          files w3 !! path = files w2 !! path).
  { destruct (wp ++ rd)%list as [|t ts] eqn:Hl.
    - eexists _, _, [_]. split; [reflexivity|]. by cbn.
    - apply persist_and_report_frame. }
  destruct Hbody as (r & w3 & evs & -> & Hr3 & Ht3 & Hf3).
  assert (Hend : exists (w4 : world) (evs' : list event),
             match r with
             | Ok _ => w3
             | Raise x => noted (Print ("Error in main run: " +:+ describe x)) w3
             end = w4 /\
             requests w4 = requests w2 /\ trace w4 = (trace w2 ++ evs')%list /\
             files w4 = files w3).
  { destruct r as [[]|x].
    - by exists w3, evs.
    - eexists _, (evs ++ [_])%list. split; [reflexivity|]. cbn.
      rewrite Ht3, <- app_assoc. done. }
  destruct Hend as (w4 & evs' & -> & Hr4 & Ht4 & Hf4).
  eexists _, (tail1 ++ Get "https://www.reddit.com/r/OpenSignup.json" :: tail2 ++ evs')%list,
    (S (clock_reads w2)).
  split; [reflexivity|]. cbn [noted requests trace files]. split; [congruence|]. split.
  - rewrite Ht4, Ht2, Ht1. cbn. rewrite <- !app_assoc. cbn. rewrite <- !app_assoc.
    reflexivity.
  - split; [apply in_or_app; right; by left|].
    intros path Hpath. rewrite Hf4, (Hf3 path Hpath). congruence.
Qed.

End WholeRun.

(* ===================================================================== *)
(** * main.py: the name of a Reddit record *)
(* ===================================================================== *)

Section RedditName.
Context `{PyLib}.

(** X14: the name of a Reddit record is the cleaned title, or else the
    identifier of the post.  When the title, without the phrase and the
    white space around it, is not empty, it is the name; when it is empty,
    the name is the "id" of the post, "No Title" standing in for a post
    without one; so the name is empty only for a post whose "id" is the
    empty string. *)
Theorem reddit_name_is_title_or_id (subreddit : string) (members : list (string * json))
    (raw : string) (e : env) (w w' : world) (r : TrackerData) :
  get (JObj members) "title" (JStr "") = Ok (JStr raw) ->
  run (RedditAPI._parse_post subreddit (JObj members)) e w = (Ok r, w') ->
  let cleaned := strip (replace SIGNUP_SUFFIX "" (unescape raw)) in
  (cleaned <> "" -> name r = cleaned) /\
  (cleaned = "" ->
   match assoc "id" members with
   | Some id => id = JStr (name r)
   | None => name r = "No Title"
   end) /\
  (name r = "" -> assoc "id" members = Some (JStr "")).
Proof.
  intros Ht Hp cleaned.
  split; [exact (proj2 (reddit_record subreddit _ raw e w w' r Ht Hp))|]. split.
  - subst cleaned. intros Hempty. unfold RedditAPI._parse_post in Hp. rewrite Ht in Hp.
    run_inv Hp. injection Hp as <- _. cbn [name as_str] in *.
    match goal with
    | Hn : (if negb (String.eqb ?c "") then _ else _) = Ok ?n |- _ =>
        injection E as <-; rewrite Hempty in Hn; cbn [String.eqb negb get] in Hn;
        destruct (assoc "id" members) as [[]|]; cbn [as_str mbind result_bind] in Hn;
        by simplify_eq
    end.
  - intros Hn. pose proof (reddit_name_fallback subreddit _ e w w' r Hp Hn) as Hid.
    cbn [get] in Hid. by destruct (assoc "id" members); simplify_eq.
Qed.

End RedditName.

(* ===================================================================== *)
(** * scraper.py: the texts and the links *)
(* ===================================================================== *)

Lemma collapse_head (s : string) : head_space (collapse_spaces true s) = false.
Proof.
  induction s as [|c s IH]; [done|]. cbn [collapse_spaces].
  destruct (isspace c) eqn:Hc; [exact IH|]. cbn. exact Hc.
Qed.

Lemma collapse_single (b : bool) (s : string) :
  single_spaced (collapse_spaces b s) = true.
Proof.
  revert b. induction s as [|c s IH]; intros b; [done|]. cbn [collapse_spaces].
  destruct (isspace c) eqn:Hc.
  - destruct b; [apply IH|]. cbn [single_spaced].
    rewrite collapse_head, IH. reflexivity.
  - cbn [single_spaced]. rewrite Hc, IH. reflexivity.
Qed.

Lemma single_spaced_tail (c : ascii) (s : string) :
  single_spaced (String c s) = true -> single_spaced s = true.
Proof. cbn [single_spaced]. by intros [_ ?]%andb_true_iff. Qed.

Lemma lstrip_single (s : string) :
  single_spaced s = true -> single_spaced (lstrip s) = true.
Proof.
  induction s as [|c s IH]; [done|]. intros Hs. cbn [lstrip].
  destruct (isspace c); [|exact Hs]. apply IH. by apply single_spaced_tail in Hs.
Qed.

Lemma lstrip_head (s : string) : head_space (lstrip s) = false.
Proof.
  induction s as [|c s IH]; [done|]. cbn [lstrip].
  destruct (isspace c) eqn:Hc; [exact IH|]. exact Hc.
Qed.

Lemma rstrip_cons (c : ascii) (s : string) :
  rstrip (String c s) =
  match rstrip s with
  | EmptyString => if isspace c then EmptyString else String c EmptyString
  | r => String c r
  end.
Proof. reflexivity. Qed.

Lemma rstrip_head (s : string) : head_space s = false -> head_space (rstrip s) = false.
Proof.
  destruct s as [|c s]; [done|]. cbn [head_space]. intros Hc. rewrite rstrip_cons.
  destruct (rstrip s); [rewrite Hc|]; exact Hc.
Qed.

Lemma rstrip_single (s : string) :
  single_spaced s = true -> single_spaced (rstrip s) = true.
Proof.
  induction s as [|c s IH]; [done|]. intros Hs. rewrite rstrip_cons.
  cbn [single_spaced] in Hs. apply andb_true_iff in Hs as [Hc Hs].
  specialize (IH Hs). destruct (rstrip s) as [|d r] eqn:Hr.
  - destruct (isspace c) eqn:Hc'; [done|]. cbn. by rewrite Hc'.
  - cbn [single_spaced] in IH |- *. rewrite IH, andb_true_r.
    destruct (isspace c); [|done].
    apply andb_true_iff in Hc as [Hc Hh]. rewrite Hc. cbn [andb].
    apply negb_true_iff in Hh. apply rstrip_head in Hh. rewrite Hr in Hh.
    by rewrite Hh.
Qed.

Lemma rstrip_last (s : string) : last_space (rstrip s) = false.
Proof.
  induction s as [|c s IH]; [done|]. rewrite rstrip_cons.
  destruct (rstrip s) as [|d r].
  - destruct (isspace c) eqn:Hc; [done|]. cbn. exact Hc.
  - exact IH.
Qed.

Lemma strip_tidy (s : string) : single_spaced s = true -> tidy (strip s) = true.
Proof.
  intros Hs. unfold tidy, strip.
  rewrite (rstrip_head _ (lstrip_head s)), rstrip_last,
    (rstrip_single _ (lstrip_single s Hs)). reflexivity.
Qed.

Lemma collapse_same (s : string) :
  single_spaced s = true ->
  collapse_spaces false s = s /\ (head_space s = false -> collapse_spaces true s = s).
Proof.
  induction s as [|c s IH]; [done|]. cbn [single_spaced collapse_spaces head_space].
  intros [Hc Hs]%andb_true_iff. destruct (IH Hs) as [IH0 IH1].
  destruct (isspace c).
  - apply andb_true_iff in Hc as [->%Ascii.eqb_eq Hh%negb_true_iff].
    split; [|done]. by rewrite (IH1 Hh).
  - by rewrite IH0.
Qed.

Lemma lstrip_same (s : string) : head_space s = false -> lstrip s = s.
Proof. destruct s as [|c s]; [done|]. cbn. by intros ->. Qed.

Lemma rstrip_same (s : string) : last_space s = false -> rstrip s = s.
Proof.
  induction s as [|c s IH]; [done|]. rewrite rstrip_cons. cbn [last_space].
  destruct s as [|d s].
  - cbn. by intros ->.
  - intros Hl. by rewrite (IH Hl).
Qed.

Lemma temizle_metin_same (s : string) : tidy s = true -> TrackerScraper.temizle_metin s = s.
Proof.
  unfold tidy. intros [[Hh%negb_true_iff Hl%negb_true_iff]%andb_true_iff Hs]%andb_true_iff.
  unfold TrackerScraper.temizle_metin. destruct (String.eqb_spec s "") as [->|_]; [done|].
  destruct (collapse_same s Hs) as [-> _]. unfold strip.
  by rewrite (lstrip_same s Hh), (rstrip_same s Hl).
Qed.

Lemma temizle_metin_tidy (s : string) : tidy (TrackerScraper.temizle_metin s) = true.
Proof.
  unfold TrackerScraper.temizle_metin. destruct (String.eqb s ""); [done|].
  apply strip_tidy, collapse_single.
Qed.

(** X15: [temizle_metin] brings a text to a normal form.  Its result has no
    white space at either end and only single spaces inside; a text that is
    in this form already is returned as it is, so that cleaning twice is
    cleaning once. *)
Theorem temizle_metin_normal_form (s : string) :
  tidy (TrackerScraper.temizle_metin s) = true /\
  (tidy s = true -> TrackerScraper.temizle_metin s = s) /\
  TrackerScraper.temizle_metin (TrackerScraper.temizle_metin s)
  = TrackerScraper.temizle_metin s.
Proof.
  split; [apply temizle_metin_tidy|]. split; [apply temizle_metin_same|].
  apply temizle_metin_same, temizle_metin_tidy.
Qed.

Lemma url_duzenle_http (url : string) :
  url <> "" -> startswith "http" (TrackerScraper.url_duzenle url) = true.
Proof.
  intros Hne. unfold TrackerScraper.url_duzenle.
  destruct (String.eqb_spec url "") as [|_]; [done|].
  destruct (startswith "http" url) eqn:Hs; [exact Hs|]. reflexivity.
Qed.

(** X16: [url_duzenle] makes links absolute.  Every link but the empty one
    comes out with "http" at its head: a link that has it is kept, any other
    is put behind the address of the site; and the function changes nothing
    when it is applied again. *)
Theorem url_duzenle_absolute (url : string) :
  (TrackerScraper.url_duzenle url = "" <-> url = "") /\
  (url <> "" -> startswith "http" (TrackerScraper.url_duzenle url) = true) /\
  (startswith "http" url = true -> TrackerScraper.url_duzenle url = url) /\
  (url <> "" -> startswith "http" url = false ->
   TrackerScraper.url_duzenle url = "https://opentrackers.org" +:+ url) /\
  TrackerScraper.url_duzenle (TrackerScraper.url_duzenle url)
  = TrackerScraper.url_duzenle url.
Proof.
  split; [|split; [apply url_duzenle_http|]].
  - split; [|by intros ->]. intros Hu. destruct (String.eqb_spec url "") as [|Hne]; [done|].
    apply url_duzenle_http in Hne. by rewrite Hu in Hne.
  - assert (Hkeep : forall u, startswith "http" u = true -> TrackerScraper.url_duzenle u = u).
    { intros u Hu. unfold TrackerScraper.url_duzenle. rewrite Hu.
      by destruct (String.eqb_spec u "") as [->|_]. }
    split; [apply Hkeep|]. split.
    + intros Hne Hs. unfold TrackerScraper.url_duzenle. rewrite Hs.
      by destruct (String.eqb_spec url "").
    + destruct (String.eqb_spec url "") as [->|Hne]; [done|].
      apply Hkeep, url_duzenle_http, Hne.
Qed.

(* ===================================================================== *)
(** * scraper.py: the attempts to fetch the page *)
(* ===================================================================== *)

Lemma deneme_failed (n : nat) (e : env) (w : world) :
  respond e (requests w) = Failed ->
  run (TrackerScraper.deneme (S n)) e w = (Raise TransportError, sent TrackerScraper.site_url w).
Proof.
  intros Hr. cbn [TrackerScraper.deneme]. rewrite run_bind.
  unfold http_get at 1. cbn [run]. by rewrite Hr.
Qed.

(** What [n] attempts come to: the page of the first answer 200, the empty
    page after [n] answers that are not 200, or the transport error of the
    first request without an answer; every request before the last one was
    answered with another status. *)
Lemma deneme_outcome (n : nat) (e : env) (w : world) :
  exists (r : result string) (w' : world),
    run (TrackerScraper.deneme n) e w = (r, w') /\
    files w' = files w /\ clock_reads w' = clock_reads w /\
    (requests w <= requests w' <= requests w + n)%nat /\
    (forall k, (requests w <= k)%nat -> (S k < requests w')%nat -> refused e k) /\
    match r with
    | Ok page =>
        ((requests w < requests w')%nat /\
         exists rr, respond e (Nat.pred (requests w')) = Reply rr /\
                    status_code rr = 200 /\ text rr = page) \/
        (page = "" /\ requests w' = (requests w + n)%nat /\
         forall k, (requests w <= k < requests w')%nat -> refused e k)
    | Raise x =>
        x = TransportError /\ (requests w < requests w')%nat /\
        respond e (Nat.pred (requests w')) = Failed
    end.
Proof.
  revert w. induction n as [|n IH]; intros w.
  - exists (Ok ""), w. cbn [TrackerScraper.deneme]. rewrite run_ret.
    repeat split; try lia. right. repeat split; try lia.
  - destruct (respond e (requests w)) as [|rr] eqn:Hr.
    + eexists _, _. split; [by apply deneme_failed|]. cbn.
      repeat split; try lia. exact Hr.
    + destruct (Z.eq_dec (status_code rr) 200) as [Hs|Hs].
      * eexists _, _. split; [by apply (deneme_served _ rr)|]. cbn.
        repeat split; try lia. left. split; [lia|]. by exists rr.
      * destruct (IH (noted (Sleep 2) (sent TrackerScraper.site_url w)))
          as (r & w' & Hrun & Hf & Hc & Hn & Hbefore & Hlast).
        cbn [noted sent files clock_reads requests] in *.
        assert (Hfirst : refused e (requests w)) by by exists rr.
        assert (Hall : forall k, (requests w <= k)%nat -> (S k < requests w')%nat -> refused e k).
        { intros k Hk Hk'. destruct (decide (k = requests w)) as [->|Hne]; [done|].
          apply Hbefore; lia. }
        exists r, w'. split; [by rewrite (deneme_refused _ rr)|].
        repeat split; try done; try lia.
        destruct r as [page|x].
        -- destruct Hlast as [[Hlt Hserved]|(-> & Hreq & Hrefused)].
           ++ left. split; [lia|exact Hserved].
           ++ right. repeat split; try lia. intros k Hk.
              destruct (decide (k = requests w)) as [->|Hne]; [done|].
              apply Hrefused. lia.
        -- destruct Hlast as (-> & Hlt & Hfailed). repeat split; try lia. exact Hfailed.
Qed.

(** X17: the page fetch of the scraper never raises and sends one, two or
    three requests.  It writes no file and does not read the clock.  Every
    request before its last one was answered with a status that is not 200;
    a page that is not empty is the text of the answer 200 to the last
    request; and when the first answer 200 comes within three attempts that
    were all answered, its text is the page. *)
Theorem sayfa_icerik_al_attempts (e : env) (w : world) :
  exists (page : string) (w' : world),
    run TrackerScraper.sayfa_icerik_al e w = (Ok page, w') /\
    files w' = files w /\ clock_reads w' = clock_reads w /\
    (requests w < requests w' <= requests w + 3)%nat /\
    (forall k, (requests w <= k)%nat -> (S k < requests w')%nat -> refused e k) /\
    (page <> "" ->
     exists rr, respond e (Nat.pred (requests w')) = Reply rr /\
                status_code rr = 200 /\ text rr = page) /\
    (forall (k : nat) (rr : response),
       (k < 3)%nat ->
       (forall j, (j < k)%nat -> refused e (requests w + j)) ->
       respond e (requests w + k) = Reply rr -> status_code rr = 200 ->
       page = text rr /\ requests w' = S (requests w + k)).
Proof.
  destruct (deneme_outcome 3 e w) as (r & w1 & Hrun & Hf & Hc & Hn & Hbefore & Hlast).
  assert (Hfirst : forall (k : nat) (rr : response) (w' : world),
             (requests w < requests w')%nat ->
             (forall k, (requests w <= k)%nat -> (S k < requests w')%nat -> refused e k) ->
             (forall j, (j < k)%nat -> refused e (requests w + j)) ->
             respond e (requests w + k) = Reply rr -> status_code rr = 200 ->
             (exists rr', respond e (Nat.pred (requests w')) = Reply rr' /\ status_code rr' = 200) ->
             requests w' = S (requests w + k)).
  { intros k rr w' Hlt Hb Hj Hk Hs (rr' & Hk' & Hs').
    destruct (lt_eq_lt_dec (Nat.pred (requests w')) (requests w + k)%nat) as [[Hcmp|Hcmp]|Hcmp].
    - destruct (Hj (Nat.pred (requests w') - requests w)%nat ltac:(lia)) as (r0 & Hr0 & Hs0).
      replace (requests w + (Nat.pred (requests w') - requests w))%nat
        with (Nat.pred (requests w')) in Hr0 by lia.
      congruence.
    - lia.
    - destruct (Hb (requests w + k)%nat ltac:(lia) ltac:(lia)) as (r0 & Hr0 & Hs0).
      congruence. }
  unfold TrackerScraper.sayfa_icerik_al, try_except. cbn [run]. rewrite Hrun.
  destruct r as [page|x].
  - exists page, w1. split; [done|]. split; [done|]. split; [done|].
    assert (Hpos : (requests w < requests w1)%nat).
    { destruct Hlast as [[? _]|(_ & -> & _)]; lia. }
    split; [lia|]. split; [exact Hbefore|]. split.
    + intros Hne. destruct Hlast as [[_ Hserved]|[-> _]]; [exact Hserved|done].
    + intros k rr Hk Hj Hrr Hs.
      destruct Hlast as [[_ (rr' & Hrr' & Hs' & <-)]|(_ & Hreq & Hrefused)].
      * assert (Heq : requests w1 = S (requests w + k)).
        { apply (Hfirst k rr w1); eauto. }
        split; [|exact Heq]. rewrite Heq in Hrr'. cbn in Hrr'. congruence.
      * destruct (Hrefused (requests w + k)%nat ltac:(lia)) as (r0 & Hr0 & Hs0). congruence.
  - destruct Hlast as (-> & Hlt & Hfailed).
    eexists "", _. split; [reflexivity|].
    cbn [print emit run mbind M_bind mret M_ret files trace clock_reads requests].
    split; [done|]. split; [done|]. split; [lia|]. split; [exact Hbefore|].
    split; [done|]. intros k rr Hk Hj Hrr Hs. exfalso.
    destruct (lt_eq_lt_dec (Nat.pred (requests w1)) (requests w + k)%nat) as [[Hcmp|Hcmp]|Hcmp].
    + destruct (Hj (Nat.pred (requests w1) - requests w)%nat ltac:(lia)) as (r0 & Hr0 & Hs0).
      replace (requests w + (Nat.pred (requests w1) - requests w))%nat
        with (Nat.pred (requests w1)) in Hr0 by lia.
      congruence.
    + rewrite Hcmp in Hfailed. congruence.
    + destruct (Hbefore (requests w + k)%nat ltac:(lia) ltac:(lia)) as (r0 & Hr0 & Hs0).
      congruence.
Qed.

(* ===================================================================== *)
(** * scraper.py: attempts that are all refused *)
(* ===================================================================== *)

(** X18: a refused attempt costs a request and a sleep of two seconds, the
    last attempt as the others.  When the next [n] requests are all answered
    with a status that is not 200, [n] attempts make [n] requests, sleep
    after each of them, print nothing and end with the empty page; so the
    page fetch, with its three attempts, sleeps three times before it gives
    up. *)
Theorem refused_attempts_sleep (n : nat) (e : env) (w : world) :
  (forall k, (k < n)%nat -> refused e (requests w + k)) ->
  run (TrackerScraper.deneme n) e w =
  (Ok "", mk_world (files w)
            (trace w ++ concat (replicate n [Get TrackerScraper.site_url; Sleep 2]))%list
            (clock_reads w) (requests w + n)) /\
  (n = 3%nat ->
   run TrackerScraper.sayfa_icerik_al e w =
   (Ok "", mk_world (files w)
             (trace w ++ [Get TrackerScraper.site_url; Sleep 2;
                          Get TrackerScraper.site_url; Sleep 2;
                          Get TrackerScraper.site_url; Sleep 2])%list
             (clock_reads w) (requests w + 3))).
Proof.
  intros Hall.
  assert (Hrun : run (TrackerScraper.deneme n) e w =
                 (Ok "", mk_world (files w)
                           (trace w ++ concat (replicate n [Get TrackerScraper.site_url; Sleep 2]))%list
                           (clock_reads w) (requests w + n))).
  { revert w Hall. induction n as [|n IH]; intros w Hall.
    - cbn [TrackerScraper.deneme replicate concat]. rewrite run_ret, app_nil_r, Nat.add_0_r.
      by destruct w.
    - destruct (Hall O ltac:(lia)) as (r & Hr & Hs). rewrite Nat.add_0_r in Hr.
      rewrite (deneme_refused n r e w Hr Hs), IH.
      + cbn [noted sent files trace clock_reads requests replicate concat].
        rewrite <- !app_assoc. cbn [app]. do 2 f_equal. lia.
      + intros k Hk. cbn [noted sent requests].
        replace (S (requests w) + k)%nat with (requests w + S k)%nat by lia.
        apply Hall. lia. }
  split; [exact Hrun|]. intros ->.
  unfold TrackerScraper.sayfa_icerik_al, try_except. cbn [run]. by rewrite Hrun.
Qed.

(* ===================================================================== *)
(** * scraper.py: which posts are kept, and where they are looked for *)
(* ===================================================================== *)

Section Kept.
Context `{HtmlParser}.

(** X19: a post is kept exactly when its heading has text and its first link
    has an address.  The heading is the first [h1], or else the first [h2],
    or else the first [h3]; the link is the first [a] of the post.  A post
    whose heading text or whose [href] is missing or empty gives no
    dictionary; any other post gives one, with the cleaned heading as its
    title, the absolute [href] as its link, and the last reading of the
    clock as its time stamp. *)
Theorem post_is_kept_iff (post : node) (e : env) (w : world) :
  let title := TrackerScraper.find_title ["h1"; "h2"; "h3"] post in
  let href := find (is_tag "a") post ≫= get_attr "href" in
  exists (o : option veri) (w' : world),
    run (TrackerScraper.post_veri post) e w = (Ok o, w') /\
    (o = None <->
     title = None \/ title = Some "" \/ href = None \/ href = Some "") /\
    (forall v, o = Some v ->
       exists t h, title = Some t /\ href = Some h /\
                   baslik v = TrackerScraper.temizle_metin t /\
                   baglanti v = TrackerScraper.url_duzenle h /\
                   zaman v = strftime_Ymd_HMS (now_at e (Nat.pred (clock_reads w')))).
Proof.
  intros title href. subst title href. unfold TrackerScraper.post_veri.
  destruct (TrackerScraper.find_title _ post) as [[|c title]|].
  1,3: exists None, w; rewrite run_ret; split; [done|]; split; [|done];
       split; auto.
  destruct (find (is_tag "a") post ≫= get_attr "href") as [[|d link]|].
  1,3: exists None, w; rewrite run_ret; split; [done|]; split; [|done];
       split; auto.
  assert (Hno : ~ (Some (String c title) = None \/ Some (String c title) = Some "" \/
                   Some (String d link) = None \/ Some (String d link) = Some "")).
  { intros [|[|[|]]]; discriminate. }
  destruct (TrackerScraper.or_tag (find (is_tag "time") post) _) as [el|].
  - eexists _, _. rewrite !run_bind, run_ret. cbn [now run]. rewrite ?run_bind, ?run_ret.
    split; [reflexivity|]. split; [split; [done|by intros ?]|].
    intros v [= <-]. by exists (String c title), (String d link).
  - eexists _, _. rewrite !run_bind. cbn [now run]. rewrite ?run_ret, ?run_bind.
    cbn [now run]. rewrite ?run_ret.
    split; [reflexivity|]. split; [split; [done|by intros ?]|].
    intros v [= <-]. by exists (String c title), (String d link).
Qed.

End Kept.

(** X20: the third search for containers finds nothing new.  A [div] whose
    class is "post-list" has "post" in its class, so it is found by the
    second search already: the containers of a page are its [article] tags,
    or else its [div] tags with "post" in the class, and a page has no
    container exactly when both of these searches find nothing. *)
Theorem third_search_is_redundant (soup : node) :
  let articles := find_all (is_tag "article") soup in
  let posts :=
    find_all (fun n => is_tag "div" n && has_class (TrackerScraper.class_has "post") n) soup in
  TrackerScraper.post_containers soup = TrackerScraper.or_tags articles posts /\
  (TrackerScraper.post_containers soup = [] <-> articles = [] /\ posts = []).
Proof.
  intros articles posts.
  assert (Heq : TrackerScraper.post_containers soup = TrackerScraper.or_tags articles posts).
  { unfold TrackerScraper.post_containers. fold articles. fold posts.
    destruct articles as [|a l]; [|done]. cbn [TrackerScraper.or_tags].
    destruct posts as [|p l] eqn:Hp; [|done]. cbn [TrackerScraper.or_tags].
    by apply fallback_finds_nothing. }
  split; [exact Heq|]. rewrite Heq.
  destruct articles; [|by split; [|intros []]]. cbn [TrackerScraper.or_tags].
  split; [done|by intros []].
Qed.

(* ===================================================================== *)
(** * scraper.py: the posts of the page *)
(* ===================================================================== *)

Lemma take_str_length (n : nat) (s : string) : (String.length (take_str n s) <= n)%nat.
Proof.
  revert s. induction n as [|n IH]; intros [|c s]; cbn; try lia.
  specialize (IH s). lia.
Qed.

Section Posts.
Context `{HtmlParser}.

(** The body of the loop over the posts does not raise; it reads the clock
    and does nothing else. *)
Lemma post_veri_outcome (post : node) (e : env) (w : world) :
  exists (o : option veri) (w' : world),
    run (TrackerScraper.post_veri post) e w = (Ok o, w') /\
    files w' = files w /\ trace w' = trace w /\ requests w' = requests w /\
    forall v, o = Some v -> veri_ok v.
Proof.
  unfold TrackerScraper.post_veri.
  destruct (TrackerScraper.find_title _ post) as [[|c title]|];
    try (exists None, w; rewrite run_ret; repeat split; done).
  destruct (find (is_tag "a") post ≫= get_attr "href") as [[|d link]|];
    try (exists None, w; rewrite run_ret; repeat split; done).
  set (content := match TrackerScraper.or_tag _ _ with
                  | Some e0 => TrackerScraper.temizle_metin (get_text e0)
                  | None => ""
                  end).
  assert (Hok : forall date stamp,
             veri_ok (mk_veri (TrackerScraper.temizle_metin (String c title))
                        (TrackerScraper.url_duzenle (String d link))
                        (TrackerScraper.temizle_metin date)
                        (if String.eqb content "" then ""
                         else take_str 200 content +:+ "...")
                        stamp)).
  { intros date stamp. unfold veri_ok. cbn [baslik tarih baglanti ozet].
    rewrite !temizle_metin_tidy, url_duzenle_http by done.
    repeat split. destruct (String.eqb_spec content "") as [|Hne]; [by left|].
    right. exists (take_str 200 content). split; [by destruct content|].
    split; [apply take_str_length|done]. }
  destruct (TrackerScraper.or_tag (find (is_tag "time") post) _) as [el|].
  - eexists _, _. rewrite !run_bind, run_ret. cbn [now run]. rewrite ?run_bind, ?run_ret.
    split; [reflexivity|]. cbn. split; [done|]. split; [done|]. split; [done|].
    intros v [= <-]. apply Hok.
  - eexists _, _. rewrite !run_bind. cbn [now run]. rewrite ?run_ret, ?run_bind.
    cbn [now run]. rewrite ?run_ret.
    split; [reflexivity|]. cbn. split; [done|]. split; [done|]. split; [done|].
    intros v [= <-]. apply Hok.
Qed.

(** The loop over the posts: no post ends it, none leaves a message of
    error, and every dictionary that it gathers is well formed. *)
Lemma collect_post_veri (posts : list node) (e : env) (w : world) :
  exists (l : list veri) (w' : world),
    run (TrackerScraper.collect TrackerScraper.post_veri posts) e w = (Ok l, w') /\
    files w' = files w /\ trace w' = trace w /\ requests w' = requests w /\
    (length l <= length posts)%nat /\ Forall veri_ok l.
Proof.
  revert w. induction posts as [|post posts IH]; intros w.
  - exists [], w. cbn [TrackerScraper.collect]. rewrite run_ret. repeat split; auto.
  - destruct (post_veri_outcome post e w) as (o & w1 & Hrun & Hf & Ht & Hr & Hok).
    destruct (IH w1) as (l & w2 & Hrest & Hf' & Ht' & Hr' & Hlen & Hall).
    destruct o as [v|].
    + exists (v :: l), w2. rewrite (collect_found _ _ _ _ _ _ _ Hrun), Hrest.
      repeat split; try congruence; [cbn; lia|]. constructor; auto.
    + exists l, w2. rewrite (collect_skipped _ _ _ _ _ _ Hrun), Hrest.
      repeat split; try congruence; auto. cbn; lia.
Qed.

End Posts.

Lemma str_lt_irrefl (a : string) : str_lt a a = false.
Proof. destruct (str_lt a a) eqn:Ha; [by apply str_lt_asym in Ha as Ha'; congruence|done]. Qed.

Lemma tied_tarih (z v : veri) : tied tarih_lt z v = String.eqb (tarih v) (tarih z).
Proof.
  unfold tied, tarih_lt. destruct (String.eqb_spec (tarih v) (tarih z)) as [->|Hne].
  - by rewrite str_lt_irrefl.
  - destruct (str_lt (tarih z) (tarih v)) eqn:H1; [done|].
    destruct (str_lt (tarih v) (tarih z)) eqn:H2; [done|].
    destruct Hne. by apply str_lt_tied.
Qed.

(** X21: the sort that ends [veri_ayikla] does not raise and is stable.  Its
    result holds the dictionaries it was given, in descending order of the
    texts of their dates compared as strings, and the dictionaries that have
    one and the same date text stand in the order in which the page had
    them. *)
Theorem veriler_sorted_by_date_text (veriler : list veri) :
  exists l : list veri,
    sorted_reverse TrackerScraper.by_tarih veriler = Ok l /\
    Permutation veriler l /\
    StronglySorted newest_text_first l /\
    forall d : string,
      List.filter (fun v => String.eqb (tarih v) d) l
      = List.filter (fun v => String.eqb (tarih v) d) veriler.
Proof.
  destruct (sorted_reverse_total (fun _ => True) TrackerScraper.by_tarih tarih_lt)
    with (l := veriler) as (l & Hs & Hperm & Hsorted & Hf).
  - done.
  - intros a b _ _. apply str_lt_asym.
  - intros a b c _ _ _. apply str_lt_chain.
  - by apply Forall_forall.
  - exists l. split; [done|]. split; [done|]. split; [done|]. intros d.
    specialize (Hf (mk_veri "" "" d "" "") I).
    erewrite (List.filter_ext _ (tied tarih_lt (mk_veri "" "" d "" ""))).
    + rewrite Hf. apply List.filter_ext. intros v. by rewrite tied_tarih.
    + intros v. by rewrite tied_tarih.
Qed.

(* ===================================================================== *)
(** * scraper.py: the whole extraction, and [main] *)
(* ===================================================================== *)

Lemma sayfa_icerik_al_page (e : env) (w : world) :
  exists (page : string) (w' : world),
    run TrackerScraper.sayfa_icerik_al e w = (Ok page, w') /\
    files w' = files w /\
    (requests w < requests w' <= requests w + 3)%nat /\
    (page <> "" ->
     exists rr, respond e (Nat.pred (requests w')) = Reply rr /\
                status_code rr = 200 /\ text rr = page).
Proof.
  destruct (deneme_outcome 3 e w) as (r & w1 & Hrun & Hf & _ & Hn & _ & Hlast).
  unfold TrackerScraper.sayfa_icerik_al, try_except. cbn [run]. rewrite Hrun.
  destruct r as [page|x].
  - exists page, w1. split; [done|]. split; [done|].
    destruct Hlast as [[Hlt Hserved]|(-> & Hreq & _)]; (split; [lia|done]).
  - destruct Hlast as (_ & Hlt & _). eexists "", _. split; [reflexivity|].
    cbn [print emit run mbind M_bind mret M_ret files trace clock_reads requests].
    split; [done|]. split; [lia|done].
Qed.

Section Extraction.
Context `{HtmlParser}.

(** The extraction does not raise.  It returns no dictionary, or the last
    request was answered 200 with a page that is not empty, and the result
    is what the loop over the containers of that page gathered, sorted. *)
Lemma veri_ayikla_outcome (e : env) (w : world) :
  exists (l : list veri) (w' : world),
    run TrackerScraper.veri_ayikla e w = (Ok l, w') /\
    files w' = files w /\
    (requests w < requests w' <= requests w + 3)%nat /\
    (l = [] \/
     exists (rr : response) (found : list veri),
       respond e (Nat.pred (requests w')) = Reply rr /\
       status_code rr = 200 /\ text rr <> "" /\
       (length found <= length (TrackerScraper.post_containers (BeautifulSoup (text rr))))%nat /\
       Forall veri_ok found /\
       sorted_reverse TrackerScraper.by_tarih found = Ok l).
Proof.
  destruct (sayfa_icerik_al_page e w) as (page & w1 & Hpage & Hf & Hn & Hserved).
  unfold TrackerScraper.veri_ayikla. rewrite run_bind, Hpage.
  destruct (String.eqb_spec page "") as [->|Hne].
  { exists [], w1. rewrite run_ret. repeat split; try done; try lia. by left. }
  destruct (Hserved Hne) as (rr & Hrr & Hs & <-).
  unfold try_except. cbn [run].
  destruct (TrackerScraper.post_containers (BeautifulSoup (text rr))) as [|c cs] eqn:Hc.
  { eexists [], _. split; [reflexivity|].
    cbn [print emit run mbind M_bind mret M_ret files trace clock_reads requests].
    repeat split; try done; try lia. by left. }
  destruct (collect_post_veri (c :: cs) e w1) as (found & w2 & Hrun & Hf' & _ & Hr & Hlen & Hok).
  destruct (sorted_reverse_total (fun _ => True) TrackerScraper.by_tarih tarih_lt)
    with (l := found) as (l & Hl & _).
  { done. }
  { intros a b _ _. apply str_lt_asym. }
  { intros a b c0 _ _ _. apply str_lt_chain. }
  { by apply Forall_forall. }
  exists l, w2. rewrite run_bind, Hrun, run_lift, Hl.
  split; [done|]. split; [congruence|]. split; [lia|]. right. exists rr, found.
  rewrite Hr, Hc. done.
Qed.

(** X22: [veri_ayikla] never raises, whatever the network gives and whatever
    the parser makes of the page.  It sends three requests at most and
    writes no file.  Its dictionaries stand in descending order of the texts
    of their dates, each with cleaned title and date, an absolute link, and
    a summary that is empty or ends in three dots; and it returns a
    dictionary only when its last request was answered 200 with a page in
    which as many containers at least were found. *)
Theorem veri_ayikla_never_raises (e : env) (w : world) :
  exists (l : list veri) (w' : world),
    run TrackerScraper.veri_ayikla e w = (Ok l, w') /\
    files w' = files w /\
    (requests w < requests w' <= requests w + 3)%nat /\
    StronglySorted newest_text_first l /\
    Forall veri_ok l /\
    (l <> [] ->
     exists rr, respond e (Nat.pred (requests w')) = Reply rr /\
                status_code rr = 200 /\ text rr <> "" /\
                (length l <= length (TrackerScraper.post_containers (BeautifulSoup (text rr))))%nat).
Proof.
  destruct (veri_ayikla_outcome e w)
    as (l & w' & Hrun & Hf & Hn & [->|(rr & found & Hrr & Hs & Hne & Hlen & Hok & Hl)]).
  { exists [], w'. repeat split; try done; try lia; constructor. }
  destruct (sorted_reverse_total (fun _ => True) TrackerScraper.by_tarih tarih_lt)
    with (l := found) as (l' & Hl' & Hperm & Hsorted & _).
  { done. }
  { intros a b _ _. apply str_lt_asym. }
  { intros a b c0 _ _ _. apply str_lt_chain. }
  { by apply Forall_forall. }
  assert (l' = l) as -> by congruence.
  exists l, w'. split; [done|]. split; [done|]. split; [done|]. split; [exact Hsorted|].
  split; [by rewrite <- Hperm|]. intros _. exists rr.
  repeat split; try done. by rewrite <- (Permutation_length Hperm).
Qed.

Lemma show_veri_run (v : veri) (e : env) (w : world) :
  exists w', run (TrackerScraper.show_veri v) e w = (Ok tt, w') /\ files w' = files w /\
             requests w' = requests w.
Proof.
  unfold TrackerScraper.show_veri. destruct (String.eqb (ozet v) ""); by eexists.
Qed.

Lemma for_each_show_veri (l : list veri) (e : env) (w : world) :
  exists w', run (for_each TrackerScraper.show_veri l) e w = (Ok tt, w') /\
             files w' = files w /\ requests w' = requests w.
Proof.
  revert w. induction l as [|v l IH]; intros w; [by exists w|].
  destruct (show_veri_run v e w) as (w1 & Hrun & Hf & Hr).
  destruct (IH w1) as (w2 & Hrest & Hf' & Hr').
  exists w2. cbn [for_each]. rewrite run_bind, Hrun. split; [exact Hrest|]. split; congruence.
Qed.

(** X23: [main] of the scraper writes [tracker_data.json] when dictionaries
    were found, and only then.  It raises nothing (the writing of the file
    cannot fail here); with an empty result it
    prints its two lines and leaves the files as they were, and with a
    result it writes the dictionaries, in the order of the result, to that
    one file. *)
Theorem main_saves_what_was_found (e : env) (w : world) :
  exists (l : list veri) (w1 w' : world),
    run TrackerScraper.veri_ayikla e (noted (Print "Veriler çekiliyor...") w) = (Ok l, w1) /\
    run TrackerScraper.main e w = (Ok tt, w') /\
    requests w' = requests w1 /\
    (l = [] ->
     files w' = files w /\
     trace w' = (trace w1 ++
                 [Print (LF +:+ "❌ Veri bulunamadı.");
                  Print "Lütfen site yapısını kontrol edin veya daha sonra tekrar deneyin."])%list) /\
    (l <> [] ->
     files w' = <["tracker_data.json" := Json (JArr (map TrackerScraper.veri_json l))]> (files w)).
Proof.
  destruct (veri_ayikla_outcome e (noted (Print "Veriler çekiliyor...") w))
    as (l & w1 & Hrun & Hf & _).
  exists l, w1. unfold TrackerScraper.main, try_except. cbn [run].
  rewrite run_bind. change (run (print "Veriler çekiliyor...") e w)
    with (Ok tt, noted (Print "Veriler çekiliyor...") w).
  cbn beta iota. rewrite run_bind, Hrun. destruct l as [|v l].
  - eexists. split; [done|]. split; [reflexivity|].
    cbn [print emit run mbind M_bind mret M_ret files trace clock_reads requests].
    split; [done|]. split; [|done]. intros _. split; [exact Hf|]. by rewrite <- app_assoc.
  - destruct (for_each_show_veri (v :: l) e
                (noted (Print (TrackerScraper.rule "=" 50 +:+ LF))
                   (noted (Print ("Toplam " +:+ pretty (length (v :: l)) +:+ " tracker bulundu"))
                      (noted (Print (LF +:+ TrackerScraper.rule "=" 50))
                         (written "tracker_data.json"
                            (Json (JArr (map TrackerScraper.veri_json (v :: l)))) w1)))))
      as (w2 & Hshow & Hf2 & Hr2).
    exists w2. split; [done|]. split.
    + rewrite !run_bind.
      cbn [write_file print emit run]. cbn beta iota. rewrite !run_bind.
      cbn [write_file print emit run]. cbn beta iota.
      unfold noted, written in Hshow. cbn in Hshow |- *. by rewrite Hshow.
    + split; [exact Hr2|]. split; [done|]. intros _. rewrite Hf2. cbn. by rewrite Hf.
Qed.

End Extraction.

(* ===================================================================== *)
(** * The further statements at the sample inputs *)
(* ===================================================================== *)

(** A post that has its identifier only: the title is missed first. *)
Lemma wordpress_post_needs_its_keys_witness :
  exists x : exn,
    @WordPressAPI._parse_post plain_lib (JObj [("id", JNum 102)]) = Raise x /\
    ("title" = "title" -> x = KeyError).
Proof.
  apply (@wordpress_post_needs_its_keys plain_lib [("id", JNum 102)] "title").
  - by left.
  - reflexivity.
Defined.

(** The sample post has the category "Music" in its first group of terms
    and the tag "limited-signup" in its second. *)
Lemma wordpress_categories_are_category_terms_witness :
  let r := mk_TrackerData "Libble" (mk_datetime 2024 1 3 10 0 0 0 None) "Signups are open."
             ["Music"] "https://opentrackers.org/2024/01/03/sample/" true in
  @WordPressAPI._parse_post plain_lib
    (wp_post "Libble is Open for Limited Signup!" "2024-01-03T10:00:00") = Ok r /\
  categories r
  = omap category_name
      [JObj [("id", JNum 7); ("name", JStr "Music"); ("taxonomy", JStr "category")]].
Proof.
  intros r. split; [reflexivity|].
  by apply (@wordpress_categories_are_category_terms plain_lib
              (wp_post "Libble is Open for Limited Signup!" "2024-01-03T10:00:00")).
Defined.

(** The sample post dated "2024-01-03T10:00:00Z". *)
Lemma wordpress_date_reading_witness :
  let post := wp_post "Libble is Open for Limited Signup!" "2024-01-03T10:00:00Z" in
  @WordPressAPI._parse_post plain_lib post = Ok libble_record /\
  forall (t : string) (d : datetime),
    "2024-01-03T10:00:00Z" = t +:+ "Z" -> iso_seconds t = Some d -> tzinfo d = None ->
    date libble_record
    = mk_datetime (year d) (month d) (day d) (hour d) (minute d) (second d)
        (microsecond d) (Some 0).
Proof.
  intros post. split; [reflexivity|].
  by apply (@wordpress_date_reading plain_lib post "2024-01-03T10:00:00Z" libble_record).
Defined.

(** The excerpt "<p>Signups are open.</p>" of the sample post. *)
Lemma wordpress_description_drops_paragraph_tags_witness :
  description libble_record = strip ("Signups are open." +:+ "").
Proof.
  by apply (@wordpress_description_drops_paragraph_tags plain_lib
              (wp_post "Libble is Open for Limited Signup!" "2024-01-03T10:00:00Z")
              "<p>Signups are open.</p>" "Signups are open." "" libble_record).
Defined.

(** A child of a listing that has its kind only. *)
Lemma reddit_post_defaults_witness :
  let e := mk_env still_clock still_clock (fun _ => Failed) in
  run (@RedditAPI._parse_post plain_lib "OpenSignup" (JObj [("kind", JStr "t3")])) e initial
  = (Ok (mk_TrackerData "No Title" (still_clock 0) "" []
           "https://www.reddit.com/r/OpenSignup" false),
     ticked initial).
Proof.
  intros e.
  by apply (@reddit_post_defaults plain_lib "OpenSignup" [("kind", JStr "t3")] e initial).
Defined.

(** A post whose title and whose identifier are both empty. *)
Lemma reddit_name_is_title_or_id_witness :
  let e := mk_env still_clock still_clock (fun _ => Failed) in
  let members := [("id", JStr ""); ("title", JStr "")] in
  let r := mk_TrackerData "" (still_clock 0) "" [] "https://www.reddit.com/r/OpenSignup" false in
  run (@RedditAPI._parse_post plain_lib "OpenSignup" (JObj members)) e initial
  = (Ok r, ticked initial) /\
  (name r = "" -> assoc "id" members = Some (JStr "")).
Proof.
  intros e members r. split; [reflexivity|].
  by apply (@reddit_name_is_title_or_id plain_lib "OpenSignup" members "" e initial
              (ticked initial) r).
Defined.

(** The fifth and the sixth of January 2024. *)
Lemma dated_files_differ_by_day_witness :
  dated_file "data" (mk_datetime 2024 1 5 8 30 0 0 None)
  = dated_file "data" (mk_datetime 2024 1 6 8 30 0 0 None)
  <-> same_day (mk_datetime 2024 1 5 8 30 0 0 None) (mk_datetime 2024 1 6 8 30 0 0 None).
Proof.
  apply (dated_files_differ_by_day "data"); unfold calendar_date; cbn; lia.
Defined.

(** The record of the sample post, whose date is proper. *)
Lemma snapshot_entry_determines_record_witness :
  proper (date libble_record) /\ libble_record = libble_record.
Proof.
  assert (Hproper : proper (date libble_record)).
  { unfold proper, calendar_date. cbn. split; [lia|]. do 4 (split; [lia|]).
    intros off [= <-]. lia. }
  split; [exact Hproper|].
  by apply (snapshot_entry_determines_record libble_record libble_record).
Defined.

(** Three answers 503. *)
Lemma refused_attempts_sleep_witness :
  let e := mk_env still_clock still_clock always_busy in
  run TrackerScraper.sayfa_icerik_al e initial =
  (Ok "", mk_world ∅ [Get TrackerScraper.site_url; Sleep 2;
                      Get TrackerScraper.site_url; Sleep 2;
                      Get TrackerScraper.site_url; Sleep 2] 0 3).
Proof.
  intros e. apply (refused_attempts_sleep 3 e initial); [|reflexivity].
  intros k _. eexists. split; [reflexivity|done].
Defined.
